(** * SV-COMP table preparation: verdict reconciliation, witness
      classification and score aggregation

    A shallow embedding of the adjudication scripts under
    [scripts/prepare_tables], and what they guarantee:

    - [mkAnaDatabaseWitnesses.py]    module [Witnesses],
    - [adjust_results_verifiers.py]  module [Reconcile],
    - [utils.py]                     module [Utils],
    - [mkAnaScores.py]               module [Scores],
    - [mkAnaScoresValidators.py]     module [ScoresValidators],
    - [adjust_results_validators.py] module [ResultsValidators].

    Python values that may be [None] are options, dictionaries are
    association lists in insertion order, a raised exception is the
    [Raise] outcome of the [Exc] monad, and [decimal.Decimal] is a type
    class whose operations are left open ([Decimal]); [ExactDecimal] is
    its instance on the rationals, on which the examples are run.  The
    definitions come first; the properties follow, module by module
    ([WitnessesSpec], [ReconcileSpec], [ScoresSpec], [UtilsSpec],
    [RankingSpec]; then [ReconcileFacts], [WitnessesFacts],
    [ScoresFacts], [RankingFacts], [UtilsFacts], [ScoresInfoFacts] and
    [ParticipationFacts] on the functions around them). *)

From Stdlib Require Import String Ascii List Bool Arith ZArith Lia.
From Stdlib Require Import DecimalString QArith.
From Stdlib Require Import Sorting.Permutation Sorting.Sorted.
Import ListNotations.
Local Open Scope Z_scope.
Local Open Scope string_scope.

(* ================================================================== *)
(** ** Python prelude *)
(* ================================================================== *)

Module Py.

(** The exceptions the scripts can raise. *)
Inductive Exn : Type :=
| AssertionError
| AttributeError
| KeyError
| ValueError
| TypeError
| IndexError
| InvalidOperation
| ZeroDivisionError
| ArithmeticError.

(** Outcome of a call: a value, or a raised exception. *)
Inductive Exc (A : Type) : Type :=
| Ok (a : A)
| Raise (e : Exn).
Arguments Ok {A} a.
Arguments Raise {A} e.

Definition bind {A B} (c : Exc A) (k : A -> Exc B) : Exc B :=
  match c with
  | Ok a => k a
  | Raise e => Raise e
  end.

Definition assert (b : bool) : Exc unit :=
  if b then Ok tt else Raise AssertionError.

(** [try: c except e: h] *)
Definition try_except {A} (c : Exc A) (e : Exn) (h : Exc A) : Exc A :=
  match c with
  | Ok a => Ok a
  | Raise e' => match e, e' with
                | AttributeError, AttributeError => h
                | InvalidOperation, InvalidOperation => h
                | KeyError, KeyError => h
                | TypeError, TypeError => h
                | _, _ => Raise e'
                end
  end.

(** A [for] loop whose body may raise. *)
Fixpoint for_each {S A} (body : S -> A -> Exc S) (xs : list A) (s : S) : Exc S :=
  match xs with
  | [] => Ok s
  | x :: xs' => bind (body s x) (for_each body xs')
  end.

(** A [str] that may be [None]. *)
Definition pystr := option string.

Definition pystr_eqb (a b : pystr) : bool :=
  match a, b with
  | Some x, Some y => String.eqb x y
  | None, None => true
  | _, _ => false
  end.

(** [str(x)] / f-string interpolation of a possibly-[None] string. *)
Definition str_of (a : pystr) : string :=
  match a with
  | Some s => s
  | None => "None"
  end.

(** [s.startswith(p)] *)
Definition startswith (s p : string) : bool := String.prefix p s.

Fixpoint rev_string (s : string) : string :=
  match s with
  | EmptyString => EmptyString
  | String c s' => rev_string s' ++ String c EmptyString
  end.

(** [s.endswith(p)] *)
Definition endswith (s p : string) : bool :=
  String.prefix (rev_string p) (rev_string s).

(** [p in s] for strings, and [re.search(p, s)] for a literal pattern. *)
Fixpoint contains (s p : string) : bool :=
  String.prefix p s ||
  match s with
  | EmptyString => false
  | String _ s' => contains s' p
  end.

(** [s.split(sep)] for a one-character separator. *)
Fixpoint split (sep : ascii) (s : string) : list string :=
  match s with
  | EmptyString => [EmptyString]
  | String c s' =>
      if Ascii.eqb c sep then EmptyString :: split sep s'
      else match split sep s' with
           | [] => [String c EmptyString]
           | h :: t => String c h :: t
           end
  end.

(** [s.split(sep)[0]] *)
Definition split_head (sep : ascii) (s : string) : string :=
  hd EmptyString (split sep s).

(** [s.split(sep)[0]] for a separator of any length. *)
Fixpoint split_head_str (sep : string) (s : string) : string :=
  if String.prefix sep s then EmptyString
  else match s with
       | EmptyString => EmptyString
       | String c s' => String c (split_head_str sep s')
       end.

(** [s.replace(c, "")] for a one-character [c]. *)
Fixpoint remove_char (c : ascii) (s : string) : string :=
  match s with
  | EmptyString => EmptyString
  | String d s' =>
      if Ascii.eqb d c then remove_char c s' else String d (remove_char c s')
  end.

Definition lower_ascii (c : ascii) : ascii :=
  let n := nat_of_ascii c in
  if (65 <=? n)%nat && (n <=? 90)%nat then ascii_of_nat (n + 32) else c.

(** [s.lower()] on ASCII text. *)
Fixpoint lower (s : string) : string :=
  match s with
  | EmptyString => EmptyString
  | String c s' => String (lower_ascii c) (lower s')
  end.

(** [str(n)] for a non-negative [int]. *)
Definition str_of_nat (n : nat) : string :=
  NilEmpty.string_of_uint (Nat.to_uint n).

(** [x in xs] for a tuple or set of strings. *)
Definition str_in (x : string) (xs : list string) : bool :=
  existsb (String.eqb x) xs.

(** [x in xs] where [x] may be [None]. *)
Definition pystr_in (x : pystr) (xs : list string) : bool :=
  match x with
  | Some s => str_in s xs
  | None => false
  end.

(** [c.isspace()] on ASCII text. *)
Definition is_space (c : ascii) : bool :=
  let n := nat_of_ascii c in
  ((9 <=? n)%nat && (n <=? 13)%nat) || ((28 <=? n)%nat && (n <=? 32)%nat).

(** [s.split()]: the words of [s], which runs of whitespace separate;
    [word] is the word being read. *)
Fixpoint split_words_from (word : option string) (s : string) : list string :=
  match s with
  | EmptyString =>
      match word with
      | Some w => [w]
      | None => []
      end
  | String c s' =>
      if is_space c then
        match word with
        | Some w => w :: split_words_from None s'
        | None => split_words_from None s'
        end
      else
        split_words_from
          (Some (match word with
                 | Some w => w ++ String c EmptyString
                 | None => String c EmptyString
                 end)) s'
  end.

Definition split_words (s : string) : list string := split_words_from None s.

(** [s[n:]] *)
Fixpoint string_drop (n : nat) (s : string) : string :=
  match n, s with
  | O, _ => s
  | S n', String _ s' => string_drop n' s'
  | S _, EmptyString => EmptyString
  end.

(** Dictionaries keep insertion order; assigning an existing key keeps
    the key's position and replaces its value. *)
Section Dict.
Context {K V : Type} (keq : K -> K -> bool).

Fixpoint dict_get (k : K) (d : list (K * V)) : option V :=
  match d with
  | [] => None
  | (k', v) :: d' => if keq k k' then Some v else dict_get k d'
  end.

Fixpoint dict_set (k : K) (v : V) (d : list (K * V)) : list (K * V) :=
  match d with
  | [] => [(k, v)]
  | (k', v') :: d' =>
      if keq k k' then (k', v) :: d' else (k', v') :: dict_set k v d'
  end.
End Dict.

End Py.

Export Py.

Declare Scope exc_scope.
Delimit Scope exc_scope with exc.
Notation "x <- c ;; k" := (bind c (fun x => k))
  (at level 61, c at next level, right associativity) : exc_scope.
Notation "' p <- c ;; k" := (bind c (fun x => let p := x in k))
  (at level 61, p pattern, c at next level, right associativity) : exc_scope.
Notation "c ;;; k" := (bind c (fun _ => k))
  (at level 61, right associativity) : exc_scope.
Local Open Scope exc_scope.

(** ** Constants of [benchexec.result] used by the scripts *)

Module result.
Definition CATEGORY_CORRECT := "correct".
Definition CATEGORY_CORRECT_UNCONFIRMED := "correct-unconfirmed".
Definition CATEGORY_WRONG := "wrong".
Definition CATEGORY_UNKNOWN := "unknown".
Definition CATEGORY_ERROR := "error".
Definition CATEGORY_MISSING := "missing".
Definition RESULT_DONE := "done".
Definition RESULT_TRUE_PROP := "true".
Definition RESULT_FALSE_PROP := "false".
Definition WITNESS_CATEGORY_CORRECT := "correct".
Definition WITNESS_CATEGORY_WRONG := "wrong".
Definition WITNESS_CATEGORY_UNKNOWN := "unknown".
Definition _SCORE_CORRECT_TRUE : Z := 2.
Definition _SCORE_CORRECT_FALSE : Z := 1.
End result.

(* ================================================================== *)
(** ** Witness classification ([mkAnaDatabaseWitnesses.py]) *)
(* ================================================================== *)

Module Witnesses.

Definition COLUMN_CATEGORY := "category".
Definition COLUMN_TASK := "task".
Definition COLUMN_VERIFIER := "verifier".
Definition COLUMN_SPECIFICATION := "specification".
Definition COLUMN_EXPECTED := "expected".
Definition COLUMN_WITNESS_EXPECTED := "witnessExpected".
Definition COLUMN_WITNESS_TYPE := "witnessType".

Definition WITNESSLINT_CORRECTNESS_TYPES := ["CORRECTNESS"; "correctness_witness"].
Definition WITNESSLINT_VIOLATION_TYPES := ["VIOLATION"; "violation_witness"].

(** A cell of the data frame: a [str], or a value of another type
    (bool, float, ...) of which only [str(v)] is observed. *)
Inductive Cell : Type :=
| CStr (s : string)
| COther (repr : string).

(** [str(v)] *)
Definition cell_str (v : Cell) : string :=
  match v with
  | CStr s => s
  | COther r => r
  end.

(** [v == s] for a string literal [s]. *)
Definition cell_is (v : Cell) (s : string) : bool :=
  match v with
  | CStr s' => String.eqb s' s
  | COther _ => false
  end.

(** [v in xs] for a tuple of string literals. *)
Definition cell_in (v : Cell) (xs : list string) : bool :=
  existsb (cell_is v) xs.

(** [isinstance(v, str)] *)
Definition cell_isinstance_str (v : Cell) : bool :=
  match v with
  | CStr _ => true
  | COther _ => false
  end.

(** A row of the data frame, indexed by column name. *)
Definition Row := list (string * Cell).

(** [row[c]] *)
Definition row_get (row : Row) (c : string) : Exc Cell :=
  match dict_get String.eqb c row with
  | Some v => Ok v
  | None => Raise KeyError
  end.

(** The returned dictionary
    [{witness_kind: category, f"voting-{witness_kind}": voting}]. *)
Definition classification (witness_kind category voting : string)
  : list (string * string) :=
  dict_set String.eqb ("voting-" ++ witness_kind) voting
    (dict_set String.eqb witness_kind category []).

Definition kinds :=
  ["correctness-1.0"; "correctness-2.0"; "violation-1.0"; "violation-2.0"].

(** [len([1 for c in columns if row[c].startswith(verdict)])], once every
    [row[c]] is known to be a string. *)
Fixpoint count_startswith (row : Row) (columns : list string) (verdict : string)
  : Exc nat :=
  match columns with
  | [] => Ok 0%nat
  | c :: cs =>
      v <- row_get row c ;;
      n <- count_startswith row cs verdict ;;
      Ok (if startswith (cell_str v) verdict then S n else n)
  end.

(** The [for c in columns: if not isinstance(row[c], str): raise] loop. *)
Fixpoint check_columns_are_strings (row : Row) (columns : list string) : Exc unit :=
  match columns with
  | [] => Ok tt
  | c :: cs =>
      v <- row_get row c ;;
      assert (cell_isinstance_str v) ;;;
      check_columns_are_strings row cs
  end.

(** The vote at the end of [_classify_task]. *)
Definition vote (witness_kind : string) (confirmed rejected : nat)
  : list (string * string) :=
  let voting := str_of_nat confirmed ++ ":" ++ str_of_nat rejected in
  if (2 <=? confirmed + rejected)%nat then
    if (3 * rejected <=? confirmed)%nat then
      classification witness_kind result.WITNESS_CATEGORY_CORRECT voting
    else if (3 * confirmed <=? rejected)%nat then
      classification witness_kind result.WITNESS_CATEGORY_WRONG voting
    else
      classification witness_kind result.WITNESS_CATEGORY_UNKNOWN voting
  else
    classification witness_kind result.WITNESS_CATEGORY_UNKNOWN voting.

(** The category the vote returns, as a function of the two counts. *)
Definition vote_category (confirmed rejected : nat) : string :=
  if (2 <=? confirmed + rejected)%nat then
    if (3 * rejected <=? confirmed)%nat then result.WITNESS_CATEGORY_CORRECT
    else if (3 * confirmed <=? rejected)%nat then result.WITNESS_CATEGORY_WRONG
    else result.WITNESS_CATEGORY_UNKNOWN
  else result.WITNESS_CATEGORY_UNKNOWN.

(** [validator_expected_witness, version = witness_kind.split("-")] *)
Definition split_kind (witness_kind : string) : Exc (string * string) :=
  match split "-" witness_kind with
  | [a; b] => Ok (a, b)
  | _ => Raise ValueError
  end.

(** [opposite_verdict] *)
Definition opposite_of (expected_verdict : string) : string :=
  if String.eqb expected_verdict result.RESULT_TRUE_PROP
  then result.RESULT_FALSE_PROP else result.RESULT_TRUE_PROP.

Definition _classify_task (row : Row) (columns : list string) (witness_kind : string)
  : Exc (list (string * string)) :=
  assert (str_in witness_kind kinds) ;;;
  ' (validator_expected_witness, version) <- split_kind witness_kind ;;
  expected <- row_get row COLUMN_EXPECTED ;;
  let expected_verdict := lower (cell_str expected) in
  verifier <- row_get row "verifier" ;;
  if cell_is verifier "witnessmap" then
    witness_expected <- row_get row COLUMN_WITNESS_EXPECTED ;;
    if cell_in witness_expected [""; "-"] then
      (* the warning interpolates [row[COLUMN_TASK]] *)
      row_get row COLUMN_TASK ;;;
      Ok (classification witness_kind result.WITNESS_CATEGORY_UNKNOWN "-:-")
    else if negb (String.eqb (lower (cell_str witness_expected))
                             (lower expected_verdict)) then
      Ok (classification witness_kind result.WITNESS_CATEGORY_WRONG "-:-")
    else
      Ok (classification witness_kind result.WITNESS_CATEGORY_CORRECT "-:-")
  else
    witness_expected <- row_get row COLUMN_WITNESS_EXPECTED ;;
    (if negb (cell_in witness_expected [""; "-"]) then
       (* the message interpolates [row[COLUMN_VERIFIER]] *)
       row_get row COLUMN_VERIFIER ;;; Raise ValueError
     else Ok tt) ;;;
    witness_type <- row_get row (COLUMN_WITNESS_TYPE ++ "-" ++ version) ;;
    let unknown :=
      Ok (classification witness_kind result.WITNESS_CATEGORY_UNKNOWN "-:-") in
    let wrong :=
      Ok (classification witness_kind result.WITNESS_CATEGORY_WRONG "-:-") in
    let continue_with_vote :=
      let opposite_verdict := opposite_of expected_verdict in
      check_columns_are_strings row columns ;;;
      confirmed <- count_startswith row columns expected_verdict ;;
      rejected <- count_startswith row columns opposite_verdict ;;
      Ok (vote witness_kind confirmed rejected) in
    if cell_in witness_type WITNESSLINT_CORRECTNESS_TYPES then
      if String.eqb validator_expected_witness "violation" then unknown
      else if startswith expected_verdict result.RESULT_FALSE_PROP then wrong
      else continue_with_vote
    else if cell_in witness_type WITNESSLINT_VIOLATION_TYPES then
      if String.eqb validator_expected_witness "correctness" then unknown
      else if startswith expected_verdict result.RESULT_TRUE_PROP then wrong
      else continue_with_vote
    else unknown.

(** Entries of the returned dictionary. *)
Definition category_of (witness_kind : string) (d : list (string * string))
  : option string := dict_get String.eqb witness_kind d.
Definition voting_of (witness_kind : string) (d : list (string * string))
  : option string := dict_get String.eqb ("voting-" ++ witness_kind) d.

Definition WITNESS_VERSION_1 := "1.0".
Definition WITNESS_VERSION_2 := "2.0".

(** [witnesses[kind].append(c)] on a [defaultdict] of lists. *)
Definition append_to (kind c : string) (witnesses : list (string * list string))
  : list (string * list string) :=
  dict_set String.eqb kind
    (match dict_get String.eqb kind witnesses with
     | Some cs => cs ++ [c]
     | None => [c]
     end)%list
    witnesses.

(** The dictionary [witnesses] of [valid_tasks]: the columns of the
    validators, by the kind of witness they validate. *)
Definition valid_tasks_witnesses (columns : list string)
  : list (string * list string) :=
  fold_left
    (fun witnesses c =>
       let witnesses :=
         if contains c "correctness" then
           append_to (if contains c WITNESS_VERSION_1
                      then "correctness-1.0" else "correctness-2.0") c witnesses
         else witnesses in
       if contains c "violation" then
         append_to (if contains c WITNESS_VERSION_1
                    then "violation-1.0" else "violation-2.0") c witnesses
       else witnesses)
    columns [].

End Witnesses.

(* ================================================================== *)
(** ** Numbers *)
(* ================================================================== *)

(** Python's [decimal.Decimal] with the operations the scripts use, and
    [benchexec.util.print_decimal].  The scripts only divide by divisors
    they have checked to be non-zero, or let the division raise; the
    embedding makes that check before calling [dec_div]. *)
Class Decimal (D : Type) : Type := {
  Decimal_of_Z : Z -> D;                    (* [Decimal(n)] for an [int] *)
  Decimal_of_string : string -> option D;   (* [Decimal(s)]; [None]: InvalidOperation *)
  dec_add : D -> D -> D;
  dec_sub : D -> D -> D;
  dec_mul : D -> D -> D;
  dec_div : D -> D -> D;
  dec_eqb : D -> D -> bool;
  dec_ltb : D -> D -> bool;
  print_decimal : D -> string
}.

(** [max(a, b)]: the first argument unless the second is greater. *)
Definition dec_max {D} `{Decimal D} (a b : D) : D :=
  if dec_ltb a b then b else a.

(** The laws of exact arithmetic.  [Decimal] addition obeys them as long
    as no sum is rounded to the precision of the context. *)
Class DecimalExact (D : Type) `{Decimal D} : Prop := {
  dec_add_comm : forall a b : D, dec_add a b = dec_add b a;
  dec_add_assoc :
    forall a b c : D, dec_add (dec_add a b) c = dec_add a (dec_add b c);
  dec_of_Z_add :
    forall x y : Z,
      Decimal_of_Z (x + y) = dec_add (Decimal_of_Z x) (Decimal_of_Z y)
}.

(** The laws of the comparisons used by the ranking, as they hold on
    numbers: [<] is a strict weak order, [==] holds of the numbers
    neither of which is less than the other, and the conversion of the
    [int]s keeps their order. *)
Class DecimalOrder (D : Type) `{Decimal D} : Prop := {
  dec_ltb_asym : forall a b : D, dec_ltb a b = true -> dec_ltb b a = false;
  dec_ltb_negtrans :
    forall a b c : D,
      dec_ltb a b = false -> dec_ltb b c = false -> dec_ltb a c = false;
  dec_eqb_ltb :
    forall a b : D, dec_eqb a b = negb (dec_ltb a b) && negb (dec_ltb b a);
  dec_of_Z_ltb :
    forall x y : Z, dec_ltb (Decimal_of_Z x) (Decimal_of_Z y) = Z.ltb x y
}.

(* ================================================================== *)
(** ** Verdict reconciliation ([adjust_results_verifiers.py]) *)
(* ================================================================== *)

Module Reconcile.

(** A [<column title=... value=.../>] element. *)
Record Column : Type := mkColumn {
  col_title : pystr;
  col_value : pystr
}.

(** A [<run>] element: the attributes the script reads, and its
    [<column>] children. *)
Record Run : Type := mkRun {
  run_name : pystr;
  run_properties : pystr;
  run_expectedVerdict : pystr;
  run_columns : list Column
}.

(** [BenchmarkRuns]: a parsed result file; [runs_name] is
    [self.runs.get("name")] and [runs] are the [<run>] children. *)
Record BenchmarkRuns : Type := mkBenchmarkRuns {
  original_file : string;
  tool : string;
  runs_name : pystr;
  runs : list Run
}.

(** [BenchmarkRun]: one run of a result file, or no run. *)
Record BenchmarkRun : Type := mkBenchmarkRun {
  br_original_file : string;
  br_tool : string;
  run : option Run
}.

(** [as_dictionary]: run name to run; the values are references to the
    children of the result element, here their positions. *)
Definition as_dictionary (rs : list Run) : list (pystr * nat) :=
  fold_left (fun d ir => dict_set pystr_eqb (run_name (snd ir)) (fst ir) d)
            (combine (seq 0 (List.length rs)) rs) [].

(** [benchmark_runs.as_dictionary.get(name)] *)
Definition as_dictionary_get (b : BenchmarkRuns) (name : pystr) : option Run :=
  match dict_get pystr_eqb name (as_dictionary (runs b)) with
  | Some i => nth_error (runs b) i
  | None => None
  end.

(** [run.find('column[@title="t"]')] *)
Definition find_column (t : string) (r : Run) : option Column :=
  find (fun c => pystr_eqb (col_title c) (Some t)) (run_columns r).

(** [run.find('column[@title="t"]').get("value")], where [run] may be
    [None]. *)
Definition column_value (t : string) (r : option Run) : Exc pystr :=
  match r with
  | None => Raise AttributeError
  | Some r =>
      match find_column t r with
      | Some c => Ok (col_value c)
      | None => Raise AttributeError
      end
  end.

Fixpoint set_first_value (t : string) (v : string) (cs : list Column)
  : option (list Column) :=
  match cs with
  | [] => None
  | c :: cs' =>
      if pystr_eqb (col_title c) (Some t)
      then Some (mkColumn (col_title c) (Some v) :: cs')
      else option_map (cons c) (set_first_value t v cs')
  end.

(** [try: run.find('column[@title="t"]').set("value", v)
     except AttributeError: run.append(Element("column", title=t, value=v))] *)
Definition set_column (t v : string) (r : Run) : Run :=
  let cs :=
    match set_first_value t v (run_columns r) with
    | Some cs' => cs'
    | None => (run_columns r ++ [mkColumn (Some t) (Some v)])%list
    end in
  mkRun (run_name r) (run_properties r) (run_expectedVerdict r) cs.

Inductive WitnessLintErrors : Type :=
| WITNESS_INVALID
| WITNESS_VERSION_MISMATCH
| WITNESS_TYPE_MISMATCH
| WITNESS_MISSING
| RESULT_INVALID.

Definition value (e : WitnessLintErrors) : string :=
  match e with
  | WITNESS_INVALID => "witness invalid"
  | WITNESS_VERSION_MISMATCH => "witness-version mismatch"
  | WITNESS_TYPE_MISMATCH => "witness-type mismatch"
  | WITNESS_MISSING => "witness missing"
  | RESULT_INVALID => "result invalid"
  end.

(** Iteration order of [for err in WitnessLintErrors]. *)
Definition all_WitnessLintErrors :=
  [WITNESS_INVALID; WITNESS_VERSION_MISMATCH; WITNESS_TYPE_MISMATCH;
   WITNESS_MISSING; RESULT_INVALID].

(** [f"{err.value} ({status})"] *)
Definition tagged (e : WitnessLintErrors) (status : pystr) : pystr :=
  Some (value e ++ " (" ++ str_of status ++ ")").

Definition get_validator_linter_result
    (validator_or_linter_benchmark_run verification_benchmark_run : BenchmarkRun)
  : Exc (pystr * pystr) :=
  let verification_run := run verification_benchmark_run in
  match run validator_or_linter_benchmark_run with
  | None => Ok (Some "validation run missing", Some result.CATEGORY_ERROR)
  | Some validator_linter_run =>
      (match find_column "status" validator_linter_run with
       | Some _ => Ok tt
       | None =>
           (* the assertion message reads [verification_run.get('name')] *)
           match verification_run with
           | Some _ => Raise AssertionError
           | None => Raise AttributeError
           end
       end) ;;;
      status_from_validation <- column_value "status" (Some validator_linter_run) ;;
      ' (status_from_verification, category_from_verification) <-
          try_except
            (s <- column_value "status" verification_run ;;
             c <- column_value "category" verification_run ;;
             Ok (s, c))
            AttributeError
            (Ok (Some "not found", Some result.CATEGORY_MISSING)) ;;
      if pystr_eqb status_from_validation status_from_verification then
        Ok (status_from_verification, category_from_verification)
      else
        main_status_from_verification <-
          match status_from_verification with
          | Some s => Ok (split_head "(" s)
          | None => Raise AttributeError
          end ;;
        main_status_from_validation <-
          match status_from_validation with
          | Some s => Ok (split_head "(" s)
          | None => Raise AttributeError
          end ;;
        let property_is_memsafety :=
          pystr_eqb (run_properties validator_linter_run) (Some "valid-memsafety") in
        if String.eqb main_status_from_verification main_status_from_validation
           && negb property_is_memsafety then
          Ok (status_from_verification, category_from_verification)
        else if pystr_eqb status_from_validation (Some "ERROR (invalid witness syntax)") then
          Ok (tagged WITNESS_INVALID status_from_verification,
              Some result.CATEGORY_ERROR)
        else if pystr_eqb status_from_validation (Some "ERROR (witness does not exist)") then
          Ok (tagged WITNESS_MISSING status_from_verification,
              Some result.CATEGORY_ERROR)
        else if pystr_eqb status_from_validation (Some "ERROR (unexpected witness type)") then
          Ok (tagged WITNESS_TYPE_MISMATCH status_from_verification,
              Some result.CATEGORY_ERROR)
        else if pystr_eqb status_from_validation (Some "ERROR (unexpected witness version)") then
          Ok (tagged WITNESS_VERSION_MISMATCH status_from_verification,
              Some result.CATEGORY_ERROR)
        else if pystr_eqb category_from_verification (Some result.CATEGORY_CORRECT) then
          Ok (status_from_verification, Some result.CATEGORY_CORRECT_UNCONFIRMED)
        else
          Ok (tagged RESULT_INVALID status_from_verification,
              Some result.CATEGORY_ERROR)
  end.

(** The policy of the loop over the linters, spelled out: the results
    of the linters that have a run for the task, in order ... *)
Fixpoint linter_results (verifier : BenchmarkRun) (name : pystr)
    (linters : list BenchmarkRuns) : Exc (list (pystr * pystr)) :=
  match linters with
  | [] => Ok []
  | linter :: rest =>
      match as_dictionary_get linter name with
      | None => linter_results verifier name rest
      | Some linter_run =>
          res <- get_validator_linter_result
                   (mkBenchmarkRun (original_file linter) (tool linter)
                      (Some linter_run))
                   verifier ;;
          rs <- linter_results verifier name rest ;;
          Ok (res :: rs)
      end
  end.



Section WithDecimal.
Context {D : Type} `{Decimal D}.

(** Body of the loop over the linters in [get_validation_result];
    the state is [(status_wit, category_wit)]. *)
Definition linter_step (verifier : BenchmarkRun) (name : pystr)
    (wit : pystr * pystr) (linter : BenchmarkRuns) : Exc (pystr * pystr) :=
  match as_dictionary_get linter name with
  | None => Ok wit
  | Some linter_run =>
      new <- get_validator_linter_result
               (mkBenchmarkRun (original_file linter) (tool linter) (Some linter_run))
               verifier ;;
      let category_wit := snd wit in
      (* a previous linter has found the witness to be good *)
      if match category_wit with
         | Some c => negb (String.eqb c result.CATEGORY_ERROR)
         | None => false
         end
      then Ok wit
      else Ok new
  end.

(** State of the loop over the validators. *)
Record ValidatorLoop : Type := mkValidatorLoop {
  vl_status_wit : pystr;
  vl_category_wit : pystr;
  vl_category_from_verification : pystr;
  vl_coverage_wit : D
}.

(** [coverage_value]: the text of the [branches_covered] column without
    its percent signs, or the float [0.0]. *)
Inductive CoverageValue : Type :=
| CoverageText (s : string)
| CoverageZero.

(** Body of the loop over the validators in [get_validation_result]. *)
Definition validator_step (verifier_run : Run) (verifier : BenchmarkRun)
    (name : pystr) (status_from_verification : pystr)
    (st : ValidatorLoop) (validator : BenchmarkRuns) : Exc ValidatorLoop :=
  match as_dictionary_get validator name with
  | None => Ok st
  | Some validation_run =>
      if pystr_eqb (run_properties verifier_run) (Some "coverage-error-call") then
        status_from_validation <- column_value "status" (Some validation_run) ;;
        if pystr_eqb status_from_validation (Some "true") then
          Ok (mkValidatorLoop status_from_verification (Some result.CATEGORY_CORRECT)
                (Some result.CATEGORY_CORRECT)
                (dec_max (vl_coverage_wit st) (Decimal_of_Z 1)))
        else Ok st
      else if pystr_eqb (run_properties verifier_run) (Some "coverage-branches") then
        let coverage_value :=
          match find_column "branches_covered" validation_run with
          | Some c => match col_value c with
                      | Some v => CoverageText (remove_char "%" v)
                      | None => CoverageZero
                      end
          | None => CoverageZero
          end in
        let st' := mkValidatorLoop status_from_verification
                     (Some result.CATEGORY_CORRECT) (Some result.CATEGORY_CORRECT) in
        match match coverage_value with
              | CoverageText s => Decimal_of_string s
              | CoverageZero => Some (Decimal_of_Z 0)
              end with
        | Some d =>
            Ok (st' (dec_max (vl_coverage_wit st) (dec_div d (Decimal_of_Z 100))))
        | None => (* InvalidOperation: continue *)
            Ok (st' (vl_coverage_wit st))
        end
      else
        ' (status_wit_new, category_wit_new) <-
            get_validator_linter_result
              (mkBenchmarkRun (original_file validator) (tool validator)
                 (Some validation_run))
              verifier ;;
        if match vl_category_wit st with
           | None => true
           | Some c => negb (startswith c result.CATEGORY_CORRECT)
           end
           || pystr_eqb category_wit_new (Some result.CATEGORY_CORRECT)
        then Ok (mkValidatorLoop status_wit_new category_wit_new
                   (vl_category_from_verification st) (vl_coverage_wit st))
        else Ok st
  end.

(** The properties of Test-Comp, whose score is the coverage reported
    by the validators. *)
Definition coverage_properties := ["coverage-error-call"; "coverage-branches"].

(** The four values returned by [get_validation_result] and
    [get_validation_results_for_run]. *)
Record Verdict : Type := mkVerdict {
  v_status_wit : pystr;
  v_category_wit : pystr;
  v_status_from_verification : pystr;
  v_category_from_verification : pystr
}.

(** Returns the verdict and the verifier's run, whose score column the
    function rewrites for the Test-Comp properties. *)
Definition get_validation_result (verifier : BenchmarkRun)
    (validators linters : list BenchmarkRuns)
    (status_from_verification category_from_verification : pystr)
  : Exc (Verdict * Run) :=
  verifier_run <- match run verifier with
                  | Some r => Ok r
                  | None => Raise AttributeError
                  end ;;
  let name := run_name verifier_run in
  ' (status_wit, category_wit) <-
      for_each (linter_step verifier name) linters (None, None) ;;
  if pystr_eqb category_wit (Some result.CATEGORY_ERROR) then
    Ok (mkVerdict status_wit category_wit
          status_from_verification category_from_verification, verifier_run)
  else
    st <- for_each (validator_step verifier_run verifier name status_from_verification)
            validators
            (mkValidatorLoop status_wit category_wit category_from_verification
               (Decimal_of_Z 0)) ;;
    let verifier_run' :=
      if pystr_in (run_properties verifier_run) coverage_properties
      then set_column "score" (print_decimal (vl_coverage_wit st)) verifier_run
      else verifier_run in
    Ok (mkVerdict (vl_status_wit st) (vl_category_wit st)
          status_from_verification (vl_category_from_verification st), verifier_run').

(** Separation of the linters into the GraphML and the YAML pool:
    [(graphml_linters, yml_linters)]. *)
Fixpoint separate_linters (task_name : pystr) (linter_sets : list BenchmarkRuns)
  : list BenchmarkRuns * list BenchmarkRuns :=
  match linter_sets with
  | [] => ([], [])
  | linter :: rest =>
      let '(graphml_linters, yml_linters) := separate_linters task_name rest in
      let both := (linter :: graphml_linters, linter :: yml_linters) in
      match as_dictionary_get linter task_name with
      | None => both
      | Some linter_run =>
          match find_column "witnesslint-witness-file" linter_run with
          | None => both
          | Some witness_name_column =>
              let witness_name :=
                match col_value witness_name_column with
                | Some w => w
                | None => ""
                end in
              if endswith witness_name ".graphml" then
                (linter :: graphml_linters, yml_linters)
              else if endswith witness_name ".yml" then
                (graphml_linters, linter :: yml_linters)
              else both
          end
      end
  end.

(** The search through [WitnessLintErrors] when both pools report an
    error: [Some] verdict to return, or [None] when no message matches. *)
Fixpoint first_lint_error (errs : list WitnessLintErrors) (yml graphml : Verdict)
  : option Verdict :=
  match errs with
  | [] => None
  | err :: errs' =>
      if match v_status_wit yml with
         | Some s => startswith s (value err)
         | None => false
         end
      then Some yml
      else if match v_status_wit graphml with
              | Some s => startswith s (value err)
              | None => false
              end
      then Some graphml
      else first_lint_error errs' yml graphml
  end.

Definition get_validation_results_for_run (verification_run : BenchmarkRun)
    (validator_sets linter_sets : list BenchmarkRuns)
    (status_from_verification category_from_verification : pystr)
  : Exc (Verdict * Run) :=
  r <- match run verification_run with
       | Some r => Ok r
       | None => Raise AttributeError
       end ;;
  let task_name := run_name r in
  let '(graphml_linters, yml_linters) := separate_linters task_name linter_sets in
  ' (graphml, r1) <-
      get_validation_result verification_run validator_sets graphml_linters
        status_from_verification category_from_verification ;;
  if pystr_eqb (v_category_wit graphml) (Some result.CATEGORY_CORRECT) then
    Ok (graphml, r1)
  else
    ' (yml, r2) <-
        get_validation_result
          (mkBenchmarkRun (br_original_file verification_run)
             (br_tool verification_run) (Some r1))
          validator_sets yml_linters
          status_from_verification category_from_verification ;;
    if pystr_eqb (v_category_wit yml) (Some result.CATEGORY_CORRECT) then
      Ok (yml, r2)
    else
      let unconfirmed :=
        mkVerdict status_from_verification
          (Some result.CATEGORY_CORRECT_UNCONFIRMED)
          (v_status_from_verification graphml)
          (v_category_from_verification graphml) in
      if pystr_eqb (v_category_wit graphml) (Some result.CATEGORY_ERROR)
         && pystr_eqb (v_category_wit yml) (Some result.CATEGORY_ERROR)
      then
        match first_lint_error all_WitnessLintErrors yml graphml with
        | Some v => Ok (v, r2)
        | None => Ok (unconfirmed, r2)
        end
      else Ok (unconfirmed, r2).

(** The nested [set_status_and_category_for_run]. *)
Definition set_status_and_category_for_run (existing_run : Run)
    (new_status new_category : string) : Run :=
  set_column "category" new_category (set_column "status" new_status existing_run).

Definition category_patterns :=
  ["-Arrays"; "-Floats"; "-Heap"; "MemSafety"; "MemCleanup"; "NoDataRace";
   "ConcurrencySafety-"; "Termination"; "-Java"].

(** [re.search(pattern, s)] as a truth value; [None] for [s] raises. *)
Definition re_search_any (patterns : list string) (s : pystr) : Exc bool :=
  match s with
  | Some s => Ok (existsb (contains s) patterns)
  | None => Raise TypeError
  end.

(** The verifier's category of a run, as [adjust_status_category] reads
    it: the value of the category column, or [CATEGORY_MISSING]. *)
Definition category_of_run (r : Run) : pystr :=
  match find_column "category" r with
  | Some c => col_value c
  | None => Some result.CATEGORY_MISSING
  end.

(** The verifier's status of a run, likewise. *)
Definition status_of_run (r : Run) : pystr :=
  match find_column "status" r with
  | Some c => col_value c
  | None => Some "not found"
  end.

(** Body of the loop of [adjust_status_category] for one run of the
    verifier; the result is the run as the loop leaves it. *)
Definition adjust_run (verifier_runs : BenchmarkRuns)
    (validators linters : list BenchmarkRuns) (invalid_tasks : list string)
    (r : Run) : Exc Run :=
  status_from_verification <-
    try_except (column_value "status" (Some r)) AttributeError
      (Ok (Some "not found")) ;;
  if pystr_in (run_name r) invalid_tasks then
    Ok (set_status_and_category_for_run r
          ("invalid task (" ++ str_of status_from_verification ++ ")")
          result.CATEGORY_MISSING)
  else
    is_svcomp <- re_search_any ["SV-COMP"] (runs_name verifier_runs) ;;
    keeps_true <-
      (if is_svcomp
       then re_search_any category_patterns (runs_name verifier_runs)
       else Ok false) ;;
    if keeps_true && pystr_eqb (run_expectedVerdict r) (Some "true") then
      Ok r
    else
      category_from_verification <-
        try_except (column_value "category" (Some r)) AttributeError
          (Ok (Some result.CATEGORY_MISSING)) ;;
      ' (v, r') <-
          get_validation_results_for_run
            (mkBenchmarkRun (original_file verifier_runs) (tool verifier_runs)
               (Some r))
            validators linters
            status_from_verification category_from_verification ;;
      match v_status_wit v, v_category_wit v with
      | Some statusWit, Some categoryWit =>
          if pystr_eqb (v_category_from_verification v)
               (Some result.CATEGORY_CORRECT)
          then Ok (set_status_and_category_for_run r' statusWit categoryWit)
          else Ok r'
      | _, _ => Ok r'
      end.

(** [xs[i] = x] on the children of the result element. *)
Fixpoint update {A} (i : nat) (x : A) (xs : list A) : list A :=
  match xs, i with
  | [], _ => []
  | _ :: xs', O => x :: xs'
  | y :: xs', S i' => y :: update i' x xs'
  end.

(** The loop [for run in verifier_runs.as_dictionary.values()]: the
    result is the list of [<run>] children afterwards.  An exception
    ends the script before the result file is written. *)
Definition adjust_status_category (verifier_runs : BenchmarkRuns)
    (validators linters : list BenchmarkRuns) (invalid_tasks : list string)
  : Exc (list Run) :=
  for_each
    (fun rs i =>
       match nth_error rs i with
       | Some r =>
           r' <- adjust_run verifier_runs validators linters invalid_tasks r ;;
           Ok (update i r' rs)
       | None => Ok rs
       end)
    (map snd (as_dictionary (runs verifier_runs)))
    (runs verifier_runs).

End WithDecimal.

(** The columns of a run whose title is not among [titles]. *)
Definition other_columns (titles : list string) (r : Run) : list Column :=
  filter (fun c => negb (pystr_in (col_title c) titles)) (run_columns r).

(** [r'] is [r] but for the columns titled [titles]: the attributes of
    the run are the same, and so are the other columns, in their order. *)
Definition same_but (titles : list string) (r r' : Run) : Prop :=
  run_name r' = run_name r
  /\ run_properties r' = run_properties r
  /\ run_expectedVerdict r' = run_expectedVerdict r
  /\ other_columns titles r' = other_columns titles r.

End Reconcile.

(* ================================================================== *)
(** ** Aggregated measurements and results ([utils.py]) *)
(* ================================================================== *)

(** A score or measurement: an [int] or a [Decimal]. *)
Inductive Num (D : Type) : Type :=
| NInt (z : Z)
| NDec (d : D).
Arguments NInt {D} z.
Arguments NDec {D} d.

Module Utils.

Section WithDecimal.
Context {D : Type} `{Decimal D}.

(** [Decimal(x)] *)
Definition to_Decimal (x : Num D) : D :=
  match x with
  | NInt z => Decimal_of_Z z
  | NDec d => d
  end.

(** [a + b]: exact on two [int]s, otherwise the [Decimal] sum, an [int]
    operand being converted first; [int + Decimal] is evaluated by the
    reflected [Decimal.__radd__], with the [Decimal] as first operand. *)
Definition num_add (a b : Num D) : Num D :=
  match a, b with
  | NInt x, NInt y => NInt (x + y)
  | NInt x, NDec d => NDec (dec_add d (Decimal_of_Z x))
  | NDec d, _ => NDec (dec_add d (to_Decimal b))
  end.

(** [a - b] *)
Definition num_sub (a b : Num D) : Num D :=
  match a, b with
  | NInt x, NInt y => NInt (x - y)
  | _, _ => NDec (dec_sub (to_Decimal a) (to_Decimal b))
  end.

(** [a == b]; [int == Decimal] is evaluated by [Decimal.__eq__]. *)
Definition num_eqb (a b : Num D) : bool :=
  match a, b with
  | NInt x, NInt y => Z.eqb x y
  | NInt x, NDec d => dec_eqb d (Decimal_of_Z x)
  | NDec d, _ => dec_eqb d (to_Decimal b)
  end.

(** [a < b] *)
Definition num_ltb (a b : Num D) : bool :=
  match a, b with
  | NInt x, NInt y => Z.ltb x y
  | _, _ => dec_ltb (to_Decimal a) (to_Decimal b)
  end.

(** [a <= b] *)
Definition num_leb (a b : Num D) : bool := num_ltb a b || num_eqb a b.

(** Truth value of a number: it is not zero. *)
Definition num_truthy (a : Num D) : bool := negb (num_eqb a (NInt 0)).

(** [sum(xs)]: starts from the [int] 0. *)
Definition py_sum (xs : list (Num D)) : Num D := fold_left num_add xs (NInt 0).

(** [is_tool_status_false] *)
Definition is_tool_status_false (status : string) : bool :=
  startswith status "false".

(** [normalize_validator_name] *)
Definition normalize_validator_name (validator : string) : string :=
  split_head_str "-validate-" validator.

(** The [postfix] of [validators_of_competition], for a track with
    value [track_value]:
    ["-".join(t.value[len("Validation of "):].lower().split())]. *)
Definition postfix_of_track (track_value : string) : string :=
  String.concat "-"
    (split_words (lower (string_drop (String.length "Validation of ")
                           track_value))).

(** [CategoryData]: the attributes set by [__init__].  [sequence] is the
    list of individual measurements, each a [Decimal] or [None], or
    [None] when the argument is left out. *)
Record CategoryData : Type := mkCategoryData {
  total : Num D;
  success : Num D;
  success_false : Num D;
  success_true : Num D;
  unconfirmed : Num D;
  unconfirmed_false : Num D;
  unconfirmed_true : Num D;
  sequence : option (list (option D))
}.

(** [CategoryData.__init__] *)
Definition CategoryData_init
    (data_total data_success data_success_false data_unconfirmed
     data_unconfirmed_false : Num D) (sequence : option (list (option D)))
  : CategoryData :=
  mkCategoryData data_total data_success data_success_false
    (num_sub data_success data_success_false)
    data_unconfirmed data_unconfirmed_false
    (num_sub data_unconfirmed data_unconfirmed_false)
    sequence.

(** [xs + ys] for two lists, either of which may be [None]. *)
Definition list_add {A} (xs ys : option (list A)) : Exc (list A) :=
  match xs, ys with
  | Some xs, Some ys => Ok (xs ++ ys)%list
  | _, _ => Raise TypeError
  end.

(** [s + t] for two strings, either of which may be [None]. *)
Definition pystr_add (s t : pystr) : Exc string :=
  match s, t with
  | Some s, Some t => Ok (s ++ t)
  | _, _ => Raise TypeError
  end.

(** [CategoryData.__add__] *)
Definition CategoryData_add (self category_data : CategoryData) : Exc CategoryData :=
  seq <- list_add (sequence self) (sequence category_data) ;;
  Ok (CategoryData_init
        (num_add (total self) (total category_data))
        (num_add (success self) (success category_data))
        (num_add (success_false self) (success_false category_data))
        (num_add (unconfirmed self) (unconfirmed category_data))
        (num_add (unconfirmed_false self) (unconfirmed_false category_data))
        (Some seq)).

(** [x or Decimal(0)] *)
Definition or_zero (x : Num D) : Num D :=
  if num_truthy x then x else NDec (Decimal_of_Z 0).

(** [category_sum] *)
Definition category_sum (vs : list (Num D)) : Num D :=
  NDec (to_Decimal (py_sum vs)).

(** [accumulate_data] *)
Definition accumulate_data (data : list (CategoryData)) : CategoryData :=
  let total := category_sum (map (fun v => or_zero (total v)) data) in
  let success := category_sum (map (fun v => or_zero (success v)) data) in
  let success_false :=
    category_sum (map (fun v => or_zero (success_false v)) data) in
  let unconfirmed :=
    category_sum (map (fun v => or_zero (unconfirmed v)) data) in
  let unconfirmed_false :=
    category_sum (map (fun v => or_zero (unconfirmed_false v)) data) in
  CategoryData_init total success success_false unconfirmed unconfirmed_false
    None.

(** A point of a quantile plot is a triple (normalized score,
    measurement, status); the lists of points are only concatenated
    here, so the type of the points is left open. *)
Context {QPoint : Type}.

(** [CategoryResult] *)
Record CategoryResult : Type := mkCategoryResult {
  score : Num D;
  score_false : Num D;
  cputime : CategoryData;
  cpuenergy : CategoryData;
  correct_false : Z;
  correct_true : Z;
  correct_unconfirmed_false : Z;
  correct_unconfirmed_true : Z;
  incorrect_false : Z;
  incorrect_true : Z;
  qplot_cputime : list QPoint;
  qplot_cpuenergy : list QPoint;
  results_file : pystr
}.

(** [CategoryResult.__add__] *)
Definition CategoryResult_add (self category_result : CategoryResult)
  : Exc CategoryResult :=
  cputime' <- CategoryData_add (cputime self) (cputime category_result) ;;
  cpuenergy' <- CategoryData_add (cpuenergy self) (cpuenergy category_result) ;;
  results_file' <- pystr_add (results_file self) (results_file category_result) ;;
  Ok (mkCategoryResult
        (num_add (score self) (score category_result))
        (num_add (score_false self) (score_false category_result))
        cputime' cpuenergy'
        (correct_false self + correct_false category_result)
        (correct_true self + correct_true category_result)
        (correct_unconfirmed_false self + correct_unconfirmed_false category_result)
        (correct_unconfirmed_true self + correct_unconfirmed_true category_result)
        (incorrect_false self + incorrect_false category_result)
        (incorrect_true self + incorrect_true category_result)
        (qplot_cputime self ++ qplot_cputime category_result)%list
        (qplot_cpuenergy self ++ qplot_cpuenergy category_result)%list
        (Some results_file')).

(** The totals of a [CategoryData]: every attribute but [sequence]. *)
Definition CategoryData_totals (x : CategoryData) :=
  (total x, success x, success_false x, success_true x,
   unconfirmed x, unconfirmed_false x, unconfirmed_true x).

(** The totals of a [CategoryResult]: every attribute but the two
    quantile plots, the sequences and [results_file]. *)
Definition CategoryResult_totals (x : CategoryResult) :=
  (score x, score_false x,
   CategoryData_totals (cputime x), CategoryData_totals (cpuenergy x),
   (correct_false x, correct_true x,
    correct_unconfirmed_false x, correct_unconfirmed_true x,
    incorrect_false x, incorrect_true x)).

(** [VerificationCategory] *)
Record VerificationCategory : Type := mkVerificationCategory {
  name : string;
  tasks : Z;
  tasks_true : Z;
  tasks_false : Z;
  possible_score : Num D;
  possible_score_false : Num D;
  results : list (string * CategoryResult)
}.

(** The attributes of a [ValidationCategory] read by the ranking. *)
Record ValidationCategory : Type := mkValidationCategory {
  val_name : string;
  witnesses_correct : Z;
  witnesses_wrong : Z;
  val_results : list (string * CategoryResult)
}.

(** [get_participation_labels] reads the FM-Tools catalog, which is
    outside these scripts: [participation_labels tool] stands for its
    outcome for the year, competition and track at hand. *)
Definition is_hors_concours (participation_labels : string -> Exc (list string))
    (tool : string) : Exc bool :=
  labels <- participation_labels tool ;;
  let hors_concours_labels := ["inactive"; "meta_tool"] in
  Ok (existsb (fun l => str_in l labels) hors_concours_labels).

End WithDecimal.

Arguments CategoryData D : clear implicits.
Arguments CategoryResult D QPoint : clear implicits.
Arguments VerificationCategory D QPoint : clear implicits.
Arguments ValidationCategory D QPoint : clear implicits.

End Utils.

(* ================================================================== *)
(** ** Scores of the verification track ([mkAnaScores.py]) *)
(* ================================================================== *)

(** [fm_tools.competition_participation.Competition] *)
Inductive Competition : Type :=
| SV_COMP
| TEST_COMP.

Definition Competition_eqb (a b : Competition) : bool :=
  match a, b with
  | SV_COMP, SV_COMP | TEST_COMP, TEST_COMP => true
  | _, _ => false
  end.

Module Scores.
Import Utils.

Definition SCORE_COLUMN_NAME := "score".

Definition TERMINATION_DEVICE_DRIVERS :=
  "termination.SoftwareSystems-DeviceDriversLinux64-Termination".

Section WithDecimal.
Context {D : Type} `{Decimal D}.

(** The attributes of a [tablegenerator.RunResult] read by the scoring:
    the titles of its columns, the values under them, and the score,
    status and category computed by the table generator. *)
Record RunResult : Type := mkRunResult {
  columns : list string;
  values : list pystr;
  rr_score : option (Num D);
  status : string;
  category : string
}.

(** [_get_column_index]: position of the first column with the title. *)
Fixpoint _get_column_index (column_name : string) (titles : list string)
  : option nat :=
  match titles with
  | [] => None
  | t :: ts =>
      if String.eqb t column_name then Some O
      else option_map S (_get_column_index column_name ts)
  end.

(** [get_score]: the score to count, or [None]. *)
Definition get_score (run_result : RunResult) (competition : Competition)
  : Exc (option (Num D)) :=
  score <-
    match _get_column_index SCORE_COLUMN_NAME (columns run_result) with
    | None => Ok (rr_score run_result)
    | Some score_column_index =>
        match nth_error (values run_result) score_column_index with
        | None => Raise IndexError
        | Some None => Ok None
        | Some (Some listed_score) =>
            match Decimal_of_string listed_score with
            | Some d => Ok (Some (NDec d))
            | None => Raise InvalidOperation
            end
        end
    end ;;
  match score with
  | Some s => Ok (Some s)
  | None =>
      if Competition_eqb competition SV_COMP then Ok None
      else Ok (Some (NDec (Decimal_of_Z 0)))
  end.

(** The dictionary returned by [_get_scores_data]; its keys are the
    fields.  The local variables of the function have the same shape. *)
Record ScoresData : Type := mkScoresData {
  sd_score : Num D;
  sd_score_false : Num D;
  sd_correct_true : Z;
  sd_correct_false : Z;
  sd_correct_unconfirmed_true : Z;
  sd_correct_unconfirmed_false : Z;
  sd_incorrect_true : Z;
  sd_incorrect_false : Z
}.

(** Body of the loop over the run results, for a run with score [s]. *)
Definition count_run (category_name : string) (run_result : RunResult)
    (s : Num D) (acc : ScoresData) : ScoresData :=
  let is_false := is_tool_status_false (status run_result) in
  let score := num_add (sd_score acc) s in
  let score_false :=
    if is_false && negb (String.eqb category_name TERMINATION_DEVICE_DRIVERS)
    then num_add (sd_score_false acc) s else sd_score_false acc in
  let b2z (b : bool) : Z := if b then 1 else 0 in
  let is_cat c := String.eqb (category run_result) c in
  let correct := is_cat result.CATEGORY_CORRECT in
  let unconfirmed :=
    negb correct && is_cat result.CATEGORY_CORRECT_UNCONFIRMED in
  let wrong :=
    negb correct && negb unconfirmed && is_cat result.CATEGORY_WRONG in
  mkScoresData score score_false
    (sd_correct_true acc + b2z (correct && negb is_false))
    (sd_correct_false acc + b2z (correct && is_false))
    (sd_correct_unconfirmed_true acc + b2z (unconfirmed && negb is_false))
    (sd_correct_unconfirmed_false acc + b2z (unconfirmed && is_false))
    (sd_incorrect_true acc + b2z (wrong && negb is_false))
    (sd_incorrect_false acc + b2z (wrong && is_false)).

(** The loop of [_get_scores_data]. *)
Fixpoint scores_loop (category_name : string) (competition : Competition)
    (rs : list RunResult) (acc : ScoresData) : Exc ScoresData :=
  match rs with
  | [] => Ok acc
  | run_result :: rs' =>
      s <- get_score run_result competition ;;
      match s with
      | None => scores_loop category_name competition rs' acc
      | Some s =>
          scores_loop category_name competition rs'
            (count_run category_name run_result s acc)
      end
  end.

Definition _get_scores_data (run_set_results : list RunResult)
    (category_name : string) (competition : Competition) : Exc ScoresData :=
  d <- scores_loop category_name competition run_set_results
         (mkScoresData (NInt 0) (NInt 0) 0 0 0 0 0 0) ;;
  let expected_score : Z :=
    sd_correct_false d * 1 + sd_correct_true d * 2
    + sd_correct_unconfirmed_true d * 0 + sd_correct_unconfirmed_false d * 0
    + sd_incorrect_false d * -16 + sd_incorrect_true d * -32 in
  assert (negb (Competition_eqb competition SV_COMP)
          || num_eqb (sd_score d) (NInt expected_score)) ;;;
  let expected_score : Z :=
    sd_correct_false d * 1 + sd_correct_unconfirmed_false d * 0
    + sd_incorrect_false d * -16 in
  (if negb (String.eqb category_name TERMINATION_DEVICE_DRIVERS) then
     assert (negb (Competition_eqb competition SV_COMP)
             || num_eqb (sd_score_false d) (NInt expected_score))
   else Ok tt) ;;;
  Ok d.

(** The number of runs that have a score -- the runs [_get_scores_data]
    does not skip -- with the given category and verdict. *)
Definition counted (competition : Competition) (c : string) (is_false : bool)
    (rs : list RunResult) : Z :=
  Z.of_nat
    (List.length
       (filter
          (fun r =>
             match get_score r competition with
             | Ok (Some _) => true
             | _ => false
             end
             && String.eqb (category r) c
             && Bool.eqb (is_tool_status_false (status r)) is_false)
          rs)).

(** The category structure: for each category its participants and
    sub-categories, the names reserved for the validation track, and the
    optional demo categories and opt-outs. *)
Record CategoryDef : Type := mkCategoryDef {
  verifiers : list string;
  sub_categories : list string
}.

Record CategoryInfo : Type := mkCategoryInfo {
  ci_categories : list (string * CategoryDef);
  validation_only : list string;
  demo_categories : option (list string);
  opt_out : option (list (string * list string))
}.

(** [get_categories] *)
Definition get_categories (category_info : CategoryInfo)
  : list (string * CategoryDef) :=
  filter (fun cd => forallb (fun k => negb (contains (fst cd) k))
                      (validation_only category_info))
         (ci_categories category_info).

(** [get_demo_categories] *)
Definition get_demo_categories (category_info : CategoryInfo) : list string :=
  match demo_categories category_info with
  | Some l => l
  | None => []
  end.

Context {QPoint : Type}.
Let VerificationCategory : Type := Utils.VerificationCategory D QPoint.
Let CategoryResult : Type := Utils.CategoryResult D QPoint.

(** The loop of [get_category_info] over the run results, each with its
    [task_id.expected_result]: [None], or an [ExpectedResult] whose
    [result] is [True], [False] or [None].  The state is
    [(count_true, count_false)]. *)
Definition count_tasks (results : list (RunResult * option (option bool)))
  : Exc (Z * Z) :=
  for_each
    (fun counts rr =>
       let '(count_true, count_false) := counts in
       let '(run_result, expected_result) := rr in
       if negb (String.eqb (category run_result) result.CATEGORY_MISSING) then
         match expected_result with
         | None => Raise AttributeError
         | Some (Some true) => Ok (count_true + 1, count_false)
         | Some _ => Ok (count_true, count_false + 1)
         end
       else Ok counts)
    results (0, 0).

(** [get_category_info]: [n_rows] is
    [len(tablegenerator.get_rows([run_set_result]))], [columns] are the
    titles of the columns of the run set and [filename] is
    [run_set_result.attributes["filename"][0]]. *)
Definition get_category_info (n_rows : Z) (columns : list string)
    (filename : string) (results : list (RunResult * option (option bool)))
    (category : string) : Exc (option (VerificationCategory)) :=
  let score_column_index := _get_column_index SCORE_COLUMN_NAME columns in
  let tasks_total := n_rows in
  counts <-
    match score_column_index with
    | None =>
        ' (count_true, count_false) <- count_tasks results ;;
        let possible_score :=
          count_true * result._SCORE_CORRECT_TRUE
          + count_false * result._SCORE_CORRECT_FALSE in
        let possible_score_false := count_false * result._SCORE_CORRECT_FALSE in
        let possible_score_false :=
          if String.eqb category TERMINATION_DEVICE_DRIVERS then 0
          else possible_score_false in
        Ok (count_true, count_false, possible_score, possible_score_false)
    | Some _ => Ok (0, 0, 0, 0)
    end ;;
  let '(count_true, count_false, possible_score, possible_score_false) :=
    counts in
  let count_true :=
    if contains filename ".results.Test-Comp25_coverage-" then tasks_total
    else count_true in
  if Z.eqb (count_true + count_false) 0 then Ok None
  else
    Ok (Some (mkVerificationCategory category tasks_total count_true
                count_false (NInt possible_score) (NInt possible_score_false)
                [])).

(** The runs that are not of category "missing", and those among them
    of a task that is expected to hold. *)
Definition valid_runs (results : list (RunResult * option (option bool)))
  : list (RunResult * option (option bool)) :=
  filter (fun rr => negb (String.eqb (category (fst rr)) result.CATEGORY_MISSING))
         results.

Definition expected_true (rr : RunResult * option (option bool)) : bool :=
  match snd rr with
  | Some (Some true) => true
  | _ => false
  end.

(** What [handle_meta_category] computes of the meta category, as far
    as embedded here: the task counts, the possible score and each
    participant's score.  The [_false] scores, the measurements, the
    counts of results and the quantile plots are computed next to them
    from the same children and are left out. *)
Record MetaCategory : Type := mkMetaCategory {
  mc_name : string;
  mc_tasks : Z;
  mc_tasks_true : Z;
  mc_tasks_false : Z;
  mc_possible_score : Num D;
  mc_scores : list (string * Num D)
}.

(** The dictionary [subcategories] of [handle_meta_category]. *)
Definition subcategories_of (category_info : CategoryInfo)
    (demo : list string) (sub_names : list string)
    (processed_categories : list (string * VerificationCategory))
  : Exc (list (string * VerificationCategory)) :=
  for_each
    (fun d sub =>
       if negb (str_in sub demo) then
         match dict_get String.eqb sub processed_categories with
         | None => Raise KeyError
         | Some c =>
             if negb (Z.eqb (tasks_true c + tasks_false c) 0)
             then Ok (dict_set String.eqb sub c d) else Ok d
         end
       else Ok d)
    (filter (fun c => negb (str_in c (validation_only category_info))) sub_names)
    [].

(** [score / category_amount * (tasks_true + tasks_false)].  The sum
    over no child is the [int] 0, for which [category_amount] is 0 and
    the division raises; every other sum is a [Decimal]. *)
Definition normalize_score (category_amount tasks_true tasks_false : Z)
    (score : Num D) : Exc (Num D) :=
  if Z.eqb category_amount 0 then Raise ZeroDivisionError
  else Ok (NDec (dec_mul
                   (dec_div (to_Decimal score) (Decimal_of_Z category_amount))
                   (Decimal_of_Z (tasks_true + tasks_false)))).

(** [Decimal(x) / (c.tasks_true + c.tasks_false)] *)
Definition average (x : Num D) (c : VerificationCategory) : Num D :=
  NDec (dec_div (to_Decimal x) (Decimal_of_Z (tasks_true c + tasks_false c))).

(** The terms of a participant's [sum_of_avg_scores]. *)
Fixpoint avg_scores (verifier : string) (info : list VerificationCategory)
  : list (Num D) :=
  match info with
  | [] => []
  | c :: info' =>
      match dict_get String.eqb verifier (results c) with
      | Some r =>
          if negb (Z.eqb (tasks_true c + tasks_false c) 0)
          then average (score r) c :: avg_scores verifier info'
          else avg_scores verifier info'
      | None => avg_scores verifier info'
      end
  end.

(** The terms of the sum for [possible_score]. *)
Definition avg_possible_scores (info : list VerificationCategory) : list (Num D) :=
  map (fun c => average (possible_score c) c)
      (filter (fun c => negb (Z.eqb (tasks_true c + tasks_false c) 0)) info).

Definition handle_meta_category (meta_category : string)
    (category_info : CategoryInfo)
    (processed_categories : list (string * VerificationCategory))
  : Exc MetaCategory :=
  let categories := get_categories category_info in
  let demo := get_demo_categories category_info in
  meta <- match dict_get String.eqb meta_category categories with
          | Some m => Ok m
          | None => Raise KeyError
          end ;;
  let subverifiers :=
    if str_in meta_category (validation_only category_info) then []
    else verifiers meta in
  subcategories <-
    subcategories_of category_info demo (sub_categories meta) processed_categories ;;
  let subcategories_info := map snd subcategories in
  let category_amount := Z.of_nat (List.length subcategories) in
  let sum_of f := fold_left Z.add (map f subcategories_info) 0 in
  let tasks_total := sum_of tasks in
  let falsification := String.eqb meta_category "FalsificationOverall" in
  let tasks_true := sum_of tasks_true - (if falsification then 91 else 0) in
  let tasks_false := sum_of tasks_false - (if falsification then 176 else 0) in
  assert (forallb (fun nc => negb (Z.eqb (Utils.tasks_true (snd nc)
                                          + Utils.tasks_false (snd nc)) 0))
            subcategories) ;;;
  possible_score <-
    normalize_score category_amount tasks_true tasks_false
      (py_sum (avg_possible_scores subcategories_info)) ;;
  (* [normalize_score_false] divides by [category_amount - 1] *)
  (if String.eqb meta_category "SoftwareSystems" && Z.eqb (category_amount - 1) 0
   then Raise ArithmeticError else Ok tt) ;;;
  scores <-
    for_each
      (fun res verifier =>
         let subcategories_available :=
           filter (fun c => match dict_get String.eqb verifier (results c) with
                            | Some _ => true
                            | None => false
                            end) subcategories_info in
         if (List.length subcategories_available <? List.length subcategories)%nat
         then Ok res
         else
           score <- normalize_score category_amount tasks_true tasks_false
                      (py_sum (avg_scores verifier subcategories_info)) ;;
           Ok (dict_set String.eqb verifier score res))
      subverifiers [] ;;
  Ok (mkMetaCategory meta_category tasks_total tasks_true tasks_false
        possible_score scores).

(** [is_opt_out] *)
Definition is_opt_out (category verifier : string) (category_info : CategoryInfo)
  : bool :=
  match opt_out category_info with
  | None | Some [] => false
  | Some opt_out =>
      match dict_get String.eqb verifier opt_out with
      | Some cats => str_in category cats
      | None => false
      end
  end.

(** The sort key [(score, 1 / Decimal(cputime) if cputime else 0)]. *)
Definition sort_key (score cputime : Num D) : Num D * Num D :=
  (score,
   if num_truthy cputime
   then NDec (dec_div (Decimal_of_Z 1) (to_Decimal cputime))
   else NInt 0).

(** [k1 < k2] on two keys: tuples compare by their first components
    that differ. *)
Definition key_ltb (k1 k2 : Num D * Num D) : bool :=
  if num_eqb (fst k1) (fst k2) then num_ltb (snd k1) (snd k2)
  else num_ltb (fst k1) (fst k2).

(** [sorted(xs, key=key, reverse=True)]: descending, and stable, so that
    of two elements with equal keys the one that came first stays first. *)
Section Sorted.
Context {A : Type} (key : A -> Num D * Num D).

Fixpoint insert_desc (x : A) (l : list A) : list A :=
  match l with
  | [] => [x]
  | y :: l' =>
      if key_ltb (key x) (key y) then y :: insert_desc x l'
      else x :: y :: l'
  end.

Definition sorted_desc (xs : list A) : list A :=
  fold_right insert_desc [] xs.

(** [x] is not ranked below [y]. *)
Definition not_below (x y : A) : Prop := key_ltb (key x) (key y) = false.

(** [x] and [y] tie: neither key is below the other. *)
Definition tied (x y : A) : bool :=
  negb (key_ltb (key x) (key y)) && negb (key_ltb (key y) (key x)).

(** [l] has the elements of [xs], and those that tie in the order in
    which [xs] has them: what makes a sort stable. *)
Definition keeps_ties (l xs : list A) : Prop :=
  forall x, filter (tied x) l = filter (tied x) xs.
End Sorted.

(** The key of a competitor [(name, result)]. *)
Definition competitor_key (is_falsification : bool)
    (x : string * CategoryResult) : Num D * Num D :=
  if is_falsification
  then sort_key (score_false (snd x)) (success_false (cputime (snd x)))
  else sort_key (score (snd x)) (success (cputime (snd x))).

(** [while len(result) < 3: result.append(None)] *)
Definition pad_to_3 {A} (l : list (option A)) : list (option A) :=
  (l ++ repeat None (3 - List.length l))%list.

(** [get_best] of the verification track, and before it its list
    [competitors].  [participation_labels] stands for the catalog lookup
    behind [utils.is_hors_concours]. *)
Definition competitors_of (participation_labels : string -> Exc (list string))
    (category : VerificationCategory) (category_info : CategoryInfo)
  : Exc (list (string * CategoryResult)) :=
  for_each
    (fun acc vr =>
       hc <- is_hors_concours participation_labels (fst vr) ;;
       if negb hc
          && negb (is_opt_out (name category) (fst vr) category_info)
          && negb (Z.eqb (tasks_true category + tasks_false category) 0)
       then Ok (acc ++ [vr])%list else Ok acc)
    (results category) [].

Definition get_best (participation_labels : string -> Exc (list string))
    (category : VerificationCategory) (category_info : CategoryInfo)
    (is_falsification : bool) : Exc (list (option string)) :=
  competitors <- competitors_of participation_labels category category_info ;;
  let result :=
    map (fun x => Some (fst x))
        (firstn 3 (sorted_desc (competitor_key is_falsification) competitors)) in
  Ok (pad_to_3 result).

End WithDecimal.
End Scores.

(* ================================================================== *)
(** ** Ranking of the validation track ([mkAnaScoresValidators.py]) *)
(* ================================================================== *)

Module ScoresValidators.
Import Utils.

Section WithDecimal.
Context {D : Type} `{Decimal D} {QPoint : Type}.

(** [validator_with_suffix]; [track_value] is
    [track_details.track.value]. *)
Definition validator_with_suffix (validator track_value : string) : Exc string :=
  match split_words (lower (string_drop (String.length "Validation of ")
                              track_value)) with
  | [witness_kind; witnesses; witness_version] =>
      Ok (validator ++ "-validate-" ++ witness_kind ++ "-" ++ witnesses
          ++ "-" ++ witness_version)
  | _ => Raise ValueError
  end.

(** The category structure as [does_tool_participate] reads it: a
    category with its ["validators"], ["verifiers"] and (sub-)
    ["categories"], and the structure with its ["categories"],
    ["opt_out"] and ["opt_in"].  [None] is a key that is missing. *)
Record ToolCategory : Type := mkToolCategory {
  tc_validators : option (list string);
  tc_verifiers : option (list string);
  tc_categories : option (list string)
}.

Record ToolCategoryInfo : Type := mkToolCategoryInfo {
  tci_categories : option (list (string * ToolCategory));
  tci_opt_out : option (list (string * list string));
  tci_opt_in : option (list (string * list string))
}.

(** [d[k]] *)
Definition item {A} (v : option A) : Exc A :=
  match v with
  | Some a => Ok a
  | None => Raise KeyError
  end.

(** [d.get(k, [])] *)
Definition get_or_empty (k : string) (d : list (string * list string))
  : list string :=
  match dict_get String.eqb k d with
  | Some l => l
  | None => []
  end.

(** [categories[c][check_for]], for [check_for] one of ["validators"]
    and ["verifiers"]. *)
Definition participants (check_for : string) (c : ToolCategory)
  : Exc (list string) :=
  item (if String.eqb check_for "validators" then tc_validators c
        else tc_verifiers c).

(** The loop [for meta in categories] of [does_tool_participate]. *)
Fixpoint participates_in_meta (category tool check_for : string)
    (categories : list (string * ToolCategory)) (metas : list string)
  : Exc bool :=
  match metas with
  | [] => Ok false
  | meta :: metas' =>
      c <- item (dict_get String.eqb meta categories) ;;
      subs <- item (tc_categories c) ;;
      if str_in category subs then
        ps <- participants check_for c ;;
        Ok (str_in tool ps)
      else participates_in_meta category tool check_for categories metas'
  end.

(** [does_tool_participate]; the defaults are
    [default_reject = ("witnesslint",)] and [check_for = "validators"]. *)
Definition does_tool_participate (category tool : string)
    (category_info : ToolCategoryInfo) (default_reject : list string)
    (check_for : string) : Exc bool :=
  assert (str_in check_for ["validators"; "verifiers"]) ;;;
  categories <- item (tci_categories category_info) ;;
  if existsb (fun t => contains tool t) default_reject then Ok false
  else
    opt_out <- item (tci_opt_out category_info) ;;
    if str_in category (get_or_empty tool opt_out) then Ok false
    else
      opt_in <- item (tci_opt_in category_info) ;;
      if str_in category (get_or_empty tool opt_in) then Ok true
      else
        match dict_get String.eqb category categories with
        | Some c =>
            ps <- participants check_for c ;;
            Ok (str_in tool ps)
        | None =>
            participates_in_meta category tool check_for categories
              (map fst categories)
        end.

(** [get_best] of the validation track, and before it its first list
    [competitors].  [competes_in validator] stands
    for [tools[validator].competition_participations.competition(...)
    .competes_in(track)] and [participation_labels] for the catalog
    lookup behind [utils.is_hors_concours]. *)
Definition competitors_of (competes_in : string -> Exc bool)
    (participation_labels : string -> Exc (list string))
    (category : ValidationCategory D QPoint)
  : Exc (list (string * CategoryResult D QPoint)) :=
  let is_considered (validator : string) : Exc bool :=
    ci <- competes_in validator ;;
    if ci then
      hc <- is_hors_concours participation_labels validator ;;
      Ok (negb hc
          && Z.ltb 0 (witnesses_correct category + witnesses_wrong category))
    else Ok false in
  for_each
    (fun acc vr =>
       let validator := split_head_str "-validate-" (fst vr) in
       considered <- is_considered validator ;;
       if considered then Ok (acc ++ [(validator, snd vr)])%list else Ok acc)
    (val_results category) [].

(** [r.score <= 0] and [r.score > 0] *)
Definition non_positive (cr : string * CategoryResult D QPoint) : bool :=
  num_leb (score (snd cr)) (NInt 0).
Definition positive (cr : string * CategoryResult D QPoint) : bool :=
  num_ltb (NInt 0) (score (snd cr)).

Definition get_best (competes_in : string -> Exc bool)
    (participation_labels : string -> Exc (list string))
    (category : ValidationCategory D QPoint) (is_falsification : bool)
  : Exc (list (option string)) :=
  competitors <- competitors_of competes_in participation_labels category ;;
  let winners_with_non_positive_score :=
    List.length (filter non_positive competitors) in
  let competitors := filter positive competitors in
  let result :=
    map (fun x => Some (fst x))
        (firstn 3 (Scores.sorted_desc (Scores.competitor_key is_falsification)
                     competitors)) in
  let result :=
    if (List.length result <? 3)%nat
    then (result ++ repeat None winners_with_non_positive_score)%list
    else result in
  Ok (firstn 3 result).

End WithDecimal.
End ScoresValidators.

(* ================================================================== *)
(** ** Results of the validators ([adjust_results_validators.py]) *)
(* ================================================================== *)

Module ResultsValidators.

(** [sub in s], for [s] an attribute of a run or [None]. *)
Definition in_attribute (sub : string) (s : pystr) : Exc bool :=
  match s with
  | Some s => Ok (contains s sub)
  | None => Raise TypeError
  end.

(** [is_task_excluded_in_validation_track]: [version], [witness] and
    [category] are those of the metadata of the result file,
    [specification] is [run.get("propertyFile")] and [expectedVerdict]
    is [run.get("expectedVerdict")]. *)
Definition is_task_excluded_in_validation_track
    (version witness category : string) (specification expectedVerdict : pystr)
  : Exc bool :=
  assert (str_in version ["1.0"; "2.0"]) ;;;
  assert (str_in witness ["correctness"; "violation"]) ;;;
  if String.eqb witness "correctness" then
    if contains category "ConcurrencySafety" then Ok true
    else
      overflow <- in_attribute "no-overflow" specification ;;
      if overflow then Ok false
      else
        reach <- in_attribute "unreach-call" specification ;;
        if reach then
          Ok (existsb (fun u => endswith category u) ["Arrays"; "Floats"; "Heap"])
        else Ok true
  else if String.eqb witness "violation" then
    if String.eqb version "1.0" then Ok false
    else
      if String.eqb version "2.0" then
        if contains category "ConcurrencySafety" then Ok true
        else
          reach <- in_attribute "unreach-call" specification ;;
          listed <-
            (if reach then Ok true
             else in_attribute "no-overflow" specification) ;;
          if listed then Ok false
          else
            free <- in_attribute "valid-free" expectedVerdict ;;
            memory <-
              (if free then Ok true
               else in_attribute "valid-deref" expectedVerdict) ;;
            if memory then Ok false else Ok true
      else Ok true
  else Raise AssertionError.

End ResultsValidators.

(* ================================================================== *)
(** ** A reference instance of the numbers *)
(* ================================================================== *)

(** Exact rational arithmetic, on which the embedding is run for
    concrete inputs.  It reads plain literals ([12], [-0.5], [.25]) and
    prints a number that is not an integer as a fraction. *)
Module ExactDecimal.

Definition digit_value (c : ascii) : option Z :=
  let n := nat_of_ascii c in
  if (48 <=? n)%nat && (n <=? 57)%nat then Some (Z.of_nat (n - 48)) else None.

Fixpoint digits_value (s : string) (acc : Z) : option Z :=
  match s with
  | EmptyString => Some acc
  | String c s' =>
      match digit_value c with
      | Some d => digits_value s' (10 * acc + d)
      | None => None
      end
  end.

Definition parse_unsigned (s : string) : option Q :=
  match split "." s with
  | [i] =>
      if String.eqb i "" then None
      else option_map inject_Z (digits_value i 0)
  | [i; f] =>
      if String.eqb i "" && String.eqb f "" then None
      else
        match digits_value i 0, digits_value f 0 with
        | Some iv, Some fv =>
            let scale := Z.pow 10 (Z.of_nat (String.length f)) in
            Some (Qred (Qmake (iv * scale + fv) (Z.to_pos scale)))
        | _, _ => None
        end
  | _ => None
  end.

Definition of_string (s : string) : option Q :=
  match s with
  | String "-" s' => option_map (fun q => Qred (Qopp q)) (parse_unsigned s')
  | String "+" s' => parse_unsigned s'
  | _ => parse_unsigned s
  end.

Definition str_of_Z (z : Z) : string := NilEmpty.string_of_int (Z.to_int z).

Definition print (q : Q) : string :=
  let q := Qred q in
  if Pos.eqb (Qden q) 1 then str_of_Z (Qnum q)
  else str_of_Z (Qnum q) ++ "/" ++ str_of_Z (Zpos (Qden q)).

Definition ltb (a b : Q) : bool :=
  match Qcompare a b with
  | Lt => true
  | _ => false
  end.

#[global] Instance exact : Decimal Q := {
  Decimal_of_Z z := Qred (inject_Z z);
  Decimal_of_string := of_string;
  dec_add a b := Qred (Qplus a b);
  dec_sub a b := Qred (Qminus a b);
  dec_mul a b := Qred (Qmult a b);
  dec_div a b := Qred (Qdiv a b);
  dec_eqb := Qeq_bool;
  dec_ltb := ltb;
  print_decimal := print
}.

End ExactDecimal.


(* ================================================================== *)
(** ** Example inputs *)
(* ================================================================== *)

Module Examples.
Import Witnesses.

(** A false-expected task with three validators of violation
    witnesses, voting "true", "true" and "false". *)
Definition row_three_votes : Row :=
  [("expected", CStr "false"); ("verifier", CStr "cpachecker");
   ("witnessExpected", CStr "-"); ("witnessType-1.0", CStr "violation_witness");
   ("a-violation-1.0", CStr "true"); ("b-violation-1.0", CStr "true");
   ("c-violation-1.0", CStr "false(unreach-call)")].

Definition columns_three_votes :=
  ["a-violation-1.0"; "b-violation-1.0"; "c-violation-1.0"].

(** A true-expected task whose witness the linter saw as a violation
    witness, with two validators of correctness witnesses voting "true". *)
Definition row_type_mismatch : Row :=
  [("expected", CStr "true"); ("verifier", CStr "cpachecker");
   ("witnessExpected", CStr "-"); ("witnessType-1.0", CStr "violation_witness");
   ("a-correctness-1.0", CStr "true"); ("b-correctness-1.0", CStr "true")].

Definition columns_type_mismatch := ["a-correctness-1.0"; "b-correctness-1.0"].

(** A false-expected task with a correctness witness. *)
Definition row_correctness_on_false : Row :=
  [("expected", CStr "false(unreach-call)"); ("verifier", CStr "cpachecker");
   ("witnessExpected", CStr "-");
   ("witnessType-1.0", CStr "correctness_witness");
   ("a-correctness-1.0", CStr "true")].

Import Reconcile.

Definition column (t v : string) : Column := mkColumn (Some t) (Some v).

(** A verifier's run for a task, with its status and category. *)
Definition verifier_run (properties expected status category : string) : Run :=
  mkRun (Some "task.yml") (Some properties) (Some expected)
    [column "status" status; column "category" category].

(** A result file with a single run. *)
Definition result_file (file tool_name set_name : string) (r : Run)
  : BenchmarkRuns :=
  mkBenchmarkRuns file tool_name (Some set_name) [r].

(** A validator's or linter's run for the same task. *)
Definition witness_run (status : string) : Run :=
  mkRun (Some "task.yml") (Some "unreach-call") (Some "true")
    [column "status" status; column "category" "unknown"].

Definition linter_reject : BenchmarkRuns :=
  result_file "lint1.xml" "witnesslint" "SV-COMP25_unreach-call"
    (witness_run "ERROR (invalid witness syntax)").

Definition linter_done : BenchmarkRuns :=
  result_file "lint2.xml" "witnesslint" "SV-COMP25_unreach-call"
    (witness_run "done").

(** A linter's result file without a run for the task. *)
Definition linter_no_run : BenchmarkRuns :=
  mkBenchmarkRuns "lint3.xml" "witnesslint" (Some "SV-COMP25_unreach-call") [].

Definition validator_confirm : BenchmarkRuns :=
  result_file "val1.xml" "cpachecker" "SV-COMP25_unreach-call"
    (witness_run "true").

Definition validator_reject : BenchmarkRuns :=
  result_file "val2.xml" "cpachecker" "SV-COMP25_unreach-call"
    (witness_run "false(unreach-call)").

Definition verifier_correct : Run :=
  verifier_run "unreach-call" "true" "true" "correct".

Definition verifier_file (set_name : string) (r : Run) : BenchmarkRuns :=
  result_file "verifier.xml" "verifier" set_name r.

(** A Test-Comp run that the verifier's result file lists as unknown. *)
Definition testcomp_unknown : Run :=
  verifier_run "coverage-branches" "true" "done" "unknown".

Definition verifier_wrong : Run :=
  verifier_run "unreach-call" "true" "false(unreach-call)" "wrong".

(** A Test-Comp run without status and category columns. *)
Definition testcomp_no_columns : Run :=
  mkRun (Some "task.yml") (Some "coverage-branches") (Some "true") [].

(** The verifier's run as a [BenchmarkRun]. *)
Definition as_benchmark_run (r : Run) : BenchmarkRun :=
  mkBenchmarkRun "verifier.xml" "verifier" (Some r).

Import Utils Scores.

(** A run result without a score column, scored by the table
    generator. *)
Definition scored_run (s : Z) (status category : string) : RunResult (D := Q) :=
  mkRunResult [] [] (Some (NInt s)) status category.

(** A run result with an explicit score column. *)
Definition listed_run (s : string) (status category : string)
  : RunResult (D := Q) :=
  mkRunResult ["status"; "score"] [Some status; Some s] None status category.

(** A run set of the verification track: a confirmed proof, a confirmed
    alarm, an unconfirmed proof, a wrong alarm and a timeout. *)
Definition run_set : list (RunResult (D := Q)) :=
  [scored_run 2 "true" "correct";
   listed_run "1" "false(unreach-call)" "correct";
   scored_run 0 "true" "correct-unconfirmed";
   listed_run "-16" "false(unreach-call)" "wrong";
   scored_run 0 "TIMEOUT" "error"].

(** A run set of the termination category of the device drivers: one
    confirmed alarm. *)
Definition termination_run_set : list (RunResult (D := Q)) :=
  [scored_run 1 "false(termination)" "correct"].

(** A participant's result with a score, a score on the false tasks
    and the CPU time of its successful runs; quantile plots are empty. *)
Definition result_of (s s_false cpu : Z) : CategoryResult Q unit :=
  let data := CategoryData_init (NInt cpu) (NInt cpu) (NInt 0) (NInt 0) (NInt 0)
                (Some []) in
  mkCategoryResult (NInt s) (NInt s_false) data data 0 0 0 0 0 0 [] []
    (Some "results.xml").

(** Two base categories with one true task each, in which the
    participant "v" reaches the possible score 2. *)
Definition base_category (n : string) : VerificationCategory Q unit :=
  mkVerificationCategory n 1 1 0 (NInt 2) (NInt 0) [("v", result_of 2 0 10)].

Definition processed_categories : list (string * VerificationCategory Q unit) :=
  [("A", base_category "A"); ("B", base_category "B")].

Definition category_structure : CategoryInfo :=
  mkCategoryInfo [("Overall", mkCategoryDef ["v"] ["A"; "B"])] [] None None.

(** Measurements of two categories: 10 s in one run, 20 s in another. *)
Definition data_a : CategoryData Q :=
  CategoryData_init (NDec (10 # 1)) (NDec (10 # 1)) (NDec (0 # 1)) (NDec (0 # 1)) (NDec (0 # 1))
    (Some [Some 10%Q]).

Definition data_b : CategoryData Q :=
  CategoryData_init (NDec (20 # 1)) (NDec (0 # 1)) (NDec (0 # 1)) (NDec (20 # 1)) (NDec (20 # 1))
    (Some [Some 20%Q]).

Definition data_c : CategoryData Q :=
  CategoryData_init (NDec (5 # 1)) (NDec (5 # 1)) (NDec (5 # 1)) (NDec (0 # 1)) (NDec (0 # 1))
    (Some [None; Some 5%Q]).

(** The results of a participant in two categories. *)
Definition category_result_a : CategoryResult Q unit :=
  mkCategoryResult (NInt 2) (NInt 0) data_a data_a 0 1 0 0 0 0 [tt] []
    (Some "a.xml").

Definition category_result_b : CategoryResult Q unit :=
  mkCategoryResult (NInt 0) (NInt 0) data_b data_b 0 0 1 0 0 0 [] [tt]
    (Some "b.xml").

(** A category of the verification track with one participant, whose
    score is negative. *)
Definition category_one_negative : VerificationCategory Q unit :=
  mkVerificationCategory "ReachSafety" 10 6 4 (NInt 16) (NInt 4)
    [("a", result_of (-16) (-16) 10)].

(** A category of the verification track with four participants. *)
Definition category_four : VerificationCategory Q unit :=
  mkVerificationCategory "ReachSafety" 10 6 4 (NInt 16) (NInt 4)
    [("a", result_of 5 1 10); ("b", result_of 7 1 10);
     ("c", result_of 7 0 5); ("d", result_of (-3) 0 0)].

(** A category of the verification track whose four participants tie
    in score and CPU time. *)
Definition category_tied : VerificationCategory Q unit :=
  mkVerificationCategory "ReachSafety" 10 6 4 (NInt 16) (NInt 4)
    [("a", result_of 7 1 10); ("b", result_of 7 1 10);
     ("c", result_of 7 1 10); ("d", result_of 7 1 10)].

(** Categories of the validation track: without participants, and with
    one validator of score 0. *)
Definition validation_empty : ValidationCategory Q unit :=
  mkValidationCategory "ReachSafety" 6 4 [].

Definition validation_one_zero : ValidationCategory Q unit :=
  mkValidationCategory "ReachSafety" 6 4
    [("a-validate-violation-witnesses-1.0", result_of 0 0 10)].

(** A catalog in which every tool competes and has no label. *)
Definition no_labels (tool_name : string) : Exc (list string) := Ok [].
Definition all_compete (tool_name : string) : Exc bool := Ok true.

(** A result file in which the task occurs twice. *)
Definition verifier_twice : BenchmarkRuns :=
  mkBenchmarkRuns "verifier.xml" "verifier" (Some "SV-COMP25_unreach-call")
    [verifier_correct; verifier_correct].

(** The verifier's run once no validator has confirmed it. *)
Definition verifier_unconfirmed : Run :=
  verifier_run "unreach-call" "true" "true" "correct-unconfirmed".

(** A run with a column besides status and category. *)
Definition verifier_with_cputime : Run :=
  mkRun (Some "task.yml") (Some "unreach-call") (Some "true")
    [column "cputime" "12.5s"; column "status" "true";
     column "category" "correct"].

(** A memory-safety alarm of the verifier, and a validator's run that
    finds another violation. *)
Definition memsafety_alarm : Run :=
  mkRun (Some "task.yml") (Some "valid-memsafety") (Some "false(valid-deref)")
    [column "status" "false(valid-deref)"; column "category" "correct"].

Definition memsafety_other_violation : Run :=
  mkRun (Some "task.yml") (Some "valid-memsafety") (Some "false(valid-deref)")
    [column "status" "false(valid-free)"; column "category" "wrong"].

(** The columns of a witness database with two validators. *)
Definition database_columns :=
  ["category"; "task"; "verifier"; "specification"; "expected";
   "witnessType-1.0"; "witnessType-2.0"; "witnessExpected";
   "cpachecker-violation-1.0"; "cpachecker-correctness-2.0";
   "uautomizer-violation-1.0"].

(** A task of a verifier that carries a witness verdict. *)
Definition row_unexpected_verdict : Row :=
  [("expected", CStr "true"); ("verifier", CStr "cpachecker");
   ("witnessExpected", CStr "false")].

(** A run result whose score column is empty, although the table
    generator has computed a score. *)
Definition empty_score_cell : RunResult (D := Q) :=
  mkRunResult ["status"; "score"] [Some "true"; None] (Some (NInt 2))
    "true" "correct".

(** A category structure whose meta category has demo categories only. *)
Definition demo_structure : CategoryInfo :=
  mkCategoryInfo [("Overall", mkCategoryDef ["v"] ["A"; "B"])] []
    (Some ["A"; "B"]) None.

(** A base category in which the participant "w" has a result besides
    "v". *)
Definition base_category_two (n : string) : VerificationCategory Q unit :=
  mkVerificationCategory n 1 1 0 (NInt 2) (NInt 0)
    [("v", result_of 2 0 10); ("w", result_of 1 0 10)].

(** "w" has no result in the second sub-category. *)
Definition processed_one_missing : list (string * VerificationCategory Q unit) :=
  [("A", base_category_two "A"); ("B", base_category "B")].

Definition structure_two : CategoryInfo :=
  mkCategoryInfo [("Overall", mkCategoryDef ["v"; "w"] ["A"; "B"])] [] None None.

(** A category of the validation track with a validator of positive
    score and one of score 0. *)
Definition validation_two : ValidationCategory Q unit :=
  mkValidationCategory "ReachSafety" 6 4
    [("a-validate-violation-witnesses-1.0", result_of 3 0 10);
     ("b-validate-violation-witnesses-1.0", result_of 0 0 10)].

(** A catalog in which the tool "b" is a meta tool. *)
Definition b_is_meta_tool (tool_name : string) : Exc (list string) :=
  if String.eqb tool_name "b" then Ok ["meta_tool"] else Ok [].

(** The value of the track of the validators of violation witnesses
    2.0. *)
Definition track_violation_2 := "Validation of Violation Witnesses 2.0".

(** The results of a run set: a proved task, a refuted task, and an
    invalid task. *)
Definition rated_results : list (RunResult (D := Q) * option (option bool)) :=
  [(scored_run 2 "true" "correct", Some (Some true));
   (scored_run 1 "false(unreach-call)" "correct", Some (Some false));
   (scored_run 0 "invalid task (true)" "missing", Some (Some true))].

Import ScoresValidators.


(** A structure with one meta category and one base category; a
    validator that has opted out of the base category and in again, and
    a linter that has opted in. *)
Definition tool_structure : ToolCategoryInfo :=
  mkToolCategoryInfo
    (Some [("ReachSafety",
            mkToolCategory (Some ["val-validate-violation-witnesses-2.0"])
              (Some ["ver"]) (Some ["ReachSafety-Arrays"]))])
    (Some [("val-validate-violation-witnesses-2.0", ["ReachSafety-Arrays"])])
    (Some [("val-validate-violation-witnesses-2.0", ["ReachSafety-Arrays"]);
           ("witnesslint-validate-violation-witnesses-2.0",
            ["ReachSafety-Arrays"]);
           ("other-validate-violation-witnesses-2.0", ["ReachSafety-Loops"])]).

End Examples.

(* ================================================================== *)
(** * Properties *)
(* ================================================================== *)

(** ** General facts *)

Lemma bind_Ok {A B} (c : Exc A) (k : A -> Exc B) (b : B) :
  bind c k = Ok b -> exists a, c = Ok a /\ k a = Ok b.
Proof.
  destruct c as [a|e]; simpl; intros Hk; [exists a; auto | discriminate].
Qed.

Lemma assert_Ok (b : bool) (u : unit) : assert b = Ok u -> b = true.
Proof. destruct b; simpl; [reflexivity | discriminate]. Qed.

(** Splits an equation [bind c k = Ok b] in the context. *)
Ltac bind_inv H :=
  let a := fresh "a" in
  let Ha := fresh "Ha" in
  apply bind_Ok in H; destruct H as (a & Ha & H).

(** The same, naming the value and the equation. *)
Ltac bind_inv_as H a Ha :=
  apply bind_Ok in H; destruct H as (a & Ha & H).

Lemma str_in_cases (x : string) (xs : list string) :
  str_in x xs = true -> In x xs.
Proof.
  unfold str_in; rewrite existsb_exists.
  intros (y & Hy & Heq). apply String.eqb_eq in Heq. now subst.
Qed.

Lemma for_each_app {S A} (body : S -> A -> Exc S) (xs ys : list A) (s : S) :
  for_each body (xs ++ ys) s = bind (for_each body xs s) (for_each body ys).
Proof.
  revert s. induction xs as [|x xs IH]; intros s; simpl; [reflexivity|].
  destruct (body s x) as [s'|e]; simpl; [apply IH | reflexivity].
Qed.

(** A loop whose body keeps a property of the state keeps it. *)
Lemma for_each_invariant {S A} (P : S -> Prop) (body : S -> A -> Exc S)
    (xs : list A) :
  (forall s x s', P s -> body s x = Ok s' -> P s') ->
  forall s s', P s -> for_each body xs s = Ok s' -> P s'.
Proof.
  intros Hbody. induction xs as [|x xs IH]; intros s s' Hs Hloop; simpl in Hloop.
  - inversion Hloop; subst; exact Hs.
  - bind_inv Hloop. eauto.
Qed.

(** ** The reference instance *)

Module ExactDecimalSpec.

(** Exact rational arithmetic obeys the laws. *)
#[global] Instance exact_is_exact : DecimalExact Q.
Proof.
  constructor; cbv [dec_add Decimal_of_Z ExactDecimal.exact].
  - intros a b. apply Qred_complete, Qplus_comm.
  - intros a b c. apply Qred_complete. rewrite !Qred_correct.
    symmetry. apply Qplus_assoc.
  - intros x y. apply Qred_complete. rewrite !Qred_correct.
    rewrite inject_Z_plus. reflexivity.
Qed.

Lemma exact_ltb_false (a b : Q) : ExactDecimal.ltb a b = false <-> (b <= a)%Q.
Proof.
  unfold ExactDecimal.ltb. rewrite Qle_alt, <- (Qcompare_antisym a b).
  destruct (a ?= b)%Q; cbn; split; intros; congruence.
Qed.

#[global] Instance exact_is_ordered : DecimalOrder Q.
Proof.
  constructor; cbv [dec_eqb dec_ltb Decimal_of_Z ExactDecimal.exact].
  - intros a b. unfold ExactDecimal.ltb.
    rewrite <- (Qcompare_antisym a b).
    destruct (a ?= b)%Q; cbn; congruence.
  - intros a b c. rewrite !exact_ltb_false. intros Hba Hcb.
    exact (Qle_trans _ _ _ Hcb Hba).
  - intros a b. unfold ExactDecimal.ltb.
    rewrite <- (Qcompare_antisym a b).
    destruct (Qeq_bool a b) eqn:Heq.
    + apply Qeq_bool_iff, Qeq_alt in Heq. rewrite Heq. reflexivity.
    + apply Qeq_bool_neq in Heq. rewrite Qeq_alt in Heq.
      destruct (a ?= b)%Q; cbn; congruence.
  - intros x y. unfold ExactDecimal.ltb. rewrite <- Qred_compare.
    unfold Qcompare, inject_Z, Z.ltb. cbn [Qnum Qden].
    rewrite !Z.mul_1_r. reflexivity.
Qed.

End ExactDecimalSpec.

(** ** Witness classification *)

Module WitnessesSpec.
Import Witnesses.

Lemma kinds_cases (k : string) :
  str_in k kinds = true ->
  k = "correctness-1.0" \/ k = "correctness-2.0"
  \/ k = "violation-1.0" \/ k = "violation-2.0".
Proof.
  intros Hk. apply str_in_cases in Hk. simpl in Hk.
  destruct Hk as [<- | [<- | [<- | [<- | []]]]]; auto.
Qed.

(** The two entries of a returned dictionary. *)
Lemma classification_entries (k c v : string) :
  str_in k kinds = true ->
  category_of k (classification k c v) = Some c
  /\ voting_of k (classification k c v) = Some v.
Proof.
  intros Hk.
  destruct (kinds_cases k Hk) as [-> | [-> | [-> | ->]]]; split; reflexivity.
Qed.

Lemma vote_is_classification (k : string) (c r : nat) :
  vote k c r =
  classification k (vote_category c r) (str_of_nat c ++ ":" ++ str_of_nat r).
Proof.
  unfold vote, vote_category.
  destruct (2 <=? c + r)%nat; [|reflexivity].
  destruct (3 * r <=? c)%nat; [reflexivity|].
  destruct (3 * c <=? r)%nat; reflexivity.
Qed.

(** The rule of the vote, read off [vote_category]. *)
Lemma vote_category_rule (c r : nat) :
  (vote_category c r = result.WITNESS_CATEGORY_CORRECT
   <-> (2 <= c + r /\ 3 * r <= c)%nat)
  /\ (vote_category c r = result.WITNESS_CATEGORY_WRONG
      <-> (2 <= c + r /\ 3 * c <= r)%nat)
  /\ (vote_category c r = result.WITNESS_CATEGORY_UNKNOWN
      <-> (c + r < 2 \/ (c < 3 * r /\ r < 3 * c))%nat).
Proof.
  unfold vote_category.
  destruct (Nat.leb_spec 2 (c + r)) as [H2|H2];
    [destruct (Nat.leb_spec (3 * r) c) as [Hc|Hc];
       [|destruct (Nat.leb_spec (3 * c) r) as [Hr|Hr]]|];
    (repeat split; intros; try discriminate; try lia; try reflexivity).
Qed.

(** Every early exit of [_classify_task] records ["-:-"]; a
    classification that records anything else was decided by the vote. *)
Lemma classify_task_cases (row : Row) (columns : list string) (k : string)
    (d : list (string * string)) :
  _classify_task row columns k = Ok d ->
  (exists c, d = classification k c "-:-")
  \/ (exists e confirmed rejected,
        row_get row COLUMN_EXPECTED = Ok e
        /\ count_startswith row columns (lower (cell_str e)) = Ok confirmed
        /\ count_startswith row columns (opposite_of (lower (cell_str e)))
           = Ok rejected
        /\ d = vote k confirmed rejected).
Proof.
  unfold _classify_task. intros H.
  bind_inv H. bind_inv H. destruct a0 as [w version].
  bind_inv H. rename a0 into e. bind_inv H. rename a0 into v.
  destruct (cell_is v "witnessmap").
  - bind_inv H. left.
    destruct (cell_in a0 [""; "-"]).
    + bind_inv H. inversion H. eauto.
    + destruct (negb _); inversion H; eauto.
  - bind_inv H. bind_inv H. bind_inv H. rename a2 into t.
    assert (Hvote :
      (check_columns_are_strings row columns ;;;
       confirmed <- count_startswith row columns (lower (cell_str e)) ;;
       rejected <-
         count_startswith row columns (opposite_of (lower (cell_str e))) ;;
       Ok (vote k confirmed rejected)) = Ok d ->
      exists e0 confirmed rejected,
        row_get row COLUMN_EXPECTED = Ok e0
        /\ count_startswith row columns (lower (cell_str e0)) = Ok confirmed
        /\ count_startswith row columns (opposite_of (lower (cell_str e0)))
           = Ok rejected
        /\ d = vote k confirmed rejected).
    { intros Hv. bind_inv Hv. bind_inv Hv. bind_inv Hv. inversion Hv.
      exists e, a3, a4. auto. }
    destruct (cell_in t WITNESSLINT_CORRECTNESS_TYPES).
    + destruct (String.eqb w "violation"); [inversion H; eauto|].
      destruct (startswith _ result.RESULT_FALSE_PROP); [inversion H; eauto|].
      right. auto.
    + destruct (cell_in t WITNESSLINT_VIOLATION_TYPES); [|inversion H; eauto].
      destruct (String.eqb w "correctness"); [inversion H; eauto|].
      destruct (startswith _ result.RESULT_TRUE_PROP); [inversion H; eauto|].
      right. auto.
Qed.

(** When every column of the validators holds a string, the check of
    the columns passes and the votes are counted. *)
Lemma string_columns_counted (row : Row) (columns : list string) :
  (forall c, In c columns -> exists s, row_get row c = Ok (CStr s)) ->
  check_columns_are_strings row columns = Ok tt
  /\ forall verdict, exists n, count_startswith row columns verdict = Ok n.
Proof.
  induction columns as [|c cs IH]; intros Hstr.
  - split; [reflexivity|]. intros verdict. exists 0%nat. reflexivity.
  - destruct (Hstr c (or_introl eq_refl)) as [s Hs].
    destruct (IH (fun c' Hc' => Hstr c' (or_intror Hc'))) as [Hcheck Hcount].
    cbn [check_columns_are_strings count_startswith]. rewrite Hs.
    cbn [bind cell_isinstance_str assert]. split; [exact Hcheck|].
    intros verdict. destruct (Hcount verdict) as [n ->]. cbn [bind].
    eexists. reflexivity.
Qed.

(** The two kinds of witness type are apart. *)
Lemma violation_type_not_correctness (t : Cell) :
  cell_in t WITNESSLINT_VIOLATION_TYPES = true ->
  cell_in t WITNESSLINT_CORRECTNESS_TYPES = false.
Proof.
  destruct t as [s|r]; [|reflexivity]. simpl.
  rewrite !orb_false_r. intros Hor.
  apply orb_true_iff in Hor.
  destruct Hor as [Hor|Hor]; apply String.eqb_eq in Hor; subst; reflexivity.
Qed.

(** A witnessmap row is classified without a vote. *)
Lemma classify_task_witnessmap (row : Row) (columns : list string)
    (k : string) (v : Cell) (d : list (string * string)) :
  row_get row COLUMN_VERIFIER = Ok v ->
  cell_is v "witnessmap" = true ->
  _classify_task row columns k = Ok d ->
  exists c, d = classification k c "-:-".
Proof.
  unfold _classify_task, COLUMN_VERIFIER. intros Hv Hwm H.
  bind_inv H. bind_inv H. destruct a0 as [w version].
  bind_inv H. rewrite Hv in H. cbn [bind] in H. rewrite Hwm in H.
  bind_inv H.
  destruct (cell_in a1 [""; "-"]).
  - bind_inv H. inversion H. eauto.
  - destruct (negb _); inversion H; eauto.
Qed.

(** C4 (as amended): the vote of [_classify_task] is taken on one path
    only.  A classification either records ["-:-"] or records
    ["confirmed:rejected"], and then it is CORRECT iff
    [confirmed + rejected >= 2] and [confirmed >= 3 * rejected], WRONG
    iff [confirmed + rejected >= 2] and [rejected >= 3 * confirmed], and
    UNKNOWN otherwise, in particular whenever
    [confirmed + rejected < 2].  The vote is taken, with this result,
    for every task of a verifier -- not of the witnessmap -- without
    witness verdict, whose witness the linter saw to be of the kind
    under test and able to confirm the expected verdict (a correctness
    witness of a task not expected false, a violation witness of a task
    not expected true), when the columns of the validators hold strings.
    Everywhere else no vote is taken and ["-:-"] is recorded: for the
    rows of the witnessmap, and for a witness of the other kind, of
    neither kind, or unable to confirm the expected verdict. *)
Theorem classify_task_vote (row : Row) (columns : list string) (k : string) :
  (forall d,
      _classify_task row columns k = Ok d ->
      voting_of k d = Some "-:-"
      \/ exists e confirmed rejected category,
           row_get row COLUMN_EXPECTED = Ok e
           /\ count_startswith row columns (lower (cell_str e)) = Ok confirmed
           /\ count_startswith row columns (opposite_of (lower (cell_str e)))
              = Ok rejected
           /\ voting_of k d
              = Some (str_of_nat confirmed ++ ":" ++ str_of_nat rejected)
           /\ category_of k d = Some category
           /\ (category = result.WITNESS_CATEGORY_CORRECT
               <-> (2 <= confirmed + rejected /\ 3 * rejected <= confirmed)%nat)
           /\ (category = result.WITNESS_CATEGORY_WRONG
               <-> (2 <= confirmed + rejected /\ 3 * confirmed <= rejected)%nat)
           /\ (category = result.WITNESS_CATEGORY_UNKNOWN
               <-> (confirmed + rejected < 2
                    \/ (confirmed < 3 * rejected
                        /\ rejected < 3 * confirmed))%nat))
  /\ (forall w version e v we t,
         str_in k kinds = true ->
         split_kind k = Ok (w, version) ->
         row_get row COLUMN_EXPECTED = Ok e ->
         row_get row COLUMN_VERIFIER = Ok v ->
         cell_is v "witnessmap" = false ->
         row_get row COLUMN_WITNESS_EXPECTED = Ok we ->
         cell_in we [""; "-"] = true ->
         row_get row (COLUMN_WITNESS_TYPE ++ "-" ++ version) = Ok t ->
         (cell_in t WITNESSLINT_CORRECTNESS_TYPES = true
          /\ w = "correctness"
          /\ startswith (lower (cell_str e)) result.RESULT_FALSE_PROP = false)
         \/ (cell_in t WITNESSLINT_VIOLATION_TYPES = true
             /\ w = "violation"
             /\ startswith (lower (cell_str e)) result.RESULT_TRUE_PROP = false) ->
         (forall c, In c columns -> exists s, row_get row c = Ok (CStr s)) ->
         exists confirmed rejected category,
           count_startswith row columns (lower (cell_str e)) = Ok confirmed
           /\ count_startswith row columns (opposite_of (lower (cell_str e)))
              = Ok rejected
           /\ _classify_task row columns k
              = Ok (classification k category
                      (str_of_nat confirmed ++ ":" ++ str_of_nat rejected))
           /\ (category = result.WITNESS_CATEGORY_CORRECT
               <-> (2 <= confirmed + rejected /\ 3 * rejected <= confirmed)%nat)
           /\ (category = result.WITNESS_CATEGORY_WRONG
               <-> (2 <= confirmed + rejected /\ 3 * confirmed <= rejected)%nat)
           /\ (category = result.WITNESS_CATEGORY_UNKNOWN
               <-> (confirmed + rejected < 2
                    \/ (confirmed < 3 * rejected
                        /\ rejected < 3 * confirmed))%nat))
  /\ (forall v d,
         row_get row COLUMN_VERIFIER = Ok v ->
         cell_is v "witnessmap" = true ->
         _classify_task row columns k = Ok d ->
         voting_of k d = Some "-:-")
  /\ (forall w version e v t d,
         split_kind k = Ok (w, version) ->
         row_get row COLUMN_EXPECTED = Ok e ->
         row_get row COLUMN_VERIFIER = Ok v ->
         cell_is v "witnessmap" = false ->
         row_get row (COLUMN_WITNESS_TYPE ++ "-" ++ version) = Ok t ->
         (cell_in t WITNESSLINT_CORRECTNESS_TYPES = true
          /\ (w = "violation"
              \/ startswith (lower (cell_str e)) result.RESULT_FALSE_PROP = true))
         \/ (cell_in t WITNESSLINT_VIOLATION_TYPES = true
             /\ (w = "correctness"
                 \/ startswith (lower (cell_str e)) result.RESULT_TRUE_PROP = true))
         \/ (cell_in t WITNESSLINT_CORRECTNESS_TYPES = false
             /\ cell_in t WITNESSLINT_VIOLATION_TYPES = false) ->
         _classify_task row columns k = Ok d ->
         voting_of k d = Some "-:-").
Proof.
  split; [|split; [|split]].
  - intros d H.
    assert (Hk : str_in k kinds = true).
    { unfold _classify_task in H. bind_inv H. now apply assert_Ok in Ha. }
    destruct (classify_task_cases _ _ _ _ H)
      as [(c & ->)|(e & confirmed & rejected & He & Hc & Hr & ->)].
    + left. apply classification_entries, Hk.
    + right. exists e, confirmed, rejected, (vote_category confirmed rejected).
      rewrite vote_is_classification.
      destruct (classification_entries k (vote_category confirmed rejected)
                  (str_of_nat confirmed ++ ":" ++ str_of_nat rejected) Hk)
        as [Hcat Hvot].
      destruct (vote_category_rule confirmed rejected) as (R1 & R2 & R3).
      split; [exact He|]. split; [exact Hc|]. split; [exact Hr|].
      split; [exact Hvot|]. split; [exact Hcat|].
      split; [exact R1|]. split; [exact R2|exact R3].
  - intros w version e v we t Hk Hs He Hv Hwm Hwe Hin Ht Hpath Hstr.
    destruct (string_columns_counted row columns Hstr) as [Hcheck Hcount].
    destruct (Hcount (lower (cell_str e))) as [confirmed Hc].
    destruct (Hcount (opposite_of (lower (cell_str e)))) as [rejected Hr].
    exists confirmed, rejected, (vote_category confirmed rejected).
    destruct (vote_category_rule confirmed rejected) as (R1 & R2 & R3).
    split; [exact Hc|]. split; [exact Hr|].
    split; [|split; [exact R1|split; [exact R2|exact R3]]].
    rewrite <- vote_is_classification.
    unfold _classify_task. rewrite Hk, Hs. cbn [assert bind].
    unfold COLUMN_VERIFIER in Hv. rewrite He, Hv. cbn [bind].
    rewrite Hwm, Hwe. cbn [bind]. rewrite Hin. cbn [negb bind]. rewrite Ht.
    cbn [bind].
    destruct Hpath as [(Htc & -> & Hst)|(Htv & -> & Hst)].
    + rewrite Htc, Hst. cbn [String.eqb Ascii.eqb Bool.eqb].
      rewrite Hcheck. cbn [bind]. rewrite Hc. cbn [bind]. rewrite Hr.
      reflexivity.
    + rewrite (violation_type_not_correctness t Htv), Htv, Hst.
      cbn [String.eqb Ascii.eqb Bool.eqb].
      rewrite Hcheck. cbn [bind]. rewrite Hc. cbn [bind]. rewrite Hr.
      reflexivity.
  - intros v d Hv Hwm H.
    assert (Hk : str_in k kinds = true).
    { unfold _classify_task in H. bind_inv H. now apply assert_Ok in Ha. }
    destruct (classify_task_witnessmap row columns k v d Hv Hwm H) as [c ->].
    apply classification_entries, Hk.
  - intros w version e v t d Hs He Hv Hwm Ht Hexit H.
    assert (Hk : str_in k kinds = true).
    { unfold _classify_task in H. bind_inv H. now apply assert_Ok in Ha. }
    assert (Hd : exists c, d = classification k c "-:-").
    { unfold _classify_task in H. rewrite Hk, Hs in H. cbn [assert bind] in H.
      unfold COLUMN_VERIFIER in Hv. rewrite He, Hv in H. cbn [bind] in H.
      rewrite Hwm in H. bind_inv H. bind_inv H. rewrite Ht in H.
      cbn [bind] in H.
      destruct Hexit as [(Htc & Hcase)|[(Htv & Hcase)|(Htc & Htv)]].
      - rewrite Htc in H. destruct Hcase as [-> | Hst].
        + cbn [String.eqb Ascii.eqb Bool.eqb] in H. inversion H. eauto.
        + destruct (String.eqb w "violation"); [inversion H; eauto|].
          rewrite Hst in H. inversion H. eauto.
      - rewrite (violation_type_not_correctness t Htv), Htv in H.
        destruct Hcase as [-> | Hst].
        + cbn [String.eqb Ascii.eqb Bool.eqb] in H. inversion H. eauto.
        + destruct (String.eqb w "correctness"); [inversion H; eauto|].
          rewrite Hst in H. inversion H. eauto.
      - rewrite Htc, Htv in H. inversion H. eauto. }
    destruct Hd as [c ->]. apply classification_entries, Hk.
Qed.

Lemma classify_task_vote_witness :
  _classify_task Examples.row_three_votes Examples.columns_three_votes
    "violation-1.0"
  = Ok [("violation-1.0", "unknown"); ("voting-violation-1.0", "1:2")]
  /\ exists confirmed rejected category,
       count_startswith Examples.row_three_votes Examples.columns_three_votes
         (lower (cell_str (CStr "false"))) = Ok confirmed
       /\ count_startswith Examples.row_three_votes
            Examples.columns_three_votes
            (opposite_of (lower (cell_str (CStr "false")))) = Ok rejected
       /\ _classify_task Examples.row_three_votes
            Examples.columns_three_votes "violation-1.0"
          = Ok (classification "violation-1.0" category
                  (str_of_nat confirmed ++ ":" ++ str_of_nat rejected))
       /\ (category = result.WITNESS_CATEGORY_CORRECT
           <-> (2 <= confirmed + rejected /\ 3 * rejected <= confirmed)%nat)
       /\ (category = result.WITNESS_CATEGORY_WRONG
           <-> (2 <= confirmed + rejected /\ 3 * confirmed <= rejected)%nat)
       /\ (category = result.WITNESS_CATEGORY_UNKNOWN
           <-> (confirmed + rejected < 2
                \/ (confirmed < 3 * rejected
                    /\ rejected < 3 * confirmed))%nat).
Proof.
  split; [reflexivity|].
  apply (proj1 (proj2 (classify_task_vote Examples.row_three_votes
                         Examples.columns_three_votes "violation-1.0"))
           "violation" "1.0" (CStr "false") (CStr "cpachecker") (CStr "-")
           (CStr "violation_witness")); try reflexivity.
  - right. repeat split.
  - intros c [<-|[<-|[<-|[]]]]; eexists; reflexivity.
Defined.

(** C4, as stated, fails: two validators confirm and none rejects, so
    the stated rule gives CORRECT with the voting string "2:0"; the
    linter saw a violation witness, the kind under test is a correctness
    witness, and the classification is UNKNOWN with "-:-". *)
Lemma classify_task_vote_counterexample :
  count_startswith Examples.row_type_mismatch Examples.columns_type_mismatch
    "true" = Ok 2%nat
  /\ count_startswith Examples.row_type_mismatch Examples.columns_type_mismatch
       (opposite_of "true") = Ok 0%nat
  /\ _classify_task Examples.row_type_mismatch Examples.columns_type_mismatch
       "correctness-1.0"
     = Ok [("correctness-1.0", result.WITNESS_CATEGORY_UNKNOWN);
           ("voting-correctness-1.0", "-:-")].
Proof. repeat split. Qed.

(** C7 (as amended): for a row that is not a witnessmap row, a witness
    whose linter-observed type disagrees with the kind under test, or is
    of neither type, is classified UNKNOWN; a witness of the kind under
    test that cannot confirm the expected verdict (a correctness witness
    on a false-expected task, a violation witness on a true-expected
    task) is classified WRONG.  No vote is taken in these cases. *)
Theorem classify_task_witness_type (row : Row) (columns : list string)
    (k w version : string) (e v we t : Cell) :
  str_in k kinds = true ->
  split_kind k = Ok (w, version) ->
  row_get row COLUMN_EXPECTED = Ok e ->
  row_get row COLUMN_VERIFIER = Ok v ->
  cell_is v "witnessmap" = false ->
  row_get row COLUMN_WITNESS_EXPECTED = Ok we ->
  cell_in we [""; "-"] = true ->
  row_get row (COLUMN_WITNESS_TYPE ++ "-" ++ version) = Ok t ->
  (cell_in t WITNESSLINT_CORRECTNESS_TYPES = true -> w = "violation" ->
   _classify_task row columns k
   = Ok (classification k result.WITNESS_CATEGORY_UNKNOWN "-:-"))
  /\ (cell_in t WITNESSLINT_VIOLATION_TYPES = true -> w = "correctness" ->
      _classify_task row columns k
      = Ok (classification k result.WITNESS_CATEGORY_UNKNOWN "-:-"))
  /\ (cell_in t WITNESSLINT_CORRECTNESS_TYPES = false ->
      cell_in t WITNESSLINT_VIOLATION_TYPES = false ->
      _classify_task row columns k
      = Ok (classification k result.WITNESS_CATEGORY_UNKNOWN "-:-"))
  /\ (cell_in t WITNESSLINT_CORRECTNESS_TYPES = true -> w = "correctness" ->
      startswith (lower (cell_str e)) result.RESULT_FALSE_PROP = true ->
      _classify_task row columns k
      = Ok (classification k result.WITNESS_CATEGORY_WRONG "-:-"))
  /\ (cell_in t WITNESSLINT_VIOLATION_TYPES = true -> w = "violation" ->
      startswith (lower (cell_str e)) result.RESULT_TRUE_PROP = true ->
      _classify_task row columns k
      = Ok (classification k result.WITNESS_CATEGORY_WRONG "-:-")).
Proof.
  intros Hk Hs He Hv Hwm Hwe Hin Ht.
  assert (Hdisj : cell_in t WITNESSLINT_VIOLATION_TYPES = true ->
                  cell_in t WITNESSLINT_CORRECTNESS_TYPES = false).
  { destruct t as [s|r]; [|reflexivity]. simpl.
    rewrite !orb_false_r. intros Hor.
    apply orb_true_iff in Hor.
    destruct Hor as [Hor|Hor]; apply String.eqb_eq in Hor; subst; reflexivity. }
  unfold _classify_task. rewrite Hk, Hs. cbn [assert bind].
  unfold COLUMN_VERIFIER in Hv. rewrite He, Hv. cbn [bind].
  rewrite Hwm, Hwe. cbn [bind]. rewrite Hin. cbn [negb bind]. rewrite Ht.
  cbn [bind].
  repeat split.
  - intros -> ->. reflexivity.
  - intros Hviol ->. rewrite (Hdisj Hviol), Hviol. reflexivity.
  - intros -> ->. reflexivity.
  - intros -> -> ->. reflexivity.
  - intros Hviol -> Hst. rewrite (Hdisj Hviol), Hviol, Hst. reflexivity.
Qed.

Lemma classify_task_witness_type_witness :
  startswith (lower "false(unreach-call)") result.RESULT_FALSE_PROP = true
  /\ _classify_task Examples.row_correctness_on_false ["a-correctness-1.0"]
       "correctness-1.0"
     = Ok (classification "correctness-1.0" result.WITNESS_CATEGORY_WRONG "-:-").
Proof.
  split; [reflexivity|].
  refine (proj1 (proj2 (proj2 (proj2
            (classify_task_witness_type Examples.row_correctness_on_false
               ["a-correctness-1.0"] "correctness-1.0" "correctness" "1.0"
               (CStr "false(unreach-call)") (CStr "cpachecker") (CStr "-")
               (CStr "correctness_witness") _ _ _ _ _ _ _ _)))) _ _ _);
    reflexivity.
Defined.

(** C7, as stated, fails: a correctness witness on a false-expected
    task of a verifier other than witnessmap is classified WRONG, not
    UNKNOWN. *)
Lemma classify_task_witness_type_counterexample :
  row_get Examples.row_correctness_on_false COLUMN_VERIFIER
  = Ok (CStr "cpachecker")
  /\ row_get Examples.row_correctness_on_false "witnessType-1.0"
     = Ok (CStr "correctness_witness")
  /\ row_get Examples.row_correctness_on_false COLUMN_EXPECTED
     = Ok (CStr "false(unreach-call)")
  /\ _classify_task Examples.row_correctness_on_false ["a-correctness-1.0"]
       "correctness-1.0"
     = Ok [("correctness-1.0", result.WITNESS_CATEGORY_WRONG);
           ("voting-correctness-1.0", "-:-")]
  /\ String.eqb result.WITNESS_CATEGORY_WRONG result.WITNESS_CATEGORY_UNKNOWN
     = false.
Proof. repeat split. Qed.

End WitnessesSpec.

(** ** Verdict reconciliation *)

Module ReconcileSpec.
Import Reconcile.

Lemma nth_error_update_same {A} (i : nat) (x y : A) (xs : list A) :
  nth_error xs i = Some y -> nth_error (update i x xs) i = Some x.
Proof.
  revert i; induction xs as [|z xs IH]; intros [|i]; simpl;
    try discriminate; auto.
Qed.

Lemma nth_error_update_other {A} (i j : nat) (x : A) (xs : list A) :
  i <> j -> nth_error (update j x xs) i = nth_error xs i.
Proof.
  revert i j; induction xs as [|z xs IH]; intros [|i] [|j] Hij; simpl;
    try reflexivity; try congruence.
  apply IH. congruence.
Qed.

(** A run that its own adjustment leaves as it is, is left as it is by
    the loop over all runs. *)
Lemma update_loop_keeps (f : Run -> Exc Run) (i : nat) (r : Run)
    (js : list nat) :
  (forall r', f r = Ok r' -> r' = r) ->
  forall rs rs',
    nth_error rs i = Some r ->
    for_each
      (fun rs j =>
         match nth_error rs j with
         | Some r0 => r' <- f r0 ;; Ok (update j r' rs)
         | None => Ok rs
         end) js rs = Ok rs' ->
    nth_error rs' i = Some r.
Proof.
  intros Hf rs rs' Hi Hloop.
  refine (for_each_invariant (fun rs0 => nth_error rs0 i = Some r) _ js _
            rs rs' Hi Hloop).
  intros s j s' Hs Hstep.
  destruct (nth_error s j) as [r0|] eqn:Hj; [|inversion Hstep; subst; exact Hs].
  bind_inv Hstep. inversion Hstep; subst s'.
  destruct (Nat.eq_dec i j) as [->|Hne].
  - rewrite Hs in Hj. inversion Hj; subst r0.
    rewrite (Hf _ Ha). eapply nth_error_update_same, Hs.
  - rewrite nth_error_update_other by exact Hne. exact Hs.
Qed.

Section WithDecimal.
Context {D : Type} `{Decimal D}.

Lemma not_coverage (p : pystr) :
  pystr_in p coverage_properties = false ->
  pystr_eqb p (Some "coverage-error-call") = false
  /\ pystr_eqb p (Some "coverage-branches") = false.
Proof.
  destruct p as [s|]; simpl; [|auto].
  rewrite orb_false_r. intros Hor. apply orb_false_iff in Hor. exact Hor.
Qed.

(** Outside the Test-Comp properties a validator never touches the
    category recorded for the verifier. *)
Lemma validator_step_keeps_category (verifier_run : Run)
    (verifier : BenchmarkRun) (name sfv : pystr)
    (st st' : ValidatorLoop) (validator : BenchmarkRuns) :
  pystr_in (run_properties verifier_run) coverage_properties = false ->
  validator_step verifier_run verifier name sfv st validator = Ok st' ->
  vl_category_from_verification st' = vl_category_from_verification st.
Proof.
  intros Hp Hstep. destruct (not_coverage _ Hp) as [H1 H2].
  unfold validator_step in Hstep. rewrite H1, H2 in Hstep.
  destruct (as_dictionary_get validator name);
    [|inversion Hstep; reflexivity].
  bind_inv Hstep. destruct a as [s c].
  destruct (_ || _); inversion Hstep; reflexivity.
Qed.

(** Outside the Test-Comp properties [get_validation_result] returns
    the verifier's status and category as it was given them, and leaves
    the verifier's run alone. *)
Lemma get_validation_result_frame (verifier : BenchmarkRun) (r : Run)
    (validators linters : list BenchmarkRuns) (sfv cfv : pystr)
    (v : Verdict) (r' : Run) :
  run verifier = Some r ->
  pystr_in (run_properties r) coverage_properties = false ->
  get_validation_result verifier validators linters sfv cfv = Ok (v, r') ->
  r' = r /\ v_status_from_verification v = sfv
  /\ v_category_from_verification v = cfv.
Proof.
  intros Hr Hp Hres. unfold get_validation_result in Hres.
  rewrite Hr in Hres. cbn [bind] in Hres.
  bind_inv Hres. destruct a as [s c].
  destruct (pystr_eqb c (Some result.CATEGORY_ERROR)).
  - inversion Hres; subst. auto.
  - bind_inv Hres. rewrite Hp in Hres.
    inversion Hres; subst; cbn. repeat split.
    revert Ha0.
    apply (for_each_invariant
             (fun st => vl_category_from_verification st = cfv)); [|reflexivity].
    intros st0 x st1 Hst Hstep.
    rewrite (validator_step_keeps_category _ _ _ _ _ _ _ Hp Hstep). exact Hst.
Qed.

Lemma first_lint_error_cases (errs : list WitnessLintErrors)
    (yml graphml v : Verdict) :
  first_lint_error errs yml graphml = Some v -> v = yml \/ v = graphml.
Proof.
  induction errs as [|e errs IH]; simpl; [discriminate|].
  destruct (match v_status_wit yml with Some s => _ | None => _ end);
    [intros Hv; inversion Hv; auto|].
  destruct (match v_status_wit graphml with Some s => _ | None => _ end);
    [intros Hv; inversion Hv; auto|].
  exact IH.
Qed.

(** The same for the reconciliation over both pools of linters. *)
Lemma get_validation_results_for_run_frame (verification_run : BenchmarkRun)
    (r : Run) (validators linters : list BenchmarkRuns) (sfv cfv : pystr)
    (v : Verdict) (r' : Run) :
  run verification_run = Some r ->
  pystr_in (run_properties r) coverage_properties = false ->
  get_validation_results_for_run verification_run validators linters sfv cfv
  = Ok (v, r') ->
  r' = r /\ v_category_from_verification v = cfv.
Proof.
  intros Hr Hp Hres. unfold get_validation_results_for_run in Hres.
  rewrite Hr in Hres. cbn [bind] in Hres.
  destruct (separate_linters (run_name r) linters) as [graphml_linters yml_linters].
  bind_inv Hres. destruct a as [g r1].
  destruct (get_validation_result_frame _ _ _ _ _ _ _ _ Hr Hp Ha)
    as (-> & Hgs & Hgc).
  destruct (pystr_eqb (v_category_wit g) (Some result.CATEGORY_CORRECT)).
  { inversion Hres; subst. auto. }
  bind_inv Hres. destruct a as [y r2].
  assert (Hy : r2 = r /\ v_status_from_verification y = sfv
               /\ v_category_from_verification y = cfv).
  { eapply get_validation_result_frame; [|exact Hp|exact Ha0]. reflexivity. }
  destruct Hy as (-> & Hys & Hyc).
  destruct (pystr_eqb (v_category_wit y) (Some result.CATEGORY_CORRECT)).
  { inversion Hres; subst. auto. }
  destruct (_ && _).
  - destruct (first_lint_error all_WitnessLintErrors y g) as [v0|] eqn:Hf.
    + inversion Hres; subst.
      destruct (first_lint_error_cases _ _ _ _ Hf) as [->| ->]; auto.
    + inversion Hres; subst. auto.
  - inversion Hres; subst. auto.
Qed.

Lemma column_value_status (r : Run) :
  try_except (column_value "status" (Some r)) AttributeError
    (Ok (Some "not found")) = Ok (status_of_run r).
Proof.
  unfold column_value, status_of_run.
  destruct (find_column "status" r); reflexivity.
Qed.

Lemma column_value_category (r : Run) :
  try_except (column_value "category" (Some r)) AttributeError
    (Ok (Some result.CATEGORY_MISSING)) = Ok (category_of_run r).
Proof.
  unfold column_value, category_of_run.
  destruct (find_column "category" r); reflexivity.
Qed.

(** The loop body leaves a run whose category is not CORRECT as it is,
    unless the task is invalid or the property is one of Test-Comp. *)
Lemma adjust_run_keeps_not_correct (verifier_runs : BenchmarkRuns)
    (validators linters : list BenchmarkRuns) (invalid_tasks : list string)
    (r r' : Run) :
  pystr_eqb (category_of_run r) (Some result.CATEGORY_CORRECT) = false ->
  pystr_in (run_name r) invalid_tasks = false ->
  pystr_in (run_properties r) coverage_properties = false ->
  adjust_run verifier_runs validators linters invalid_tasks r = Ok r' ->
  r' = r.
Proof.
  intros Hc Hinv Hp Hadj. unfold adjust_run in Hadj.
  rewrite column_value_status, column_value_category in Hadj.
  cbn [bind] in Hadj. rewrite Hinv in Hadj.
  bind_inv Hadj. bind_inv Hadj.
  destruct (_ && _); [inversion Hadj; reflexivity|].
  cbn [bind] in Hadj.
  bind_inv Hadj. destruct a1 as [v r1].
  assert (Hf : r1 = r /\ v_category_from_verification v = category_of_run r).
  { eapply get_validation_results_for_run_frame; [|exact Hp|exact Ha1].
    reflexivity. }
  destruct Hf as [-> Hv]. rewrite Hv, Hc in Hadj.
  destruct (v_status_wit v), (v_category_wit v); inversion Hadj; reflexivity.
Qed.

(** C1 (as amended): the reconciliation pass leaves every run of the
    verifier whose category is not CORRECT (WRONG, ERROR, UNKNOWN,
    MISSING, or no category column) exactly as it is, whatever the
    validators and linters report, provided the task is not on the list
    of invalid tasks and the run's property is not one of the Test-Comp
    properties coverage-error-call and coverage-branches. *)
Theorem adjust_status_category_keeps_not_correct
    (verifier_runs : BenchmarkRuns) (validators linters : list BenchmarkRuns)
    (invalid_tasks : list string) (i : nat) (r : Run) (rs' : list Run) :
  nth_error (runs verifier_runs) i = Some r ->
  pystr_eqb (category_of_run r) (Some result.CATEGORY_CORRECT) = false ->
  pystr_in (run_name r) invalid_tasks = false ->
  pystr_in (run_properties r) coverage_properties = false ->
  adjust_status_category verifier_runs validators linters invalid_tasks
  = Ok rs' ->
  nth_error rs' i = Some r.
Proof.
  intros Hi Hc Hinv Hp Hadj. unfold adjust_status_category in Hadj.
  eapply update_loop_keeps; [|exact Hi|exact Hadj].
  intros r'. apply adjust_run_keeps_not_correct; assumption.
Qed.

(** C10: in a run set of SV-COMP whose name matches one of the
    category patterns, the loop body returns a run with expected
    verdict "true" untouched, whatever the validators and linters
    report, unless the task is on the list of invalid tasks; so the
    pass leaves that run as it is. *)
Theorem adjust_status_category_skips_expected_true
    (verifier_runs : BenchmarkRuns) (validators linters : list BenchmarkRuns)
    (invalid_tasks : list string) (set_name : string) (i : nat) (r : Run) :
  runs_name verifier_runs = Some set_name ->
  contains set_name "SV-COMP" = true ->
  existsb (contains set_name) category_patterns = true ->
  nth_error (runs verifier_runs) i = Some r ->
  run_expectedVerdict r = Some "true" ->
  pystr_in (run_name r) invalid_tasks = false ->
  adjust_run verifier_runs validators linters invalid_tasks r = Ok r
  /\ forall rs',
       adjust_status_category verifier_runs validators linters invalid_tasks
       = Ok rs' ->
       nth_error rs' i = Some r.
Proof.
  intros Hn Hsv Hpat Hi Hexp Hinv.
  assert (Hrun : adjust_run verifier_runs validators linters invalid_tasks r
                 = Ok r).
  { unfold adjust_run. rewrite column_value_status. cbn [bind].
    rewrite Hinv, Hn. cbn [re_search_any existsb bind].
    rewrite Hsv. cbn [orb bind]. rewrite Hpat, Hexp. reflexivity. }
  split; [exact Hrun|].
  intros rs' Hadj. unfold adjust_status_category in Hadj.
  eapply update_loop_keeps; [|exact Hi|exact Hadj].
  intros r' Hr'. rewrite Hrun in Hr'. inversion Hr'. reflexivity.
Qed.






Lemma separate_linters_app (name : pystr) (l1 l2 : list BenchmarkRuns) :
  separate_linters name (l1 ++ l2)
  = (fst (separate_linters name l1) ++ fst (separate_linters name l2),
     snd (separate_linters name l1) ++ snd (separate_linters name l2))%list.
Proof.
  induction l1 as [|linter l1 IH]; cbn [app separate_linters].
  - destruct (separate_linters name l2); reflexivity.
  - rewrite IH. destruct (separate_linters name l1) as [g1 y1].
    destruct (separate_linters name l2) as [g2 y2]. cbn [fst snd].
    destruct (as_dictionary_get linter name) as [linter_run|]; [|reflexivity].
    destruct (find_column "witnesslint-witness-file" linter_run);
      [|reflexivity].
    destruct (endswith _ ".graphml"); [reflexivity|].
    destruct (endswith _ ".yml"); reflexivity.
Qed.

(** A linter without a run for the task leaves the verdict of a pool
    unchanged. *)
Lemma get_validation_result_skips (verifier : BenchmarkRun) (r : Run)
    (validators l1 l2 : list BenchmarkRuns) (linter : BenchmarkRuns)
    (sfv cfv : pystr) :
  run verifier = Some r ->
  as_dictionary_get linter (run_name r) = None ->
  get_validation_result verifier validators (l1 ++ linter :: l2) sfv cfv
  = get_validation_result verifier validators (l1 ++ l2) sfv cfv.
Proof.
  intros Hr Hnone. unfold get_validation_result. rewrite Hr. cbn [bind].
  rewrite !for_each_app. cbn [for_each]. unfold linter_step at 2.
  rewrite Hnone.
  destruct (for_each (linter_step verifier (run_name r)) l1 (None, None));
    reflexivity.
Qed.

Lemma set_column_name (t v : string) (r : Run) :
  run_name (set_column t v r) = run_name r.
Proof. reflexivity. Qed.

Lemma get_validation_result_name (verifier : BenchmarkRun) (r : Run)
    (validators linters : list BenchmarkRuns) (sfv cfv : pystr)
    (v : Verdict) (r' : Run) :
  run verifier = Some r ->
  get_validation_result verifier validators linters sfv cfv = Ok (v, r') ->
  run_name r' = run_name r.
Proof.
  intros Hr Hres. unfold get_validation_result in Hres. rewrite Hr in Hres.
  cbn [bind] in Hres. bind_inv Hres. destruct a as [s c].
  destruct (pystr_eqb c (Some result.CATEGORY_ERROR));
    [inversion Hres; reflexivity|].
  bind_inv Hres. inversion Hres; subst.
  destruct (pystr_in _ _); reflexivity.
Qed.

(** C6 (as amended): handed no run, the pairwise comparison returns
    ("validation run missing", ERROR); but the reconciliation never
    hands it a missing run: a linter whose run set has no run for the
    task is skipped, and the verdict of the run is the same as without
    that linter. *)
Theorem missing_linter_run_is_skipped (verifier_runs : BenchmarkRuns)
    (validators l1 l2 : list BenchmarkRuns) (linter : BenchmarkRuns)
    (invalid_tasks : list string) (r : Run) :
  as_dictionary_get linter (run_name r) = None ->
  get_validator_linter_result
    (mkBenchmarkRun (original_file linter) (tool linter) None)
    (mkBenchmarkRun (original_file verifier_runs) (tool verifier_runs) (Some r))
  = Ok (Some "validation run missing", Some result.CATEGORY_ERROR)
  /\ (forall wit,
        linter_step
          (mkBenchmarkRun (original_file verifier_runs) (tool verifier_runs)
             (Some r))
          (run_name r) wit linter = Ok wit)
  /\ adjust_run verifier_runs validators (l1 ++ linter :: l2) invalid_tasks r
     = adjust_run verifier_runs validators (l1 ++ l2) invalid_tasks r.
Proof.
  intros Hnone. split; [reflexivity|]. split.
  { intros wit. unfold linter_step. rewrite Hnone. reflexivity. }
  unfold adjust_run.
  destruct (try_except (column_value "status" (Some r)) _ _) as [sfv|e];
    [|reflexivity].
  cbn [bind]. destruct (pystr_in (run_name r) invalid_tasks); [reflexivity|].
  destruct (re_search_any ["SV-COMP"] _) as [b|e]; [|reflexivity].
  cbn [bind].
  destruct (if b then _ else _) as [b'|e]; [|reflexivity].
  cbn [bind]. destruct (_ && _); [reflexivity|].
  destruct (try_except (column_value "category" (Some r)) _ _) as [cfv|e];
    [|reflexivity].
  cbn [bind].
  assert (Heq :
    get_validation_results_for_run
      (mkBenchmarkRun (original_file verifier_runs) (tool verifier_runs)
         (Some r)) validators (l1 ++ linter :: l2) sfv cfv
    = get_validation_results_for_run
        (mkBenchmarkRun (original_file verifier_runs) (tool verifier_runs)
           (Some r)) validators (l1 ++ l2) sfv cfv).
  { unfold get_validation_results_for_run. cbn [run bind].
    rewrite !separate_linters_app.
    cbn [separate_linters]. rewrite Hnone.
    destruct (separate_linters (run_name r) l1) as [g1 y1].
    destruct (separate_linters (run_name r) l2) as [g2 y2]. cbn [fst snd].
    rewrite (get_validation_result_skips _ r) by (reflexivity || exact Hnone).
    destruct (get_validation_result _ validators (g1 ++ g2) sfv cfv)
      as [[g r1]|e] eqn:Hg; [|reflexivity].
    cbn [bind].
    rewrite (get_validation_result_skips _ r1); [reflexivity|reflexivity|].
    assert (Hname : run_name r1 = run_name r).
    { eapply get_validation_result_name; [|exact Hg]. reflexivity. }
    rewrite Hname. exact Hnone. }
  rewrite Heq. reflexivity.
Qed.

End WithDecimal.

Import Examples.

Lemma adjust_status_category_keeps_not_correct_witness :
  adjust_status_category (D := Q)
    (verifier_file "SV-COMP25_unreach-call" verifier_wrong)
    [validator_confirm] [linter_reject] []
  = Ok [verifier_wrong]
  /\ nth_error [verifier_wrong] 0 = Some verifier_wrong.
Proof.
  split; [reflexivity|].
  apply (adjust_status_category_keeps_not_correct (D := Q)
           (verifier_file "SV-COMP25_unreach-call" verifier_wrong)
           [validator_confirm] [linter_reject] [] 0 verifier_wrong
           [verifier_wrong]);
    reflexivity.
Defined.

(** C1, as stated, fails: a run of property coverage-branches without a
    category column has category MISSING for the pass, and a validator
    run for the task turns it into CORRECT, with status "not found". *)
Lemma adjust_status_category_keeps_not_correct_counterexample :
  category_of_run testcomp_no_columns = Some result.CATEGORY_MISSING
  /\ exists r',
       adjust_status_category (D := Q)
         (verifier_file "Test-Comp25_coverage-branches" testcomp_no_columns)
         [validator_confirm] [] []
       = Ok [r']
       /\ status_of_run r' = Some "not found"
       /\ category_of_run r' = Some result.CATEGORY_CORRECT.
Proof. split; [reflexivity|]. eexists. repeat split. Qed.

Lemma adjust_status_category_skips_expected_true_witness :
  adjust_run (D := Q)
    (verifier_file "SV-COMP25_MemSafety-Arrays" verifier_correct)
    [validator_reject] [linter_reject] [] verifier_correct
  = Ok verifier_correct.
Proof.
  refine (proj1 (adjust_status_category_skips_expected_true (D := Q)
                   (verifier_file "SV-COMP25_MemSafety-Arrays" verifier_correct)
                   [validator_reject] [linter_reject] []
                   "SV-COMP25_MemSafety-Arrays" 0 verifier_correct
                   _ _ _ _ _ _));
    reflexivity.
Defined.



Lemma missing_linter_run_is_skipped_witness :
  as_dictionary_get linter_no_run (run_name verifier_correct) = None
  /\ adjust_run (D := Q)
       (verifier_file "SV-COMP25_unreach-call" verifier_correct)
       [validator_confirm] ([linter_done] ++ linter_no_run :: []) []
       verifier_correct
     = adjust_run (D := Q)
         (verifier_file "SV-COMP25_unreach-call" verifier_correct)
         [validator_confirm] ([linter_done] ++ []) [] verifier_correct.
Proof.
  split; [reflexivity|].
  refine (proj2 (proj2
            (missing_linter_run_is_skipped (D := Q)
               (verifier_file "SV-COMP25_unreach-call" verifier_correct)
               [validator_confirm] [linter_done] [] linter_no_run []
               verifier_correct _)));
    reflexivity.
Defined.

(** C6, as stated, fails: the only linter has no run for the task; it
    is skipped rather than counted as an error, the validator confirms,
    and the run stays CORRECT. *)
Lemma missing_linter_run_is_skipped_counterexample :
  as_dictionary_get linter_no_run (run_name verifier_correct) = None
  /\ linter_results (as_benchmark_run verifier_correct)
       (run_name verifier_correct) [linter_no_run] = Ok []
  /\ get_validation_result (D := Q) (as_benchmark_run verifier_correct)
       [validator_confirm] [linter_no_run] (Some "true") (Some "correct")
     = Ok (mkVerdict (Some "true") (Some result.CATEGORY_CORRECT)
             (Some "true") (Some "correct"), verifier_correct)
  /\ adjust_status_category (D := Q)
       (verifier_file "SV-COMP25_unreach-call" verifier_correct)
       [validator_confirm] [linter_no_run] []
     = Ok [verifier_correct].
Proof. repeat split. Qed.

End ReconcileSpec.

(** ** Scores of a category *)

Module ScoresSpec.
Import Utils Scores.

Section WithDecimal.
Context {D : Type} `{Decimal D}.

(** In the termination category of the device drivers the loop never
    adds to [score_false]. *)
Lemma scores_loop_termination (competition : Competition)
    (rs : list RunResult) (acc d : ScoresData) :
  scores_loop TERMINATION_DEVICE_DRIVERS competition rs acc = Ok d ->
  sd_score_false d = sd_score_false acc.
Proof.
  revert acc. induction rs as [|r rs IH]; intros acc Hloop; simpl in Hloop.
  - inversion Hloop; reflexivity.
  - bind_inv Hloop. destruct a as [s|]; [|exact (IH _ Hloop)].
    rewrite (IH _ Hloop). unfold count_run. cbn [sd_score_false].
    rewrite String.eqb_refl, andb_false_r. reflexivity.
Qed.

(** C2 (as amended): for SV-COMP, a returned score equals
    [correct_false*1 + correct_true*2 + incorrect_false*(-16)
     + incorrect_true*(-32)], unconfirmed results contributing 0; and
    [score_false] equals [correct_false*1 + incorrect_false*(-16)] in
    every category but the termination category of the device drivers,
    where no assertion is made and [score_false] is 0.  ([==] is the
    comparison of the assertions.) *)
Theorem get_scores_data_identity (run_set_results : list RunResult)
    (category_name : string) (d : ScoresData) :
  _get_scores_data run_set_results category_name SV_COMP = Ok d ->
  num_eqb (sd_score d)
    (NInt (sd_correct_false d * 1 + sd_correct_true d * 2
           + sd_incorrect_false d * -16 + sd_incorrect_true d * -32)) = true
  /\ (String.eqb category_name TERMINATION_DEVICE_DRIVERS = false ->
      num_eqb (sd_score_false d)
        (NInt (sd_correct_false d * 1 + sd_incorrect_false d * -16)) = true)
  /\ (String.eqb category_name TERMINATION_DEVICE_DRIVERS = true ->
      sd_score_false d = NInt 0).
Proof.
  unfold _get_scores_data. intros Hd.
  bind_inv_as Hd d0 Hloop. bind_inv_as Hd u1 Hscore.
  bind_inv_as Hd u2 Hfalse. inversion Hd; subst d0. clear Hd.
  apply assert_Ok in Hscore. cbn [Competition_eqb negb orb] in Hscore.
  split; [|split].
  - rewrite <- Hscore. do 2 f_equal. lia.
  - intros Hcat. rewrite Hcat in Hfalse. cbn [negb] in Hfalse.
    apply assert_Ok in Hfalse. cbn [Competition_eqb negb orb] in Hfalse.
    rewrite <- Hfalse. do 2 f_equal. lia.
  - intros Hcat. apply String.eqb_eq in Hcat. subst category_name.
    apply (scores_loop_termination _ _ _ _ Hloop).
Qed.

End WithDecimal.

Import Examples.

Lemma get_scores_data_identity_witness :
  _get_scores_data run_set "unreach-call.ReachSafety-Loops" SV_COMP
  = Ok (mkScoresData (NDec (-13 # 1)) (NDec (-15 # 1)) 1 1 1 0 0 1)
  /\ num_eqb (D := Q) (NDec (-13 # 1)) (NInt (1 * 1 + 1 * 2 + 1 * -16 + 0 * -32))
     = true.
Proof.
  split; [reflexivity|].
  refine (proj1 (get_scores_data_identity run_set
                   "unreach-call.ReachSafety-Loops"
                   (mkScoresData (NDec (-13 # 1)) (NDec (-15 # 1)) 1 1 1 0 0 1)
                   _)).
  reflexivity.
Defined.

(** C2, as stated, fails: in the termination category of the device
    drivers a confirmed alarm counts for [correct_false] and for
    [score], and [score_false] stays 0, where the stated identity gives
    1. *)
Lemma get_scores_data_identity_counterexample :
  _get_scores_data termination_run_set TERMINATION_DEVICE_DRIVERS SV_COMP
  = Ok (mkScoresData (NInt 1) (NInt 0) 0 1 0 0 0 0)
  /\ num_eqb (D := Q) (NInt 0) (NInt (1 * 1 + 0 * -16)) = false.
Proof. split; reflexivity. Qed.

Section MetaCategory.
Context {D : Type} `{Decimal D} {QPoint : Type}.

Lemma dict_get_set (k k' : string) (x : Num D) (d : list (string * Num D)) :
  dict_get String.eqb k (dict_set String.eqb k' x d)
  = if String.eqb k k' then Some x else dict_get String.eqb k d.
Proof.
  induction d as [|[k0 x0] d IH]; cbn [dict_get dict_set]; [reflexivity|].
  destruct (String.eqb_spec k' k0) as [->|Hk'];
    cbn [dict_get]; [destruct (String.eqb k k0); reflexivity|].
  rewrite IH. destruct (String.eqb_spec k k0) as [->|Hk]; [|reflexivity].
  destruct (String.eqb_spec k0 k'); [congruence|reflexivity].
Qed.

(** The children of a meta category all have tasks. *)
Lemma subcategories_have_tasks (category_info : CategoryInfo)
    (demo sub_names : list string)
    (processed : list (string * VerificationCategory D QPoint))
    (children : list (string * VerificationCategory D QPoint)) :
  subcategories_of category_info demo sub_names processed = Ok children ->
  Forall (fun nc => Z.eqb (tasks_true (snd nc) + tasks_false (snd nc)) 0 = false)
         children.
Proof.
  unfold subcategories_of.
  apply (for_each_invariant
           (Forall (fun nc => Z.eqb (tasks_true (snd nc) + tasks_false (snd nc)) 0
                              = false))); [|constructor].
  intros d sub d' Hd Hstep.
  destruct (negb (str_in sub demo)); [|inversion Hstep; subst; exact Hd].
  destruct (dict_get String.eqb sub processed) as [c|]; [|discriminate].
  destruct (Z.eqb (tasks_true c + tasks_false c) 0) eqn:Hc;
    inversion Hstep; subst; [exact Hd|].
  clear Hstep. induction Hd as [|[k0 c0] d Hc0 Hd IH]; cbn [dict_set].
  - constructor; [exact Hc|constructor].
  - destruct (String.eqb sub k0); constructor; auto.
Qed.

(** C3 (as amended): the possible score of a meta category is the sum,
    over its children (each of which has tasks), of
    [child.possible_score / child.task_count], divided by the number of
    children and multiplied by [meta_true + meta_false]; likewise the
    score of each participant of the meta category is the sum of its
    averages over the children, divided by the number of children and
    multiplied by [meta_true + meta_false]. *)
Theorem handle_meta_category_scores (meta_category : string)
    (category_info : CategoryInfo)
    (processed : list (string * VerificationCategory D QPoint))
    (m : MetaCategory) :
  handle_meta_category meta_category category_info processed = Ok m ->
  exists meta children,
    dict_get String.eqb meta_category (get_categories category_info) = Some meta
    /\ subcategories_of category_info (get_demo_categories category_info)
         (sub_categories meta) processed = Ok children
    /\ Forall (fun nc => Z.eqb (tasks_true (snd nc) + tasks_false (snd nc)) 0
                         = false) children
    /\ Z.of_nat (List.length children) <> 0
    /\ mc_possible_score m
       = NDec (dec_mul
                 (dec_div
                    (to_Decimal (py_sum (avg_possible_scores (map snd children))))
                    (Decimal_of_Z (Z.of_nat (List.length children))))
                 (Decimal_of_Z (mc_tasks_true m + mc_tasks_false m)))
    /\ forall verifier s,
         dict_get String.eqb verifier (mc_scores m) = Some s ->
         s = NDec (dec_mul
                     (dec_div
                        (to_Decimal
                           (py_sum (avg_scores verifier (map snd children))))
                        (Decimal_of_Z (Z.of_nat (List.length children))))
                     (Decimal_of_Z (mc_tasks_true m + mc_tasks_false m))).
Proof.
  unfold handle_meta_category. intros Hm.
  bind_inv_as Hm meta Hmeta.
  destruct (dict_get String.eqb meta_category (get_categories category_info))
    as [meta0|] eqn:Hget; inversion Hmeta; subst meta0. clear Hmeta.
  bind_inv_as Hm children Hchildren.
  bind_inv_as Hm u Hassert. bind_inv_as Hm possible Hpossible.
  bind_inv_as Hm u' Hguard. bind_inv_as Hm scores Hscores.
  inversion Hm; subst m. clear Hm. cbn [mc_possible_score mc_scores
    mc_tasks_true mc_tasks_false].
  match type of Hpossible with
  | normalize_score ?n ?tt ?tf _ = _ =>
      pose (P := fun res : list (string * Num D) =>
                   forall verifier s,
                     dict_get String.eqb verifier res = Some s ->
                     normalize_score n tt tf
                       (py_sum (avg_scores verifier (map snd children))) = Ok s)
  end.
  assert (Hinv : P scores).
  { refine (for_each_invariant P _ _ _ [] scores _ Hscores);
      [|intros v s Hs; discriminate].
    intros res v res' Hres Hstep verifier s Hs. unfold P in Hres.
    destruct (_ <? _)%nat; [inversion Hstep; subst; exact (Hres _ _ Hs)|].
    bind_inv_as Hstep sc Hsc. inversion Hstep; subst res'. clear Hstep.
    rewrite dict_get_set in Hs.
    destruct (String.eqb_spec verifier v) as [->|Hv]; [|exact (Hres _ _ Hs)].
    inversion Hs; subst s. exact Hsc. }
  clear Hscores. unfold P, normalize_score in Hpossible, Hinv.
  destruct (Z.eqb_spec (Z.of_nat (List.length children)) 0) as [|Hn];
    [discriminate|].
  exists meta, children.
  split; [reflexivity|]. split; [exact Hchildren|].
  split; [exact (subcategories_have_tasks _ _ _ _ _ Hchildren)|].
  split; [exact Hn|]. split; [inversion Hpossible; reflexivity|].
  intros verifier s Hs. specialize (Hinv verifier s Hs).
  inversion Hinv. reflexivity.
Qed.

End MetaCategory.

Lemma handle_meta_category_scores_witness :
  handle_meta_category "Overall" category_structure processed_categories
  = Ok (mkMetaCategory "Overall" 2 2 0 (NDec (4 # 1)) [("v", NDec (4 # 1))])
  /\ exists meta children,
       dict_get String.eqb "Overall" (get_categories category_structure)
       = Some meta
       /\ subcategories_of category_structure
            (get_demo_categories category_structure) (sub_categories meta)
            processed_categories = Ok children
       /\ Forall (fun nc => Z.eqb (tasks_true (snd nc) + tasks_false (snd nc)) 0
                            = false) children
       /\ Z.of_nat (List.length children) <> 0
       /\ NDec (4 # 1)
          = NDec (dec_mul
                    (dec_div
                       (to_Decimal
                          (py_sum (avg_possible_scores (map snd children))))
                       (Decimal_of_Z (Z.of_nat (List.length children))))
                    (Decimal_of_Z (2 + 0)))
       /\ forall verifier s,
            dict_get String.eqb verifier [("v", NDec (4 # 1))] = Some s ->
            s = NDec (dec_mul
                        (dec_div
                           (to_Decimal
                              (py_sum (avg_scores verifier (map snd children))))
                           (Decimal_of_Z (Z.of_nat (List.length children))))
                        (Decimal_of_Z (2 + 0))).
Proof.
  split; [reflexivity|].
  apply (handle_meta_category_scores "Overall" category_structure
           processed_categories
           (mkMetaCategory "Overall" 2 2 0 (NDec (4 # 1)) [("v", NDec (4 # 1))])).
  reflexivity.
Defined.

(** C3, as stated, fails: with two children of one task each and
    possible score 2, the sum of the averages is 4 and
    [meta_true + meta_false] is 2, so the stated product is 8; the
    possible score of the meta category, and the score of the
    participant that reaches it, is 4: the sum is also divided by the
    number of children. *)
Lemma handle_meta_category_scores_counterexample :
  handle_meta_category "Overall" category_structure processed_categories
  = Ok (mkMetaCategory "Overall" 2 2 0 (NDec (4 # 1)) [("v", NDec (4 # 1))])
  /\ py_sum (avg_possible_scores (map snd processed_categories)) = NDec (4 # 1)
  /\ py_sum (avg_scores "v" (map snd processed_categories)) = NDec (4 # 1)
  /\ dec_mul (D := Q) (4 # 1) (Decimal_of_Z (2 + 0)) = 8 # 1
  /\ num_eqb (D := Q) (NDec (4 # 1)) (NDec (8 # 1)) = false.
Proof. repeat split. Qed.

End ScoresSpec.

(** ** Addition of aggregated results *)

Module UtilsSpec.
Import Utils.

Lemma string_app_assoc (s t u : string) : ((s ++ t) ++ u = s ++ (t ++ u))%string.
Proof. induction s as [|c s IH]; simpl; [reflexivity|now rewrite IH]. Qed.

Section WithDecimal.
Context {D : Type} `{DecimalExact D} {QPoint : Type}.

Lemma num_add_comm (a b : Num D) : num_add a b = num_add b a.
Proof.
  destruct a as [x|d], b as [y|e]; cbn [num_add to_Decimal];
    try reflexivity; f_equal; [apply Z.add_comm | apply dec_add_comm].
Qed.

Lemma num_add_assoc (a b c : Num D) :
  num_add (num_add a b) c = num_add a (num_add b c).
Proof.
  destruct a as [x|d], b as [y|e], c as [z|f]; cbn [num_add to_Decimal];
    f_equal.
  - symmetry; apply Z.add_assoc.
  - rewrite dec_of_Z_add, dec_add_assoc, (dec_add_comm (Decimal_of_Z y)).
    reflexivity.
  - rewrite !dec_add_assoc, (dec_add_comm (Decimal_of_Z x)). reflexivity.
  - rewrite !dec_add_assoc, (dec_add_comm (Decimal_of_Z x)). reflexivity.
  - rewrite dec_of_Z_add, dec_add_assoc. reflexivity.
  - rewrite dec_add_assoc, (dec_add_comm (Decimal_of_Z y)). reflexivity.
  - apply dec_add_assoc.
  - apply dec_add_assoc.
Qed.

Lemma CategoryData_add_assoc (a b c : CategoryData D) :
  (ab <- CategoryData_add a b ;; CategoryData_add ab c)
  = (bc <- CategoryData_add b c ;; CategoryData_add a bc).
Proof.
  unfold CategoryData_add.
  destruct (sequence a) as [sa|], (sequence b) as [sb|], (sequence c) as [sc|];
    cbn [list_add bind CategoryData_init sequence total success success_false
         unconfirmed unconfirmed_false]; try reflexivity.
  rewrite !num_add_assoc, app_assoc. reflexivity.
Qed.

Lemma CategoryData_add_comm (a b ab : CategoryData D) :
  CategoryData_add a b = Ok ab ->
  exists ba sa sb,
    CategoryData_add b a = Ok ba
    /\ CategoryData_totals ba = CategoryData_totals ab
    /\ sequence a = Some sa /\ sequence b = Some sb
    /\ sequence ab = Some (sa ++ sb)%list
    /\ sequence ba = Some (sb ++ sa)%list.
Proof.
  unfold CategoryData_add.
  destruct (sequence a) as [sa|] eqn:Ha, (sequence b) as [sb|] eqn:Hb;
    cbn [list_add bind]; try discriminate.
  intros Hab. inversion Hab; subst ab. clear Hab.
  eexists. exists sa, sb. split; [reflexivity|].
  split; [|repeat split].
  unfold CategoryData_totals, CategoryData_init.
  cbn [total success success_false success_true unconfirmed unconfirmed_false
       unconfirmed_true].
  rewrite (num_add_comm (total b)), (num_add_comm (success b)),
    (num_add_comm (success_false b)), (num_add_comm (unconfirmed b)),
    (num_add_comm (unconfirmed_false b)).
  reflexivity.
Qed.

Lemma CategoryResult_add_assoc (a b c : CategoryResult D QPoint) :
  (ab <- CategoryResult_add a b ;; CategoryResult_add ab c)
  = (bc <- CategoryResult_add b c ;; CategoryResult_add a bc).
Proof.
  unfold CategoryResult_add, CategoryData_add.
  destruct (sequence (cputime a)) as [ta|], (sequence (cputime b)) as [tb|],
           (sequence (cputime c)) as [tc|],
           (sequence (cpuenergy a)) as [ea|], (sequence (cpuenergy b)) as [eb|],
           (sequence (cpuenergy c)) as [ec|],
           (results_file a) as [fa|], (results_file b) as [fb|],
           (results_file c) as [fc|];
    cbn [bind list_add pystr_add CategoryData_init sequence total success
         success_false unconfirmed unconfirmed_false cputime cpuenergy
         results_file score score_false correct_false correct_true
         correct_unconfirmed_false correct_unconfirmed_true incorrect_false
         incorrect_true qplot_cputime qplot_cpuenergy];
    try reflexivity.
  rewrite !num_add_assoc, !app_assoc, string_app_assoc, !Z.add_assoc.
  reflexivity.
Qed.

Lemma CategoryResult_add_comm (a b ab : CategoryResult D QPoint) :
  CategoryResult_add a b = Ok ab ->
  exists ba fa fb,
    CategoryResult_add b a = Ok ba
    /\ CategoryResult_totals ba = CategoryResult_totals ab
    /\ qplot_cputime ab = (qplot_cputime a ++ qplot_cputime b)%list
    /\ qplot_cputime ba = (qplot_cputime b ++ qplot_cputime a)%list
    /\ qplot_cpuenergy ab = (qplot_cpuenergy a ++ qplot_cpuenergy b)%list
    /\ qplot_cpuenergy ba = (qplot_cpuenergy b ++ qplot_cpuenergy a)%list
    /\ results_file a = Some fa /\ results_file b = Some fb
    /\ results_file ab = Some (fa ++ fb)
    /\ results_file ba = Some (fb ++ fa).
Proof.
  unfold CategoryResult_add. intros Hab.
  bind_inv_as Hab tab Htab. bind_inv_as Hab eab Heab.
  bind_inv_as Hab fab Hfab. inversion Hab; subst ab. clear Hab.
  destruct (CategoryData_add_comm _ _ _ Htab)
    as (tba & ? & ? & Htba & Htt & _).
  destruct (CategoryData_add_comm _ _ _ Heab)
    as (eba & ? & ? & Heba & Het & _).
  destruct (results_file a) as [fa|], (results_file b) as [fb|];
    try discriminate.
  inversion Hfab; subst fab. clear Hfab.
  rewrite Htba, Heba. cbn [bind pystr_add].
  eexists. exists fa, fb. split; [reflexivity|].
  split; [|repeat split].
  unfold CategoryResult_totals.
  cbn [score score_false cputime cpuenergy correct_false correct_true
       correct_unconfirmed_false correct_unconfirmed_true incorrect_false
       incorrect_true].
  rewrite Htt, Het, (num_add_comm (score b)), (num_add_comm (score_false b)),
    (Z.add_comm (correct_false b)), (Z.add_comm (correct_true b)),
    (Z.add_comm (correct_unconfirmed_false b)),
    (Z.add_comm (correct_unconfirmed_true b)),
    (Z.add_comm (incorrect_false b)), (Z.add_comm (incorrect_true b)).
  reflexivity.
Qed.

(** C8 (as amended): where [Decimal] addition is exact,
    [CategoryData.__add__] and [CategoryResult.__add__] are associative
    on every attribute (also in raising a [TypeError] for a [sequence] or
    [results_file] that is [None]), and commutative on the totals; the
    [sequence], [qplot] and [results_file] attributes are concatenated in
    the order of the operands, so that [a + b] and [b + a] carry them in
    opposite orders. *)
Theorem add_associative_and_commutative_on_totals :
  (forall a b c : CategoryData D,
     (ab <- CategoryData_add a b ;; CategoryData_add ab c)
     = (bc <- CategoryData_add b c ;; CategoryData_add a bc))
  /\ (forall a b c : CategoryResult D QPoint,
        (ab <- CategoryResult_add a b ;; CategoryResult_add ab c)
        = (bc <- CategoryResult_add b c ;; CategoryResult_add a bc))
  /\ (forall a b ab : CategoryData D,
        CategoryData_add a b = Ok ab ->
        exists ba sa sb,
          CategoryData_add b a = Ok ba
          /\ CategoryData_totals ba = CategoryData_totals ab
          /\ sequence a = Some sa /\ sequence b = Some sb
          /\ sequence ab = Some (sa ++ sb)%list
          /\ sequence ba = Some (sb ++ sa)%list)
  /\ (forall a b ab : CategoryResult D QPoint,
        CategoryResult_add a b = Ok ab ->
        exists ba fa fb,
          CategoryResult_add b a = Ok ba
          /\ CategoryResult_totals ba = CategoryResult_totals ab
          /\ qplot_cputime ab = (qplot_cputime a ++ qplot_cputime b)%list
          /\ qplot_cputime ba = (qplot_cputime b ++ qplot_cputime a)%list
          /\ qplot_cpuenergy ab = (qplot_cpuenergy a ++ qplot_cpuenergy b)%list
          /\ qplot_cpuenergy ba = (qplot_cpuenergy b ++ qplot_cpuenergy a)%list
          /\ results_file a = Some fa /\ results_file b = Some fb
          /\ results_file ab = Some (fa ++ fb)
          /\ results_file ba = Some (fb ++ fa)).
Proof.
  split; [exact CategoryData_add_assoc|].
  split; [exact CategoryResult_add_assoc|].
  split; [exact CategoryData_add_comm | exact CategoryResult_add_comm].
Qed.

End WithDecimal.

Import Examples.

Lemma add_associative_and_commutative_on_totals_witness :
  (ab <- CategoryData_add data_a data_b ;; CategoryData_add ab data_c)
  = (bc <- CategoryData_add data_b data_c ;; CategoryData_add data_a bc).
Proof.
  exact (proj1 (@add_associative_and_commutative_on_totals Q _ _ unit)
           data_a data_b data_c).
Defined.

(** C8, as stated, fails: the sums of two measurements, and of two
    results, in the two orders differ in [sequence] and in
    [results_file]. *)
Lemma add_associative_and_commutative_on_totals_counterexample :
  exists ab ba rab rba,
    CategoryData_add data_a data_b = Ok ab
    /\ CategoryData_add data_b data_a = Ok ba
    /\ sequence ab = Some [Some 10%Q; Some 20%Q]
    /\ sequence ba = Some [Some 20%Q; Some 10%Q]
    /\ CategoryResult_add category_result_a category_result_b = Ok rab
    /\ CategoryResult_add category_result_b category_result_a = Ok rba
    /\ results_file rab = Some "a.xmlb.xml"
    /\ results_file rba = Some "b.xmla.xml".
Proof. do 4 eexists. repeat split. Qed.

End UtilsSpec.

(** ** Ranking *)

Module RankingSpec.
Import Utils Scores.

Section WithDecimal.
Context {D : Type} `{DecimalOrder D} {QPoint : Type}.

(** With the laws every comparison is one of [Decimal]s. *)
Lemma num_ltb_dec (a b : Num D) :
  num_ltb a b = dec_ltb (to_Decimal a) (to_Decimal b).
Proof.
  destruct a, b; cbn [num_ltb to_Decimal]; try reflexivity.
  symmetry. apply dec_of_Z_ltb.
Qed.

Lemma num_eqb_ltb (a b : Num D) :
  num_eqb a b = negb (num_ltb a b) && negb (num_ltb b a).
Proof.
  rewrite !num_ltb_dec.
  destruct a as [x|d], b as [y|e]; cbn [num_eqb to_Decimal].
  - rewrite !dec_of_Z_ltb.
    destruct (Z.eqb_spec x y), (Z.ltb_spec x y), (Z.ltb_spec y x);
      try reflexivity; lia.
  - rewrite dec_eqb_ltb. apply andb_comm.
  - apply dec_eqb_ltb.
  - apply dec_eqb_ltb.
Qed.

Lemma key_ltb_asym (k1 k2 : Num D * Num D) :
  key_ltb k1 k2 = true -> key_ltb k2 k1 = false.
Proof.
  unfold key_ltb. rewrite !num_eqb_ltb, !num_ltb_dec.
  pose proof (dec_ltb_asym (to_Decimal (fst k1)) (to_Decimal (fst k2))).
  pose proof (dec_ltb_asym (to_Decimal (snd k1)) (to_Decimal (snd k2))).
  destruct (dec_ltb (to_Decimal (fst k1)) (to_Decimal (fst k2))),
    (dec_ltb (to_Decimal (fst k2)) (to_Decimal (fst k1)));
    cbn [negb andb]; intros; auto; discriminate.
Qed.

(** Not being ranked below is transitive on keys. *)
Lemma key_ltb_negtrans (k1 k2 k3 : Num D * Num D) :
  key_ltb k1 k2 = false -> key_ltb k2 k3 = false -> key_ltb k1 k3 = false.
Proof.
  destruct k1 as [a1 b1], k2 as [a2 b2], k3 as [a3 b3].
  unfold key_ltb. cbn [fst snd]. rewrite !num_eqb_ltb, !num_ltb_dec.
  set (A1 := to_Decimal a1). set (A2 := to_Decimal a2).
  set (A3 := to_Decimal a3). set (B1 := to_Decimal b1).
  set (B2 := to_Decimal b2). set (B3 := to_Decimal b3).
  pose proof (dec_ltb_asym A1 A2). pose proof (dec_ltb_asym A2 A1).
  pose proof (dec_ltb_asym A2 A3). pose proof (dec_ltb_asym A3 A2).
  pose proof (dec_ltb_asym A1 A3). pose proof (dec_ltb_asym A3 A1).
  pose proof (dec_ltb_negtrans A1 A2 A3).
  pose proof (dec_ltb_negtrans A3 A2 A1).
  pose proof (dec_ltb_negtrans A1 A3 A2).
  pose proof (dec_ltb_negtrans A2 A3 A1).
  pose proof (dec_ltb_negtrans A2 A1 A3).
  pose proof (dec_ltb_negtrans A3 A1 A2).
  pose proof (dec_ltb_negtrans B1 B2 B3).
  destruct (dec_ltb A1 A2), (dec_ltb A2 A1), (dec_ltb A2 A3), (dec_ltb A3 A2),
    (dec_ltb A1 A3), (dec_ltb A3 A1); cbn [negb andb]; intros; auto;
    try discriminate; try (exfalso; intuition congruence).
Qed.

Section Sorting.
Context {A : Type} (key : A -> Num D * Num D).

Lemma insert_desc_perm (x : A) (l : list A) :
  Permutation (insert_desc key x l) (x :: l).
Proof.
  induction l as [|y l IH]; cbn [insert_desc]; [reflexivity|].
  destruct (key_ltb (key x) (key y)); [|reflexivity].
  rewrite IH. apply perm_swap.
Qed.

Lemma sorted_desc_perm (xs : list A) : Permutation (sorted_desc key xs) xs.
Proof.
  induction xs as [|x xs IH]; cbn [sorted_desc fold_right]; [reflexivity|].
  fold (sorted_desc key xs). rewrite insert_desc_perm, IH. reflexivity.
Qed.

Lemma insert_desc_sorted (x : A) (l : list A) :
  Sorted (not_below key) l -> Sorted (not_below key) (insert_desc key x l).
Proof.
  induction l as [|y l IH]; intros Hs; cbn [insert_desc].
  - repeat constructor.
  - destruct (key_ltb (key x) (key y)) eqn:Hxy.
    + inversion Hs as [|? ? Hs' Hhd]; subst.
      constructor; [exact (IH Hs')|].
      destruct l as [|z l]; cbn [insert_desc].
      * constructor. apply key_ltb_asym, Hxy.
      * destruct (key_ltb (key x) (key z)).
        -- inversion Hhd; subst. constructor. assumption.
        -- constructor. apply key_ltb_asym, Hxy.
    + constructor; [exact Hs|]. constructor. exact Hxy.
Qed.

(** The sorted list is in descending order: no element is ranked below
    a later one. *)
Lemma sorted_desc_sorted (xs : list A) :
  StronglySorted (not_below key) (sorted_desc key xs).
Proof.
  apply Sorted_StronglySorted.
  - intros x y z. apply key_ltb_negtrans.
  - induction xs as [|x xs IH]; cbn [sorted_desc fold_right]; [constructor|].
    apply insert_desc_sorted, IH.
Qed.

Lemma key_ltb_irrefl (k : Num D * Num D) : key_ltb k k = false.
Proof.
  destruct (key_ltb k k) eqn:Hk; [|reflexivity].
  rewrite (key_ltb_asym k k Hk) in Hk. discriminate.
Qed.

Lemma tied_refl (x : A) : tied key x x = true.
Proof. unfold tied. rewrite key_ltb_irrefl. reflexivity. Qed.

(** Two elements that tie with a third one are not ranked one below the
    other. *)
Lemma tied_not_below (x a y : A) :
  tied key x a = true -> tied key x y = true -> not_below key a y.
Proof.
  unfold tied, not_below. intros Ha Hy.
  apply andb_true_iff in Ha. destruct Ha as [_ Hax].
  apply andb_true_iff in Hy. destruct Hy as [Hxy _].
  apply negb_true_iff in Hax, Hxy.
  exact (key_ltb_negtrans _ _ _ Hax Hxy).
Qed.

(** Inserting an element moves it past elements it does not tie with
    only. *)
Lemma insert_desc_keeps_ties (x a : A) (l : list A) :
  filter (tied key x) (insert_desc key a l) = filter (tied key x) (a :: l).
Proof.
  induction l as [|y l IH]; cbn [insert_desc]; [reflexivity|].
  destruct (key_ltb (key a) (key y)) eqn:Hay; [|reflexivity].
  cbn [filter] in *. rewrite IH.
  destruct (tied key x a) eqn:Hxa; [|reflexivity].
  destruct (tied key x y) eqn:Hxy; [|reflexivity].
  pose proof (tied_not_below x a y Hxa Hxy) as Hnb.
  unfold not_below in Hnb. congruence.
Qed.

(** The sort is stable. *)
Lemma sorted_desc_keeps_ties (xs : list A) :
  keeps_ties key (sorted_desc key xs) xs.
Proof.
  intros x. induction xs as [|a xs IH]; cbn [sorted_desc fold_right];
    [reflexivity|].
  fold (sorted_desc key xs). rewrite insert_desc_keeps_ties.
  cbn [filter]. rewrite IH. reflexivity.
Qed.

Lemma filter_head_in (f : A -> bool) (a : A) (l l' : list A) :
  filter f l = a :: l' -> In a l /\ f a = true.
Proof.
  intros Hf. apply filter_In. rewrite Hf. left. reflexivity.
Qed.

(** A descending list is determined by the order of its ties: there is
    one stable descending arrangement of a list. *)
Lemma sorted_keeps_ties_unique (l1 l2 : list A) :
  StronglySorted (not_below key) l1 ->
  StronglySorted (not_below key) l2 ->
  (forall x, filter (tied key x) l1 = filter (tied key x) l2) ->
  l1 = l2.
Proof.
  revert l2. induction l1 as [|a l1 IH]; intros l2 Hs1 Hs2 Hties.
  - destruct l2 as [|b l2]; [reflexivity|].
    specialize (Hties b). cbn [filter] in Hties.
    rewrite tied_refl in Hties. discriminate.
  - destruct l2 as [|b l2].
    { specialize (Hties a). cbn [filter] in Hties.
      rewrite tied_refl in Hties. discriminate. }
    inversion Hs1 as [|? ? Hs1' Hall1]; subst.
    inversion Hs2 as [|? ? Hs2' Hall2]; subst.
    rewrite Forall_forall in Hall1, Hall2.
    assert (Hab : a = b).
    { pose proof (Hties a) as Ha. cbn [filter] in Ha.
      rewrite tied_refl in Ha.
      destruct (tied key a b) eqn:Htab; [congruence|].
      (* [a] comes later in [l2], [b] later in [l1] *)
      symmetry in Ha. apply filter_head_in in Ha. destruct Ha as [Ha _].
      pose proof (Hties b) as Hb. cbn [filter] in Hb.
      rewrite tied_refl in Hb.
      assert (Htba : tied key b a = false).
      { unfold tied in *. rewrite andb_comm. exact Htab. }
      rewrite Htba in Hb. apply filter_head_in in Hb. destruct Hb as [Hb _].
      pose proof (Hall2 a Ha) as Hba. pose proof (Hall1 b Hb) as Hab.
      unfold not_below in Hba, Hab. unfold tied in Htab.
      rewrite Hab, Hba in Htab. discriminate. }
    subst b. f_equal. apply IH; [exact Hs1' | exact Hs2' |].
    intros x. specialize (Hties x). cbn [filter] in Hties.
    destruct (tied key x a); [congruence | exact Hties].
Qed.

End Sorting.

Lemma pad_to_3_length {B} (l : list (option B)) :
  (List.length l <= 3)%nat -> List.length (pad_to_3 l) = 3%nat.
Proof.
  intros Hl. unfold pad_to_3. rewrite length_app, repeat_length. lia.
Qed.

(** The verification track: [get_best] returns exactly 3 entries, the
    names of the first three competitors in descending order of
    [(score, 1 / success cputime, or 0 for no such time)] -- of the
    false tasks when ranking falsification --, competitors that tie
    staying in the order of the category's results, padded with [None].
    The competitors are all participants that are not hors concours and
    have not opted out; a score that is not positive excludes nobody. *)
Lemma get_best_verification
    (participation_labels : string -> Exc (list string))
    (category : VerificationCategory D QPoint) (category_info : CategoryInfo)
    (is_falsification : bool) (l : list (option string)) :
  Scores.get_best participation_labels category category_info is_falsification
  = Ok l ->
  exists competitors ranked,
    Scores.competitors_of participation_labels category category_info
    = Ok competitors
    /\ Permutation ranked competitors
    /\ StronglySorted (not_below (competitor_key is_falsification)) ranked
    /\ keeps_ties (competitor_key is_falsification) ranked competitors
    /\ (forall ranked',
           StronglySorted (not_below (competitor_key is_falsification)) ranked' ->
           keeps_ties (competitor_key is_falsification) ranked' competitors ->
           ranked' = ranked)
    /\ l = pad_to_3 (map (fun x => Some (fst x)) (firstn 3 ranked))
    /\ List.length l = 3%nat.
Proof.
  unfold Scores.get_best. intros Hl.
  bind_inv_as Hl competitors Hc. injection Hl as <-.
  exists competitors, (sorted_desc (competitor_key is_falsification) competitors).
  split; [exact Hc|]. split; [apply sorted_desc_perm|].
  split; [apply sorted_desc_sorted|].
  split; [apply sorted_desc_keeps_ties|].
  split.
  { intros ranked' Hs Ht.
    apply (sorted_keeps_ties_unique (competitor_key is_falsification));
      [exact Hs | apply sorted_desc_sorted |].
    intros x. rewrite (Ht x). symmetry. apply sorted_desc_keeps_ties. }
  split; [reflexivity|].
  apply pad_to_3_length. rewrite length_map.
  exact (firstn_le_length 3
           (sorted_desc (competitor_key is_falsification) competitors)).
Qed.

(** The validation track: only the competitors with a positive score
    are ranked, in the same order; when fewer than 3 of
    them are there, one [None] is appended for each competitor whose
    score is not positive -- never its name --, and the result is cut to
    3 entries.  It has fewer than 3 entries when there are fewer than 3
    competitors. *)
Lemma get_best_validation (competes_in : string -> Exc bool)
    (participation_labels : string -> Exc (list string))
    (category : ValidationCategory D QPoint) (is_falsification : bool)
    (l : list (option string)) :
  ScoresValidators.get_best competes_in participation_labels category
    is_falsification = Ok l ->
  exists competitors ranked,
    ScoresValidators.competitors_of competes_in participation_labels category
    = Ok competitors
    /\ Permutation ranked (filter ScoresValidators.positive competitors)
    /\ StronglySorted (not_below (competitor_key is_falsification)) ranked
    /\ keeps_ties (competitor_key is_falsification) ranked
         (filter ScoresValidators.positive competitors)
    /\ (forall ranked',
           StronglySorted (not_below (competitor_key is_falsification)) ranked' ->
           keeps_ties (competitor_key is_falsification) ranked'
             (filter ScoresValidators.positive competitors) ->
           ranked' = ranked)
    /\ l = firstn 3
             (map (fun x => Some (fst x)) (firstn 3 ranked)
              ++ repeat None
                   (List.length
                      (filter ScoresValidators.non_positive competitors)))%list
    /\ List.length l
       = Nat.min 3
           (List.length (filter ScoresValidators.positive competitors)
            + List.length (filter ScoresValidators.non_positive competitors)).
Proof.
  unfold ScoresValidators.get_best. intros Hl.
  bind_inv_as Hl competitors Hc.
  set (pos := filter ScoresValidators.positive competitors) in *.
  set (q := List.length (filter ScoresValidators.non_positive competitors)) in *.
  set (ranked := sorted_desc (competitor_key is_falsification) pos) in *.
  set (names := map (fun x : string * CategoryResult D QPoint => Some (fst x))
                    (firstn 3 ranked)) in *.
  assert (Hperm : Permutation ranked pos) by apply sorted_desc_perm.
  assert (Hnames : List.length names = Nat.min 3 (List.length pos)).
  { unfold names. rewrite length_map, length_firstn.
    rewrite (Permutation_length Hperm). reflexivity. }
  assert (Hcut : l = firstn 3 (names ++ repeat None q)%list).
  { injection Hl as <-.
    destruct (Nat.ltb_spec (List.length names) 3) as [Hlt|Hge];
      [reflexivity|].
    rewrite firstn_app.
    replace (3 - List.length names)%nat with 0%nat by lia.
    cbn [firstn]. rewrite app_nil_r. reflexivity. }
  exists competitors, ranked.
  split; [exact Hc|]. split; [exact Hperm|].
  split; [apply sorted_desc_sorted|].
  split; [apply sorted_desc_keeps_ties|].
  split.
  { intros ranked' Hs Ht.
    apply (sorted_keeps_ties_unique (competitor_key is_falsification));
      [exact Hs | apply sorted_desc_sorted |].
    intros x. rewrite (Ht x). symmetry. apply sorted_desc_keeps_ties. }
  split; [exact Hcut|].
  rewrite Hcut, length_firstn, length_app, repeat_length, Hnames.
  unfold q, pos. lia.
Qed.

(** C9 (as amended): in the verification track [get_best] returns
    exactly 3 entries: the names of the first three competitors in
    descending order of [(score, 1 / successful cputime, or 0 when that
    time is zero)], padded with [None]; its competitors are the
    participants that are not hors concours and have not opted out, a
    score that is not positive excluding nobody.  The order is that of a
    stable sort: competitors that tie stay in the order of the
    category's results, and the ranking is the only descending
    arrangement of the competitors that keeps the ties so.  In the
    validation track only the competitors with a positive score are
    ranked, in the same order; when fewer than 3 of them are there, one
    [None] -- never a name -- is appended for each competitor whose
    score is not positive, and the result is cut to 3 entries, so that
    it has [min 3 n] entries for [n] competitors. *)
Theorem get_best_ranking :
  (forall (participation_labels : string -> Exc (list string))
          (category : VerificationCategory D QPoint)
          (category_info : CategoryInfo) (is_falsification : bool)
          (l : list (option string)),
      Scores.get_best participation_labels category category_info
        is_falsification = Ok l ->
      exists competitors ranked,
        Scores.competitors_of participation_labels category category_info
        = Ok competitors
        /\ Permutation ranked competitors
        /\ StronglySorted (not_below (competitor_key is_falsification)) ranked
        /\ keeps_ties (competitor_key is_falsification) ranked competitors
        /\ (forall ranked',
               StronglySorted (not_below (competitor_key is_falsification))
                 ranked' ->
               keeps_ties (competitor_key is_falsification) ranked'
                 competitors ->
               ranked' = ranked)
        /\ l = pad_to_3 (map (fun x => Some (fst x)) (firstn 3 ranked))
        /\ List.length l = 3%nat)
  /\ (forall (competes_in : string -> Exc bool)
             (participation_labels : string -> Exc (list string))
             (category : ValidationCategory D QPoint) (is_falsification : bool)
             (l : list (option string)),
         ScoresValidators.get_best competes_in participation_labels category
           is_falsification = Ok l ->
         exists competitors ranked,
           ScoresValidators.competitors_of competes_in participation_labels
             category = Ok competitors
           /\ Permutation ranked (filter ScoresValidators.positive competitors)
           /\ StronglySorted (not_below (competitor_key is_falsification)) ranked
           /\ keeps_ties (competitor_key is_falsification) ranked
                (filter ScoresValidators.positive competitors)
           /\ (forall ranked',
                  StronglySorted (not_below (competitor_key is_falsification))
                    ranked' ->
                  keeps_ties (competitor_key is_falsification) ranked'
                    (filter ScoresValidators.positive competitors) ->
                  ranked' = ranked)
           /\ l = firstn 3
                    (map (fun x => Some (fst x)) (firstn 3 ranked)
                     ++ repeat None
                          (List.length
                             (filter ScoresValidators.non_positive
                                competitors)))%list
           /\ List.length l
              = Nat.min 3
                  (List.length
                     (filter ScoresValidators.positive competitors)
                   + List.length
                       (filter ScoresValidators.non_positive competitors))).
Proof. split; [exact get_best_verification | exact get_best_validation]. Qed.

End WithDecimal.

Import Examples.

Lemma get_best_ranking_witness :
  Scores.get_best no_labels category_tied category_structure false
  = Ok [Some "a"; Some "b"; Some "c"]
  /\ exists competitors ranked,
       Scores.competitors_of no_labels category_tied category_structure
       = Ok competitors
       /\ Permutation ranked competitors
       /\ StronglySorted (not_below (competitor_key false)) ranked
       /\ keeps_ties (competitor_key false) ranked competitors
       /\ (forall ranked',
              StronglySorted (not_below (competitor_key false)) ranked' ->
              keeps_ties (competitor_key false) ranked' competitors ->
              ranked' = ranked)
       /\ [Some "a"; Some "b"; Some "c"]
          = pad_to_3 (map (fun x => Some (fst x)) (firstn 3 ranked))
       /\ List.length [Some "a"; Some "b"; Some "c"] = 3%nat.
Proof.
  split; [reflexivity|].
  apply (proj1 (@get_best_ranking Q _ _ unit) no_labels category_tied
           category_structure false [Some "a"; Some "b"; Some "c"]).
  reflexivity.
Defined.

(** C9, as stated, fails: in the validation track [get_best] returns no
    entry for a category without competitors, and the single entry
    [None] for a category whose only competitor has score 0 -- the
    competitor itself is not used to fill the ranking; in the
    verification track a single competitor with a negative score is
    ranked first. *)
Lemma get_best_ranking_counterexample :
  ScoresValidators.get_best all_compete no_labels validation_empty false
  = Ok []
  /\ ScoresValidators.get_best all_compete no_labels validation_one_zero false
     = Ok [None]
  /\ Scores.get_best no_labels category_one_negative category_structure false
     = Ok [Some "a"; None; None].
Proof. repeat split. Qed.

End RankingSpec.

(** ** Verdict reconciliation: the pass as a whole *)

Module ReconcileFacts.
Import Reconcile.

Lemma pystr_eqb_eq (a b : pystr) : pystr_eqb a b = true <-> a = b.
Proof.
  destruct a as [x|], b as [y|]; simpl; try (split; congruence).
  rewrite String.eqb_eq. split; congruence.
Qed.

Lemma pystr_eqb_refl (a : pystr) : pystr_eqb a a = true.
Proof. apply pystr_eqb_eq. reflexivity. Qed.

Lemma pystr_eqb_sym (a b : pystr) : pystr_eqb a b = pystr_eqb b a.
Proof.
  destruct (pystr_eqb a b) eqn:Hab, (pystr_eqb b a) eqn:Hba; try reflexivity.
  - apply pystr_eqb_eq in Hab. subst. rewrite pystr_eqb_refl in Hba. discriminate.
  - apply pystr_eqb_eq in Hba. subst. rewrite pystr_eqb_refl in Hab. discriminate.
Qed.

(** *** Dictionaries keyed by run names *)

Section Dictionary.
Context {V : Type}.
Implicit Types (d : list (pystr * V)) (k : pystr) (v : V).

Lemma dict_get_dict_set k k' v d :
  dict_get pystr_eqb k (dict_set pystr_eqb k' v d)
  = if pystr_eqb k k' then Some v else dict_get pystr_eqb k d.
Proof.
  induction d as [|[k0 v0] d IH]; simpl; [reflexivity|].
  destruct (pystr_eqb k' k0) eqn:Hk'; simpl.
  - apply pystr_eqb_eq in Hk'. subst k0.
    destruct (pystr_eqb k k'); reflexivity.
  - rewrite IH. destruct (pystr_eqb k k0) eqn:Hk; [|reflexivity].
    apply pystr_eqb_eq in Hk. subst k0.
    rewrite pystr_eqb_sym, Hk'. reflexivity.
Qed.

Lemma dict_get_value k v d :
  dict_get pystr_eqb k d = Some v -> In v (map snd d).
Proof.
  induction d as [|[k0 v0] d IH]; simpl; [discriminate|].
  destruct (pystr_eqb k k0); [intros Hv; inversion Hv; auto | auto].
Qed.

(** The values after an assignment: the new value, and the old values
    but the one the key had. *)
Lemma dict_set_values k v d x :
  NoDup (map snd d) ->
  In x (map snd (dict_set pystr_eqb k v d)) ->
  x = v \/ (In x (map snd d) /\ dict_get pystr_eqb k d <> Some x).
Proof.
  induction d as [|[k0 v0] d IH]; simpl; intros Hnd Hin.
  - destruct Hin as [<-|[]]. auto.
  - inversion Hnd as [|? ? Hv0 Hnd']; subst.
    destruct (pystr_eqb k k0) eqn:Hk; simpl in Hin.
    + destruct Hin as [<-|Hin]; [auto|]. right. split; [auto|].
      intros Heq. inversion Heq; subst. contradiction.
    + destruct Hin as [<-|Hin].
      * right. split; [auto|]. intros Heq. apply dict_get_value in Heq.
        contradiction.
      * destruct (IH Hnd' Hin) as [->|[Hx Hne]]; auto.
Qed.

Lemma dict_set_values_NoDup k v d :
  NoDup (map snd d) -> ~ In v (map snd d) ->
  NoDup (map snd (dict_set pystr_eqb k v d)).
Proof.
  induction d as [|[k0 v0] d IH]; simpl; intros Hnd Hv.
  - constructor; [intros []|constructor].
  - inversion Hnd as [|? ? Hv0 Hnd']; subst.
    destruct (pystr_eqb k k0) eqn:Hk; simpl.
    + constructor; auto.
    + constructor; [|auto].
      intros Hin. destruct (dict_set_values _ _ _ _ Hnd' Hin) as [->|[Hx _]];
        [auto | contradiction].
Qed.

End Dictionary.

Lemma combine_snoc {A B} (xs : list A) (ys : list B) (x : A) (y : B) :
  List.length xs = List.length ys ->
  combine (xs ++ [x]) (ys ++ [y]) = (combine xs ys ++ [(x, y)])%list.
Proof.
  revert ys; induction xs as [|a xs IH]; intros [|b ys]; simpl;
    try discriminate; [reflexivity|].
  intros Hl. rewrite IH by congruence. reflexivity.
Qed.

(** Reading the result file one run further assigns the run's position
    to its name. *)
Lemma as_dictionary_snoc (rs : list Run) (r : Run) :
  as_dictionary (rs ++ [r])
  = dict_set pystr_eqb (run_name r) (List.length rs) (as_dictionary rs).
Proof.
  unfold as_dictionary.
  rewrite length_app, Nat.add_comm. cbn [List.length Nat.add].
  rewrite seq_S, combine_snoc by (rewrite length_seq; reflexivity).
  rewrite fold_left_app. reflexivity.
Qed.

(** The dictionary maps a name to the position of the last run of that
    name. *)
Lemma as_dictionary_lookup (rs : list Run) (name : pystr) :
  match dict_get pystr_eqb name (as_dictionary rs) with
  | Some i =>
      (i < List.length rs)%nat
      /\ nth_error rs i
         = find (fun r => pystr_eqb (run_name r) name) (rev rs)
      /\ nth_error rs i <> None
  | None => find (fun r => pystr_eqb (run_name r) name) (rev rs) = None
  end.
Proof.
  induction rs as [|r rs IH] using rev_ind; [reflexivity|].
  rewrite as_dictionary_snoc, dict_get_dict_set, rev_app_distr.
  cbn [rev app find]. rewrite (pystr_eqb_sym (run_name r) name).
  destruct (pystr_eqb name (run_name r)).
  - rewrite length_app. cbn [List.length].
    rewrite nth_error_app2, Nat.sub_diag by lia. cbn.
    repeat split; [lia | discriminate].
  - destruct (dict_get pystr_eqb name (as_dictionary rs)) as [i|];
      [|exact IH].
    destruct IH as (Hi & Hnth & Hsome).
    rewrite length_app, nth_error_app1 by exact Hi.
    repeat split; [lia | exact Hnth | exact Hsome].
Qed.

(** The positions held by the dictionary are distinct positions of the
    list, and each is the one its run's name is mapped to. *)
Lemma as_dictionary_values (rs : list Run) :
  NoDup (map snd (as_dictionary rs))
  /\ forall i, In i (map snd (as_dictionary rs)) ->
       (i < List.length rs)%nat
       /\ forall r, nth_error rs i = Some r ->
            dict_get pystr_eqb (run_name r) (as_dictionary rs) = Some i.
Proof.
  induction rs as [|x rs [Hnd IH]] using rev_ind.
  - split; [constructor | intros i []].
  - rewrite as_dictionary_snoc.
    assert (Hfresh : ~ In (List.length rs) (map snd (as_dictionary rs))).
    { intros Hin. apply IH in Hin. lia. }
    split; [apply dict_set_values_NoDup; assumption|].
    intros i Hin. rewrite length_app. cbn [List.length].
    destruct (dict_set_values _ _ _ _ Hnd Hin) as [->|[Hold Hne]].
    + split; [lia|]. intros r Hr.
      rewrite nth_error_app2, Nat.sub_diag in Hr by lia.
      inversion Hr; subst. rewrite dict_get_dict_set, pystr_eqb_refl.
      reflexivity.
    + destruct (IH i Hold) as [Hi Hget]. split; [lia|].
      intros r Hr. rewrite nth_error_app1 in Hr by exact Hi.
      rewrite dict_get_dict_set.
      destruct (pystr_eqb (run_name r) (run_name x)) eqn:Heq;
        [|exact (Hget r Hr)].
      apply pystr_eqb_eq in Heq. rewrite <- Heq in Hne.
      elim Hne. exact (Hget r Hr).
Qed.

(** X1: [as_dictionary] keeps, of several runs with the same name, the
    last one: a lookup returns the last run of that name in the result
    file, and [None] exactly when no run has that name. *)
Theorem as_dictionary_get_last (b : BenchmarkRuns) (name : pystr) :
  as_dictionary_get b name
  = find (fun r => pystr_eqb (run_name r) name) (rev (runs b)).
Proof.
  unfold as_dictionary_get.
  pose proof (as_dictionary_lookup (runs b) name) as Hl.
  destruct (dict_get pystr_eqb name (as_dictionary (runs b))) as [i|].
  - destruct Hl as (_ & Hnth & _). exact Hnth.
  - symmetry. exact Hl.
Qed.

(** *** The loop over the runs *)

(** A loop that rewrites distinct positions of a list rewrites each of
    them once, from the element the list had there at the start, and
    leaves the other positions alone. *)
Lemma update_loop_pointwise {A} (f : A -> Exc A) (js : list nat) :
  NoDup js ->
  forall rs rs',
    for_each
      (fun rs j =>
         match nth_error rs j with
         | Some r0 => r' <- f r0 ;; Ok (update j r' rs)
         | None => Ok rs
         end) js rs = Ok rs' ->
    forall i r,
      nth_error rs i = Some r ->
      exists r',
        nth_error rs' i = Some r'
        /\ (In i js -> f r = Ok r')
        /\ (~ In i js -> r' = r).
Proof.
  induction js as [|j js IH]; intros Hnd rs rs' Hloop i r Hi.
  - inversion Hloop; subst. exists r. repeat split; [exact Hi | intros []].
  - inversion Hnd as [|? ? Hj Hnd']; subst. cbn [for_each] in Hloop.
    bind_inv_as Hloop rs1 Hstep.
    destruct (nth_error rs j) as [r0|] eqn:Hr0.
    + bind_inv_as Hstep r0' Hf. inversion Hstep; subst rs1.
      destruct (Nat.eq_dec i j) as [->|Hne].
      * rewrite Hi in Hr0. inversion Hr0; subst r0.
        destruct (IH Hnd' _ _ Hloop j r0'
                    (ReconcileSpec.nth_error_update_same _ _ _ _ Hi)) as (r' & Hr' & _ & Hout).
        exists r'. rewrite (Hout Hj) in *.
        repeat split; [exact Hr' | intros _; exact Hf |].
        intros Hnot. elim Hnot. left. reflexivity.
      * assert (Hi1 : nth_error (update j r0' rs) i = Some r)
          by (rewrite ReconcileSpec.nth_error_update_other by exact Hne; exact Hi).
        destruct (IH Hnd' _ _ Hloop i r Hi1) as (r' & Hr' & Hin & Hout).
        exists r'. repeat split; [exact Hr' | |].
        -- intros [Heq|Hin']; [congruence | auto].
        -- intros Hnot. apply Hout. intros Hin'. apply Hnot. right. exact Hin'.
    + inversion Hstep; subst rs1.
      destruct (IH Hnd' _ _ Hloop i r Hi) as (r' & Hr' & Hin & Hout).
      exists r'. repeat split; [exact Hr' | |].
      * intros [Heq|Hin']; [congruence | auto].
      * intros Hnot. apply Hout. intros Hin'. apply Hnot. right. exact Hin'.
Qed.

Lemma update_length {A} (i : nat) (x : A) (xs : list A) :
  List.length (update i x xs) = List.length xs.
Proof.
  revert i; induction xs as [|y xs IH]; intros [|i]; simpl; auto.
Qed.

(** *** Columns *)

Lemma find_set_first_value (t v : string) (cs : list Column) :
  find (fun c => pystr_eqb (col_title c) (Some t))
    (match set_first_value t v cs with
     | Some cs' => cs'
     | None => (cs ++ [mkColumn (Some t) (Some v)])%list
     end)
  = Some (mkColumn (Some t) (Some v)).
Proof.
  induction cs as [|c cs IH]; cbn [set_first_value app find].
  - cbn. rewrite String.eqb_refl. reflexivity.
  - destruct (pystr_eqb (col_title c) (Some t)) eqn:Hc.
    + cbn [find col_title]. rewrite Hc.
      apply pystr_eqb_eq in Hc. rewrite Hc. reflexivity.
    + destruct (set_first_value t v cs) as [cs'|]; cbn [option_map find app];
        rewrite Hc; exact IH.
Qed.

Lemma find_set_first_value_other (t t' v : string) (cs : list Column) :
  t' <> t ->
  find (fun c => pystr_eqb (col_title c) (Some t'))
    (match set_first_value t v cs with
     | Some cs' => cs'
     | None => (cs ++ [mkColumn (Some t) (Some v)])%list
     end)
  = find (fun c => pystr_eqb (col_title c) (Some t')) cs.
Proof.
  intros Hne.
  assert (Hnew : pystr_eqb (Some t) (Some t') = false).
  { cbn. apply String.eqb_neq. congruence. }
  induction cs as [|c cs IH]; cbn [set_first_value app find].
  - cbn [col_title]. rewrite Hnew. reflexivity.
  - destruct (pystr_eqb (col_title c) (Some t)) eqn:Hc.
    + cbn [find col_title]. apply pystr_eqb_eq in Hc. rewrite Hc, Hnew.
      reflexivity.
    + destruct (set_first_value t v cs) as [cs'|]; cbn [option_map find app];
        rewrite IH; reflexivity.
Qed.

Lemma filter_set_first_value (p : pystr -> bool) (t v : string)
    (cs : list Column) :
  p (Some t) = false ->
  filter (fun c => p (col_title c))
    (match set_first_value t v cs with
     | Some cs' => cs'
     | None => (cs ++ [mkColumn (Some t) (Some v)])%list
     end)
  = filter (fun c => p (col_title c)) cs.
Proof.
  intros Hp.
  induction cs as [|c cs IH]; cbn [set_first_value app filter].
  - cbn [col_title]. rewrite Hp. reflexivity.
  - destruct (pystr_eqb (col_title c) (Some t)) eqn:Hc.
    + cbn [filter col_title]. apply pystr_eqb_eq in Hc. rewrite Hc, Hp.
      reflexivity.
    + destruct (set_first_value t v cs) as [cs'|]; cbn [option_map filter app];
        rewrite IH; reflexivity.
Qed.

(** Reading a column back after [set_column]. *)
Lemma find_column_set_column (t v : string) (r : Run) :
  find_column t (set_column t v r) = Some (mkColumn (Some t) (Some v)).
Proof. apply find_set_first_value. Qed.

Lemma find_column_set_column_other (t t' v : string) (r : Run) :
  t' <> t -> find_column t' (set_column t v r) = find_column t' r.
Proof. apply find_set_first_value_other. Qed.

Lemma other_columns_set_column (titles : list string) (t v : string) (r : Run) :
  str_in t titles = true ->
  other_columns titles (set_column t v r) = other_columns titles r.
Proof.
  intros Ht. unfold other_columns, set_column. cbn [run_columns].
  apply (filter_set_first_value (fun k => negb (pystr_in k titles))).
  cbn [pystr_in]. rewrite Ht. reflexivity.
Qed.

Lemma same_but_refl (titles : list string) (r : Run) : same_but titles r r.
Proof. repeat split. Qed.

Lemma same_but_trans (titles : list string) (r1 r2 r3 : Run) :
  same_but titles r1 r2 -> same_but titles r2 r3 -> same_but titles r1 r3.
Proof.
  intros (Hn & Hp & He & Hc) (Hn' & Hp' & He' & Hc').
  repeat split; congruence.
Qed.

Lemma same_but_set_column (titles : list string) (t v : string) (r : Run) :
  str_in t titles = true -> same_but titles r (set_column t v r).
Proof.
  intros Ht. repeat split. apply other_columns_set_column, Ht.
Qed.

Lemma status_of_run_set (r : Run) (s c : string) :
  status_of_run (set_status_and_category_for_run r s c) = Some s.
Proof.
  unfold status_of_run, set_status_and_category_for_run.
  rewrite find_column_set_column_other by discriminate.
  rewrite find_column_set_column. reflexivity.
Qed.

Lemma category_of_run_set (r : Run) (s c : string) :
  category_of_run (set_status_and_category_for_run r s c) = Some c.
Proof.
  unfold category_of_run, set_status_and_category_for_run.
  rewrite find_column_set_column. reflexivity.
Qed.

Lemma set_column_length (t v : string) (r : Run) :
  List.length (run_columns (set_column t v r))
  = match find_column t r with
    | Some _ => List.length (run_columns r)
    | None => S (List.length (run_columns r))
    end.
Proof.
  unfold set_column, find_column. cbn [run_columns].
  induction (run_columns r) as [|c cs IH]; cbn [set_first_value find app].
  - reflexivity.
  - destruct (pystr_eqb (col_title c) (Some t)); [reflexivity|].
    destruct (set_first_value t v cs) as [cs'|];
      destruct (find _ cs); cbn [option_map List.length app] in *; lia.
Qed.

(** X2: setting status and category on a run and reading them back.
    After [set_status_and_category_for_run] the run's status and
    category read as the new values; its attributes and every other
    column are as before, in their order; and a column is appended only
    for a title the run did not have. *)
Theorem set_status_and_category_read_back (r : Run) (s c : string) :
  let r' := set_status_and_category_for_run r s c in
  column_value "status" (Some r') = Ok (Some s)
  /\ column_value "category" (Some r') = Ok (Some c)
  /\ same_but ["status"; "category"] r r'
  /\ List.length (run_columns r')
     = (List.length (run_columns r)
        + match find_column "status" r with Some _ => 0 | None => 1 end
        + match find_column "category" r with Some _ => 0 | None => 1 end)%nat.
Proof.
  intros r'. subst r'. unfold set_status_and_category_for_run.
  repeat split.
  - unfold column_value.
    rewrite find_column_set_column_other by discriminate.
    rewrite find_column_set_column. reflexivity.
  - unfold column_value. rewrite find_column_set_column. reflexivity.
  - apply eq_trans with (other_columns ["status"; "category"]
                           (set_column "status" s r)).
    + apply other_columns_set_column. reflexivity.
    + apply other_columns_set_column. reflexivity.
  - rewrite !set_column_length.
    rewrite find_column_set_column_other by discriminate.
    destruct (find_column "status" r), (find_column "category" r); lia.
Qed.

Section WithDecimal.
Context {D : Type} `{Decimal D}.

(** The runs after the pass, position by position. *)
Lemma adjust_status_category_runs
    (verifier_runs : BenchmarkRuns) (validators linters : list BenchmarkRuns)
    (invalid_tasks : list string) (rs' : list Run) :
  adjust_status_category verifier_runs validators linters invalid_tasks
  = Ok rs' ->
  forall i r,
    nth_error (runs verifier_runs) i = Some r ->
    exists r',
      nth_error rs' i = Some r'
      /\ (dict_get pystr_eqb (run_name r)
            (as_dictionary (runs verifier_runs)) = Some i ->
          adjust_run verifier_runs validators linters invalid_tasks r
          = Ok r')
      /\ (dict_get pystr_eqb (run_name r)
            (as_dictionary (runs verifier_runs)) <> Some i ->
          r' = r).
Proof.
  intros Hadj i r Hi. unfold adjust_status_category in Hadj.
  destruct (as_dictionary_values (runs verifier_runs)) as [Hnd Hval].
  destruct (update_loop_pointwise _ _ Hnd _ _ Hadj i r Hi)
    as (r' & Hr' & Hin & Hout).
  exists r'. repeat split; [exact Hr' | |].
  - intros Hget. apply Hin. eapply dict_get_value, Hget.
  - intros Hne. apply Hout. intros Hin'. apply Hne.
    exact (proj2 (Hval i Hin') r Hi).
Qed.

(** Whatever holds of a run and itself, and of a run and its adjusted
    run, holds of every run before and after the pass. *)
Lemma adjust_status_category_lift (P : Run -> Run -> Prop)
    (verifier_runs : BenchmarkRuns) (validators linters : list BenchmarkRuns)
    (invalid_tasks : list string) (rs' : list Run) :
  (forall r, P r r) ->
  (forall r r',
      adjust_run verifier_runs validators linters invalid_tasks r = Ok r' ->
      P r r') ->
  adjust_status_category verifier_runs validators linters invalid_tasks
  = Ok rs' ->
  forall i r r',
    nth_error (runs verifier_runs) i = Some r ->
    nth_error rs' i = Some r' ->
    P r r'.
Proof.
  intros Hrefl Hadj Hpass i r r' Hi Hi'.
  destruct (adjust_status_category_runs _ _ _ _ _ Hpass i r Hi)
    as (r0 & Hr0 & Hin & Hout).
  rewrite Hi' in Hr0. inversion Hr0; subst r0.
  assert (Hdec : {dict_get pystr_eqb (run_name r)
                    (as_dictionary (runs verifier_runs)) = Some i}
                 + {dict_get pystr_eqb (run_name r)
                      (as_dictionary (runs verifier_runs)) <> Some i})
    by repeat decide equality.
  destruct Hdec as [Heq|Hne].
  - apply Hadj, Hin, Heq.
  - rewrite (Hout Hne). apply Hrefl.
Qed.

(** X3: the pass adjusts the runs one by one and independently.  It
    returns as many runs as the result file has; the run at a position
    is the adjusted run ([adjust_run]) when the run is the last one of
    its name, and is left as it is when a later run has the same name. *)
Theorem adjust_status_category_pointwise
    (verifier_runs : BenchmarkRuns) (validators linters : list BenchmarkRuns)
    (invalid_tasks : list string) (rs' : list Run) :
  adjust_status_category verifier_runs validators linters invalid_tasks
  = Ok rs' ->
  List.length rs' = List.length (runs verifier_runs)
  /\ forall i r,
       nth_error (runs verifier_runs) i = Some r ->
       exists r',
         nth_error rs' i = Some r'
         /\ (dict_get pystr_eqb (run_name r)
               (as_dictionary (runs verifier_runs)) = Some i ->
             adjust_run verifier_runs validators linters invalid_tasks r
             = Ok r')
         /\ (dict_get pystr_eqb (run_name r)
               (as_dictionary (runs verifier_runs)) <> Some i ->
             r' = r).
Proof.
  intros Hadj. split.
  - unfold adjust_status_category in Hadj. revert Hadj.
    apply (for_each_invariant
             (fun rs0 => List.length rs0 = List.length (runs verifier_runs)));
      [|reflexivity].
    intros s j s' Hs Hstep.
    destruct (nth_error s j); [|inversion Hstep; subst; exact Hs].
    bind_inv Hstep. inversion Hstep; subst. rewrite update_length. exact Hs.
  - exact (adjust_status_category_runs _ _ _ _ _ Hadj).
Qed.

(** *** What a run keeps *)

(** [get_validation_result] returns the verifier's run as it is, or,
    for the properties of Test-Comp, with its score column set. *)
Lemma get_validation_result_run (verifier : BenchmarkRun) (r : Run)
    (validators linters : list BenchmarkRuns) (sfv cfv : pystr)
    (v : Verdict) (r' : Run) :
  run verifier = Some r ->
  get_validation_result verifier validators linters sfv cfv = Ok (v, r') ->
  r' = r
  \/ (pystr_in (run_properties r) coverage_properties = true
      /\ exists s, r' = set_column "score" s r).
Proof.
  intros Hr Hres. unfold get_validation_result in Hres.
  rewrite Hr in Hres. cbn [bind] in Hres.
  bind_inv Hres. destruct a as [s c].
  destruct (pystr_eqb c (Some result.CATEGORY_ERROR)).
  - inversion Hres; subst. auto.
  - bind_inv Hres.
    destruct (pystr_in (run_properties r) coverage_properties);
      inversion Hres; subst; eauto.
Qed.

(** The verifier's status is handed through; its category is handed
    through or, for the properties of Test-Comp, replaced by CORRECT. *)
Lemma validator_step_category (verifier_run : Run)
    (verifier : BenchmarkRun) (name sfv : pystr)
    (st st' : ValidatorLoop) (validator : BenchmarkRuns) :
  validator_step verifier_run verifier name sfv st validator = Ok st' ->
  vl_category_from_verification st' = vl_category_from_verification st
  \/ vl_category_from_verification st' = Some result.CATEGORY_CORRECT.
Proof.
  unfold validator_step. intros Hstep.
  destruct (as_dictionary_get validator name) as [vr|];
    [|inversion Hstep; auto].
  destruct (pystr_eqb (run_properties verifier_run) (Some "coverage-error-call")).
  { bind_inv Hstep. destruct (pystr_eqb a (Some "true"));
      inversion Hstep; subst; cbn; auto. }
  destruct (pystr_eqb (run_properties verifier_run) (Some "coverage-branches")).
  { destruct (match match find_column "branches_covered" vr with
                    | Some c => _ | None => _ end with
              | CoverageText s => _ | CoverageZero => _ end);
      inversion Hstep; subst; cbn; auto. }
  bind_inv Hstep. destruct a as [s c].
  destruct (_ || _); inversion Hstep; subst; cbn; auto.
Qed.

Lemma get_validation_result_category (verifier : BenchmarkRun)
    (validators linters : list BenchmarkRuns) (sfv cfv : pystr)
    (v : Verdict) (r' : Run) :
  get_validation_result verifier validators linters sfv cfv = Ok (v, r') ->
  v_category_from_verification v = cfv
  \/ v_category_from_verification v = Some result.CATEGORY_CORRECT.
Proof.
  intros Hres. unfold get_validation_result in Hres.
  bind_inv_as Hres r Hr. bind_inv Hres. destruct a as [s c].
  destruct (pystr_eqb c (Some result.CATEGORY_ERROR)).
  - inversion Hres; subst. auto.
  - bind_inv_as Hres st Hloop. inversion Hres; subst; cbn.
    revert Hloop.
    apply (for_each_invariant
             (fun st => vl_category_from_verification st = cfv
                        \/ vl_category_from_verification st
                           = Some result.CATEGORY_CORRECT)); [|auto].
    intros st0 x st1 Hst Hstep.
    destruct (validator_step_category _ _ _ _ _ _ _ Hstep) as [Heq|Heq];
      rewrite Heq; auto.
Qed.

(** The same for the reconciliation over both pools of linters; the
    category of the witness it returns is CORRECT, ERROR or
    CORRECT_UNCONFIRMED. *)
Lemma get_validation_results_for_run_cases (verification_run : BenchmarkRun)
    (r : Run) (validators linters : list BenchmarkRuns) (sfv cfv : pystr)
    (v : Verdict) (r' : Run) :
  run verification_run = Some r ->
  get_validation_results_for_run verification_run validators linters sfv cfv
  = Ok (v, r') ->
  (r' = r
   \/ (pystr_in (run_properties r) coverage_properties = true
       /\ exists s, r' = set_column "score" s r
                    \/ exists s', r' = set_column "score" s'
                                         (set_column "score" s r)))
  /\ (v_category_from_verification v = cfv
      \/ v_category_from_verification v = Some result.CATEGORY_CORRECT)
  /\ In (v_category_wit v)
       [Some result.CATEGORY_CORRECT; Some result.CATEGORY_ERROR;
        Some result.CATEGORY_CORRECT_UNCONFIRMED].
Proof.
  intros Hr Hres. unfold get_validation_results_for_run in Hres.
  rewrite Hr in Hres. cbn [bind] in Hres.
  destruct (separate_linters (run_name r) linters) as [graphml_linters yml_linters].
  bind_inv_as Hres gr Hg. destruct gr as [g r1].
  pose proof (get_validation_result_run _ _ _ _ _ _ _ _ Hr Hg) as Hr1.
  pose proof (get_validation_result_category _ _ _ _ _ _ _ Hg) as Hgc.
  destruct (pystr_eqb (v_category_wit g) (Some result.CATEGORY_CORRECT)) eqn:Hgw.
  { inversion Hres; subst. apply pystr_eqb_eq in Hgw.
    split; [|split; [exact Hgc | rewrite Hgw; cbn; auto]].
    destruct Hr1 as [->|(Hcov & s & ->)]; eauto. }
  bind_inv_as Hres yr Hy. destruct yr as [y r2].
  assert (Hr2 : r2 = r1
                \/ (pystr_in (run_properties r1) coverage_properties = true
                    /\ exists s, r2 = set_column "score" s r1)).
  { eapply get_validation_result_run; [|exact Hy]. reflexivity. }
  pose proof (get_validation_result_category _ _ _ _ _ _ _ Hy) as Hyc.
  assert (Hrun : r2 = r
                 \/ (pystr_in (run_properties r) coverage_properties = true
                     /\ exists s, r2 = set_column "score" s r
                                  \/ exists s', r2 = set_column "score" s'
                                                       (set_column "score" s r))).
  { destruct Hr1 as [->|(Hcov & s & ->)].
    - destruct Hr2 as [->|(Hcov & s & ->)]; eauto.
    - right. split; [exact Hcov|].
      destruct Hr2 as [->|(_ & s' & ->)]; eauto. }
  destruct (pystr_eqb (v_category_wit y) (Some result.CATEGORY_CORRECT)) eqn:Hyw.
  { inversion Hres; subst. apply pystr_eqb_eq in Hyw.
    split; [exact Hrun|]. split; [exact Hyc | rewrite Hyw; cbn; auto]. }
  destruct (pystr_eqb (v_category_wit g) (Some result.CATEGORY_ERROR)
            && pystr_eqb (v_category_wit y) (Some result.CATEGORY_ERROR))
    eqn:Hboth.
  - apply andb_true_iff in Hboth. destruct Hboth as [Hge Hye].
    apply pystr_eqb_eq in Hge, Hye.
    destruct (first_lint_error all_WitnessLintErrors y g) as [v0|] eqn:Hf.
    + inversion Hres; subst.
      destruct (ReconcileSpec.first_lint_error_cases _ _ _ _ Hf) as [->| ->].
      * split; [exact Hrun|]. split; [exact Hyc | rewrite Hye; cbn; auto].
      * split; [exact Hrun|]. split; [exact Hgc | rewrite Hge; cbn; auto].
    + inversion Hres; subst.
      split; [exact Hrun|]. split; [exact Hgc | cbn; auto].
  - inversion Hres; subst.
    split; [exact Hrun|]. split; [exact Hgc | cbn; auto].
Qed.

(** Setting the score column, once or twice, changes no other column. *)
Lemma score_set_same_but (titles : list string) (r r' : Run) :
  (pystr_in (run_properties r) coverage_properties = true ->
   str_in "score" titles = true) ->
  r' = r
  \/ (pystr_in (run_properties r) coverage_properties = true
      /\ exists s, r' = set_column "score" s r
                   \/ exists s', r' = set_column "score" s'
                                        (set_column "score" s r)) ->
  same_but titles r r'.
Proof.
  intros Ht [->|(Hcov & s & [->|(s' & ->)])]; [apply same_but_refl | |].
  - apply same_but_set_column, Ht, Hcov.
  - eapply same_but_trans; apply same_but_set_column, Ht, Hcov.
Qed.

Lemma score_set_find_column (t : string) (r r' : Run) :
  t <> "score" ->
  r' = r
  \/ (pystr_in (run_properties r) coverage_properties = true
      /\ exists s, r' = set_column "score" s r
                   \/ exists s', r' = set_column "score" s'
                                        (set_column "score" s r)) ->
  find_column t r' = find_column t r.
Proof.
  intros Ht [->|(_ & s & [->|(s' & ->)])]; [reflexivity | |];
    rewrite !find_column_set_column_other by exact Ht; reflexivity.
Qed.

(** The loop body changes nothing of a run but the columns status and
    category and, for the properties of Test-Comp, score. *)
Lemma adjust_run_same_but (titles : list string)
    (verifier_runs : BenchmarkRuns) (validators linters : list BenchmarkRuns)
    (invalid_tasks : list string) (r r' : Run) :
  str_in "status" titles = true ->
  str_in "category" titles = true ->
  (pystr_in (run_properties r) coverage_properties = true ->
   str_in "score" titles = true) ->
  adjust_run verifier_runs validators linters invalid_tasks r = Ok r' ->
  same_but titles r r'.
Proof.
  intros Hs Hc Hsc Hadj.
  assert (Hset : forall r0 s c,
             same_but titles r0 (set_status_and_category_for_run r0 s c)).
  { intros r0 s c. unfold set_status_and_category_for_run.
    eapply same_but_trans; apply same_but_set_column; assumption. }
  unfold adjust_run in Hadj.
  rewrite ReconcileSpec.column_value_status,
    ReconcileSpec.column_value_category in Hadj.
  cbn [bind] in Hadj.
  destruct (pystr_in (run_name r) invalid_tasks).
  { inversion Hadj; subst. apply Hset. }
  bind_inv Hadj. bind_inv Hadj.
  destruct (_ && _); [inversion Hadj; subst; apply same_but_refl|].
  cbn [bind] in Hadj.
  bind_inv_as Hadj vr Hv. destruct vr as [v r1].
  assert (Hsame : same_but titles r r1).
  { apply score_set_same_but; [exact Hsc|].
    eapply get_validation_results_for_run_cases; [|exact Hv]. reflexivity. }
  destruct (v_status_wit v), (v_category_wit v);
    try (inversion Hadj; subst; exact Hsame).
  destruct (pystr_eqb (v_category_from_verification v) _);
    inversion Hadj; subst; [|exact Hsame].
  eapply same_but_trans; [exact Hsame | apply Hset].
Qed.

(** X4: the pass changes nothing of a run but its columns status,
    category and score: the run's name, properties and expected verdict
    and all its other columns are as before, in their order.  The score
    column is touched only for the properties of Test-Comp. *)
Theorem adjust_status_category_frame
    (verifier_runs : BenchmarkRuns) (validators linters : list BenchmarkRuns)
    (invalid_tasks : list string) (rs' : list Run) :
  adjust_status_category verifier_runs validators linters invalid_tasks
  = Ok rs' ->
  forall i r r',
    nth_error (runs verifier_runs) i = Some r ->
    nth_error rs' i = Some r' ->
    same_but ["status"; "category"; "score"] r r'
    /\ (pystr_in (run_properties r) coverage_properties = false ->
        same_but ["status"; "category"] r r').
Proof.
  intros Hadj i r r' Hi Hi'.
  refine (adjust_status_category_lift
            (fun r r' =>
               same_but ["status"; "category"; "score"] r r'
               /\ (pystr_in (run_properties r) coverage_properties = false ->
                   same_but ["status"; "category"] r r'))
            _ _ _ _ _ _ _ Hadj i r r' Hi Hi').
  - intros r0. split; [|intros _]; apply same_but_refl.
  - intros r0 r0' Hrun. split.
    + eapply adjust_run_same_but; [| | |exact Hrun]; reflexivity.
    + intros Hcov.
      eapply adjust_run_same_but; [| | |exact Hrun]; try reflexivity.
      rewrite Hcov. discriminate.
Qed.

(** *** What becomes of a correct result *)

Lemma adjust_run_correct (verifier_runs : BenchmarkRuns)
    (validators linters : list BenchmarkRuns) (invalid_tasks : list string)
    (r r' : Run) :
  category_of_run r = Some result.CATEGORY_CORRECT ->
  pystr_in (run_name r) invalid_tasks = false ->
  adjust_run verifier_runs validators linters invalid_tasks r = Ok r' ->
  In (category_of_run r')
    [Some result.CATEGORY_CORRECT; Some result.CATEGORY_ERROR;
     Some result.CATEGORY_CORRECT_UNCONFIRMED].
Proof.
  intros Hc Hinv Hadj. unfold adjust_run in Hadj.
  rewrite ReconcileSpec.column_value_status,
    ReconcileSpec.column_value_category in Hadj.
  cbn [bind] in Hadj. rewrite Hinv in Hadj.
  bind_inv Hadj. bind_inv Hadj.
  destruct (_ && _); [inversion Hadj; subst; rewrite Hc; cbn; auto|].
  cbn [bind] in Hadj.
  bind_inv_as Hadj vr Hv. destruct vr as [v r1].
  assert (Hcases := fun Hr =>
            get_validation_results_for_run_cases _ r _ _ _ _ _ _ Hr Hv).
  destruct (Hcases eq_refl) as (Hr1 & _ & Hrange).
  assert (Hc1 : category_of_run r1 = Some result.CATEGORY_CORRECT).
  { unfold category_of_run.
    rewrite (score_set_find_column "category" r r1) by (discriminate || exact Hr1).
    exact Hc. }
  destruct (v_status_wit v) as [sw|], (v_category_wit v) as [cw|];
    try (inversion Hadj; subst; rewrite Hc1; cbn; auto).
  destruct (pystr_eqb (v_category_from_verification v) _);
    inversion Hadj; subst; [|rewrite Hc1; cbn; auto].
  rewrite category_of_run_set. exact Hrange.
Qed.

(** X5: the pass never makes a correct result wrong or unknown.  A run
    of a valid task whose category is CORRECT ends with category
    CORRECT, CORRECT_UNCONFIRMED or ERROR, whatever the validators and
    linters report. *)
Theorem adjust_status_category_correct_range
    (verifier_runs : BenchmarkRuns) (validators linters : list BenchmarkRuns)
    (invalid_tasks : list string) (rs' : list Run) :
  adjust_status_category verifier_runs validators linters invalid_tasks
  = Ok rs' ->
  forall i r r',
    nth_error (runs verifier_runs) i = Some r ->
    nth_error rs' i = Some r' ->
    category_of_run r = Some result.CATEGORY_CORRECT ->
    pystr_in (run_name r) invalid_tasks = false ->
    In (category_of_run r')
      [Some result.CATEGORY_CORRECT; Some result.CATEGORY_ERROR;
       Some result.CATEGORY_CORRECT_UNCONFIRMED].
Proof.
  intros Hadj i r r' Hi Hi'.
  refine (adjust_status_category_lift
            (fun r r' =>
               category_of_run r = Some result.CATEGORY_CORRECT ->
               pystr_in (run_name r) invalid_tasks = false ->
               In (category_of_run r')
                 [Some result.CATEGORY_CORRECT; Some result.CATEGORY_ERROR;
                  Some result.CATEGORY_CORRECT_UNCONFIRMED])
            _ _ _ _ _ _ _ Hadj i r r' Hi Hi').
  - intros r0 Hc _. rewrite Hc. cbn. auto.
  - intros r0 r0' Hrun Hc Hinv. exact (adjust_run_correct _ _ _ _ _ _ Hc Hinv Hrun).
Qed.

(** *** Invalid tasks *)

(** X6: a task banned from the competition is marked, whatever its
    result and whatever the validators and linters report: the run (the
    last of its name) gets the status "invalid task (<old status>)" and
    the category MISSING. *)
Theorem adjust_status_category_invalid_task
    (verifier_runs : BenchmarkRuns) (validators linters : list BenchmarkRuns)
    (invalid_tasks : list string) (rs' : list Run) (i : nat) (r : Run) :
  adjust_status_category verifier_runs validators linters invalid_tasks
  = Ok rs' ->
  nth_error (runs verifier_runs) i = Some r ->
  dict_get pystr_eqb (run_name r) (as_dictionary (runs verifier_runs))
  = Some i ->
  pystr_in (run_name r) invalid_tasks = true ->
  nth_error rs' i
  = Some (set_status_and_category_for_run r
            ("invalid task (" ++ str_of (status_of_run r) ++ ")")
            result.CATEGORY_MISSING).
Proof.
  intros Hadj Hi Hlast Hinv.
  destruct (adjust_status_category_runs _ _ _ _ _ Hadj i r Hi)
    as (r' & Hr' & Hin & _).
  specialize (Hin Hlast). unfold adjust_run in Hin.
  rewrite ReconcileSpec.column_value_status in Hin.
  cbn [bind] in Hin. rewrite Hinv in Hin. inversion Hin; subst r'.
  exact Hr'.
Qed.

(** *** No evidence *)

Lemma linter_loop_no_run (verifier : BenchmarkRun) (name : pystr)
    (linters : list BenchmarkRuns) (wit : pystr * pystr) :
  Forall (fun b => as_dictionary_get b name = None) linters ->
  for_each (linter_step verifier name) linters wit = Ok wit.
Proof.
  induction 1 as [|b bs Hb _ IH]; cbn [for_each]; [reflexivity|].
  unfold linter_step at 1. rewrite Hb. cbn [bind]. exact IH.
Qed.

Lemma validator_loop_no_run (verifier_run : Run) (verifier : BenchmarkRun)
    (name sfv : pystr) (validators : list BenchmarkRuns) (st : ValidatorLoop) :
  Forall (fun b => as_dictionary_get b name = None) validators ->
  for_each (validator_step verifier_run verifier name sfv) validators st
  = Ok st.
Proof.
  induction 1 as [|b bs Hb _ IH]; cbn [for_each]; [reflexivity|].
  unfold validator_step at 1. rewrite Hb. cbn [bind]. exact IH.
Qed.

Lemma separate_linters_no_run (name : pystr) (linters : list BenchmarkRuns) :
  Forall (fun b => as_dictionary_get b name = None) linters ->
  separate_linters name linters = (linters, linters).
Proof.
  induction 1 as [|b bs Hb _ IH]; cbn [separate_linters]; [reflexivity|].
  rewrite IH, Hb. reflexivity.
Qed.

Lemma get_validation_result_no_run (verifier : BenchmarkRun) (r : Run)
    (validators linters : list BenchmarkRuns) (sfv cfv : pystr) :
  run verifier = Some r ->
  Forall (fun b => as_dictionary_get b (run_name r) = None) validators ->
  Forall (fun b => as_dictionary_get b (run_name r) = None) linters ->
  exists r',
    get_validation_result verifier validators linters sfv cfv
    = Ok (mkVerdict None None sfv cfv, r')
    /\ (r' = r
        \/ (pystr_in (run_properties r) coverage_properties = true
            /\ exists s, r' = set_column "score" s r)).
Proof.
  intros Hr Hv Hl. unfold get_validation_result.
  rewrite Hr. cbn [bind].
  rewrite (linter_loop_no_run _ _ _ _ Hl). cbn [bind pystr_eqb].
  rewrite (validator_loop_no_run _ _ _ _ _ _ Hv). cbn [bind].
  cbn [vl_status_wit vl_category_wit vl_category_from_verification
       vl_coverage_wit].
  destruct (pystr_in (run_properties r) coverage_properties);
    eexists; split; try reflexivity; eauto.
Qed.

(** X7: without evidence a correct result is unconfirmed.  When no
    validator and no linter has a run for the task, a run whose
    category is CORRECT -- the last of its name, of a valid task, and
    not one of the runs with expected verdict "true" that the pass
    skips -- keeps its status and gets the category
    CORRECT_UNCONFIRMED. *)
Theorem adjust_status_category_no_evidence
    (verifier_runs : BenchmarkRuns) (validators linters : list BenchmarkRuns)
    (invalid_tasks : list string) (rs' : list Run) (i : nat) (r : Run)
    (s : string) :
  adjust_status_category verifier_runs validators linters invalid_tasks
  = Ok rs' ->
  nth_error (runs verifier_runs) i = Some r ->
  dict_get pystr_eqb (run_name r) (as_dictionary (runs verifier_runs))
  = Some i ->
  pystr_in (run_name r) invalid_tasks = false ->
  (forall set_name,
      runs_name verifier_runs = Some set_name ->
      contains set_name "SV-COMP"
      && existsb (contains set_name) category_patterns
      && pystr_eqb (run_expectedVerdict r) (Some "true") = false) ->
  status_of_run r = Some s ->
  category_of_run r = Some result.CATEGORY_CORRECT ->
  Forall (fun b => as_dictionary_get b (run_name r) = None)
    (validators ++ linters) ->
  exists r',
    nth_error rs' i = Some r'
    /\ status_of_run r' = Some s
    /\ category_of_run r' = Some result.CATEGORY_CORRECT_UNCONFIRMED.
Proof.
  intros Hadj Hi Hlast Hinv Hskip Hs Hc Hnone.
  apply Forall_app in Hnone. destruct Hnone as [Hv Hl].
  destruct (adjust_status_category_runs _ _ _ _ _ Hadj i r Hi)
    as (r' & Hr' & Hin & _).
  specialize (Hin Hlast). exists r'. split; [exact Hr'|].
  unfold adjust_run in Hin.
  rewrite ReconcileSpec.column_value_status,
    ReconcileSpec.column_value_category in Hin.
  cbn [bind] in Hin. rewrite Hinv in Hin.
  destruct (runs_name verifier_runs) as [set_name|] eqn:Hname;
    [|discriminate Hin].
  specialize (Hskip set_name eq_refl).
  cbn [re_search_any existsb bind] in Hin. rewrite orb_false_r in Hin.
  assert (Hkeep :
            (keeps_true <-
               (if contains set_name "SV-COMP"
                then Ok (existsb (contains set_name) category_patterns)
                else Ok false) ;;
             if keeps_true && pystr_eqb (run_expectedVerdict r) (Some "true")
             then Ok r
             else
               category_from_verification <- Ok (category_of_run r) ;;
               ' (v, r') <-
                   get_validation_results_for_run
                     (mkBenchmarkRun (original_file verifier_runs)
                        (tool verifier_runs) (Some r))
                     validators linters (status_of_run r)
                     category_from_verification ;;
               match v_status_wit v, v_category_wit v with
               | Some statusWit, Some categoryWit =>
                   if pystr_eqb (v_category_from_verification v)
                        (Some result.CATEGORY_CORRECT)
                   then Ok (set_status_and_category_for_run r' statusWit
                              categoryWit)
                   else Ok r'
               | _, _ => Ok r'
               end) = Ok r') by exact Hin.
  clear Hin.
  assert (Hno : (if contains set_name "SV-COMP"
                 then existsb (contains set_name) category_patterns
                 else false)
                && pystr_eqb (run_expectedVerdict r) (Some "true") = false).
  { destruct (contains set_name "SV-COMP"); [exact Hskip | reflexivity]. }
  assert (Hrest :
            (' (v, r') <-
                get_validation_results_for_run
                  (mkBenchmarkRun (original_file verifier_runs)
                     (tool verifier_runs) (Some r))
                  validators linters (status_of_run r) (category_of_run r) ;;
             match v_status_wit v, v_category_wit v with
             | Some statusWit, Some categoryWit =>
                 if pystr_eqb (v_category_from_verification v)
                      (Some result.CATEGORY_CORRECT)
                 then Ok (set_status_and_category_for_run r' statusWit
                            categoryWit)
                 else Ok r'
             | _, _ => Ok r'
             end) = Ok r').
  { destruct (contains set_name "SV-COMP"); cbn [bind] in Hkeep;
      rewrite Hno in Hkeep; exact Hkeep. }
  clear Hkeep.
  unfold get_validation_results_for_run in Hrest. cbn [run bind] in Hrest.
  rewrite (separate_linters_no_run _ _ Hl) in Hrest.
  destruct (get_validation_result_no_run
              (mkBenchmarkRun (original_file verifier_runs)
                 (tool verifier_runs) (Some r)) r validators linters
              (status_of_run r) (category_of_run r) eq_refl Hv Hl)
    as (r1 & Hg & Hr1).
  rewrite Hg in Hrest. cbn [bind v_category_wit pystr_eqb] in Hrest.
  assert (Hname1 : run_name r1 = run_name r).
  { destruct Hr1 as [->|(_ & s1 & ->)]; reflexivity. }
  destruct (get_validation_result_no_run
              (mkBenchmarkRun (original_file verifier_runs)
                 (tool verifier_runs) (Some r1)) r1 validators linters
              (status_of_run r) (category_of_run r) eq_refl
              ltac:(rewrite Hname1; exact Hv) ltac:(rewrite Hname1; exact Hl))
    as (r2 & Hy & Hr2).
  cbn [br_original_file br_tool] in Hrest.
  rewrite Hy in Hrest.
  cbn [bind v_category_wit pystr_eqb andb v_status_wit
       v_status_from_verification v_category_from_verification] in Hrest.
  rewrite Hs, Hc in Hrest. cbn in Hrest. inversion Hrest; subst r'.
  split; [apply status_of_run_set | apply category_of_run_set].
Qed.

End WithDecimal.

(** *** One validator or linter against the verifier *)

(** X8: a validator or linter never makes a result correct.  The
    category [get_validator_linter_result] returns is CORRECT only when
    the verifier's own run says so, and the status returned with it is
    the verifier's. *)
Theorem get_validator_linter_result_correct
    (validator_or_linter verification : BenchmarkRun) (s : pystr) :
  get_validator_linter_result validator_or_linter verification
  = Ok (s, Some result.CATEGORY_CORRECT) ->
  exists r,
    run verification = Some r
    /\ column_value "status" (Some r) = Ok s
    /\ column_value "category" (Some r) = Ok (Some result.CATEGORY_CORRECT).
Proof.
  unfold get_validator_linter_result. intros Hres.
  destruct (run validator_or_linter) as [vr|]; [|discriminate Hres].
  bind_inv Hres. bind_inv_as Hres sval Hsval.
  destruct (run verification) as [r|]; cbn [column_value bind try_except] in Hres.
  2:{ destruct (pystr_eqb sval (Some "not found")); [discriminate Hres|].
      cbn [bind] in Hres. bind_inv Hres.
      repeat match type of Hres with
             | (if ?b then _ else _) = _ => destruct b; try discriminate Hres
             end. }
  exists r. split; [reflexivity|]. unfold column_value.
  destruct (find_column "status" r) as [cs|];
    cbn [bind try_except] in Hres.
  2:{ destruct (pystr_eqb sval (Some "not found")); [discriminate Hres|].
      cbn [bind] in Hres. bind_inv Hres.
      repeat match type of Hres with
             | (if ?b then _ else _) = _ => destruct b; try discriminate Hres
             end. }
  destruct (find_column "category" r) as [cc|];
    cbn [bind try_except] in Hres.
  2:{ destruct (pystr_eqb sval (Some "not found")); [discriminate Hres|].
      cbn [bind] in Hres. bind_inv Hres.
      repeat match type of Hres with
             | (if ?b then _ else _) = _ => destruct b; try discriminate Hres
             end. }
  destruct (pystr_eqb sval (col_value cs));
    [inversion Hres; subst; auto|].
  bind_inv Hres. bind_inv Hres.
  repeat match type of Hres with
         | (if ?b then _ else _) = _ =>
             destruct b; try discriminate Hres;
             try (inversion Hres; subst; auto; fail)
         end.
Qed.

(** X9: for the property valid-memsafety a validator confirms a result
    only with the very same status.  When the validator's status
    differs from the verifier's -- if only in the violated sub-property
    -- the result is not taken over: the category returned is ERROR, or
    CORRECT_UNCONFIRMED for a result that was CORRECT. *)
Theorem get_validator_linter_result_memsafety
    (validator_or_linter verification : BenchmarkRun) (vr r : Run)
    (sval sver : string) (cver : pystr) :
  run validator_or_linter = Some vr ->
  run_properties vr = Some "valid-memsafety" ->
  column_value "status" (Some vr) = Ok (Some sval) ->
  run verification = Some r ->
  column_value "status" (Some r) = Ok (Some sver) ->
  column_value "category" (Some r) = Ok cver ->
  sval <> sver ->
  exists s c,
    get_validator_linter_result validator_or_linter verification = Ok (s, c)
    /\ (c = Some result.CATEGORY_ERROR
        \/ (c = Some result.CATEGORY_CORRECT_UNCONFIRMED
            /\ cver = Some result.CATEGORY_CORRECT /\ s = Some sver)).
Proof.
  intros Hvr Hprop Hsval Hr Hsver Hcver Hne.
  unfold get_validator_linter_result. rewrite Hvr, Hr, Hsval, Hsver, Hcver.
  assert (Hcol : find_column "status" vr <> None).
  { unfold column_value in Hsval. destruct (find_column "status" vr);
      [discriminate | discriminate Hsval]. }
  destruct (find_column "status" vr); [|contradiction].
  cbn [bind try_except]. rewrite Hprop.
  assert (Hs : pystr_eqb (Some sval) (Some sver) = false).
  { cbn. apply String.eqb_neq. exact Hne. }
  rewrite Hs. cbn [pystr_eqb]. rewrite String.eqb_refl, andb_false_r.
  cbn [negb].
  repeat match goal with
         | |- exists s c, (if ?b then _ else _) = _ /\ _ =>
             let Hb := fresh "Hb" in
             destruct b eqn:Hb; [eexists; eexists; split; [reflexivity|auto]|]
         end.
  - right. repeat split.
    destruct cver as [cv|]; [|discriminate Hb3].
    apply String.eqb_eq in Hb3. congruence.
  - eexists; eexists; split; [reflexivity|auto].
Qed.

(** *** The two pools of linters *)

(** X10: every linter is consulted in at least one pool, [(graphml,
    yml)], and the pools keep the linters apart by the witness they
    linted for the task: a linter whose witness file ends in .graphml is
    in the GraphML pool only, and one whose witness file ends in .yml in
    the YAML pool only. *)
Theorem separate_linters_pools (task_name : pystr)
    (linter_sets : list BenchmarkRuns) :
  let pools := separate_linters task_name linter_sets in
  (forall linter,
      In linter linter_sets <-> In linter (fst pools) \/ In linter (snd pools))
  /\ (forall linter linter_run c w,
         In linter (snd pools) ->
         as_dictionary_get linter task_name = Some linter_run ->
         find_column "witnesslint-witness-file" linter_run = Some c ->
         col_value c = Some w ->
         endswith w ".graphml" = false)
  /\ (forall linter linter_run c w,
         In linter (fst pools) ->
         as_dictionary_get linter task_name = Some linter_run ->
         find_column "witnesslint-witness-file" linter_run = Some c ->
         col_value c = Some w ->
         endswith w ".graphml" = true \/ endswith w ".yml" = false).
Proof.
  induction linter_sets as [|l ls IH]; cbv zeta; cbn [separate_linters].
  - cbn. split; [intros linter; tauto | split; intros; contradiction].
  - cbv zeta in IH.
    destruct (separate_linters task_name ls) as [g y].
    cbn [fst snd] in IH. destruct IH as (IHin & IHy & IHg).
    assert (Hy : forall linter linter_run c w,
               In linter y ->
               as_dictionary_get linter task_name = Some linter_run ->
               find_column "witnesslint-witness-file" linter_run = Some c ->
               col_value c = Some w ->
               endswith w ".graphml" = false) by exact IHy.
    assert (Hg : forall linter linter_run c w,
               In linter g ->
               as_dictionary_get linter task_name = Some linter_run ->
               find_column "witnesslint-witness-file" linter_run = Some c ->
               col_value c = Some w ->
               endswith w ".graphml" = true \/ endswith w ".yml" = false)
      by exact IHg.
    destruct (as_dictionary_get l task_name) as [lr|] eqn:Hlr.
    2:{ cbn [fst snd]. split; [intros linter; specialize (IHin linter); cbn [In]; tauto|].
        split; intros linter linter_run c w [->|Hin] Hrun; eauto; congruence. }
    destruct (find_column "witnesslint-witness-file" lr) as [c0|] eqn:Hc0.
    2:{ cbn [fst snd]. split; [intros linter; specialize (IHin linter); cbn [In]; tauto|].
        split; intros linter linter_run c w [->|Hin] Hrun Hcol; eauto; congruence. }
    destruct (col_value c0) as [w0|] eqn:Hw0.
    2:{ replace (endswith "" ".graphml") with false by reflexivity.
        replace (endswith "" ".yml") with false by reflexivity.
        cbn [fst snd]. split; [intros linter; specialize (IHin linter); cbn [In]; tauto|].
        split; intros linter linter_run c w [->|Hin] Hrun Hcol Hval; eauto;
          congruence. }
    destruct (endswith w0 ".graphml") eqn:Hgr;
      [|destruct (endswith w0 ".yml") eqn:Hyr]; cbn [fst snd];
      (split; [intros linter; specialize (IHin linter); cbn [In]; tauto|]);
      split; intros linter linter_run c w Hin Hrun Hcol Hval;
      try (destruct Hin as [->|Hin]); eauto;
      rewrite Hlr in Hrun; inversion Hrun; subst linter_run;
      rewrite Hc0 in Hcol; inversion Hcol; subst c;
      rewrite Hw0 in Hval; inversion Hval; subst w; auto.
Qed.

(** *** Examples *)

Import Examples.

Lemma adjust_status_category_pointwise_witness :
  adjust_status_category (D := Q) verifier_twice [validator_reject] [] []
  = Ok [verifier_correct; verifier_unconfirmed]
  /\ List.length [verifier_correct; verifier_unconfirmed]
     = List.length (runs verifier_twice)
  /\ exists r',
       nth_error [verifier_correct; verifier_unconfirmed] 0 = Some r'
       /\ r' = verifier_correct.
Proof.
  assert (Hpass : adjust_status_category (D := Q) verifier_twice
                    [validator_reject] [] []
                  = Ok [verifier_correct; verifier_unconfirmed])
    by reflexivity.
  split; [exact Hpass|].
  destruct (adjust_status_category_pointwise (D := Q) verifier_twice
              [validator_reject] [] [] _ Hpass) as [Hlen Hruns].
  split; [exact Hlen|].
  destruct (Hruns 0%nat verifier_correct eq_refl) as (r' & Hr' & _ & Hout).
  exists r'. split; [exact Hr'|]. apply Hout. vm_compute. discriminate.
Defined.

Lemma adjust_status_category_frame_witness :
  adjust_status_category (D := Q)
    (verifier_file "SV-COMP25_unreach-call" verifier_with_cputime)
    [validator_reject] [] []
  = Ok [set_status_and_category_for_run verifier_with_cputime "true"
          "correct-unconfirmed"]
  /\ other_columns ["status"; "category"]
       (set_status_and_category_for_run verifier_with_cputime "true"
          "correct-unconfirmed")
     = [column "cputime" "12.5s"].
Proof.
  split; [reflexivity|].
  refine (proj2 (proj2 (proj2
            (proj2 (adjust_status_category_frame (D := Q)
                      (verifier_file "SV-COMP25_unreach-call"
                         verifier_with_cputime)
                      [validator_reject] [] [] _ _ 0%nat
                      verifier_with_cputime _ _ _) _))));
    reflexivity.
Defined.

Lemma adjust_status_category_correct_range_witness :
  In (category_of_run verifier_unconfirmed)
    [Some result.CATEGORY_CORRECT; Some result.CATEGORY_ERROR;
     Some result.CATEGORY_CORRECT_UNCONFIRMED].
Proof.
  apply (adjust_status_category_correct_range (D := Q)
           (verifier_file "SV-COMP25_unreach-call" verifier_correct)
           [validator_reject] [linter_done] [] [verifier_unconfirmed]
           eq_refl 0%nat verifier_correct verifier_unconfirmed);
    reflexivity.
Defined.

Lemma adjust_status_category_invalid_task_witness :
  nth_error
    [set_status_and_category_for_run verifier_correct "invalid task (true)"
       "missing"] 0
  = Some (set_status_and_category_for_run verifier_correct
            ("invalid task (" ++ str_of (status_of_run verifier_correct) ++ ")")
            result.CATEGORY_MISSING).
Proof.
  apply (adjust_status_category_invalid_task (D := Q)
           (verifier_file "SV-COMP25_unreach-call" verifier_correct)
           [validator_confirm] [linter_done] ["task.yml"]);
    reflexivity.
Defined.

Lemma adjust_status_category_no_evidence_witness :
  exists r',
    nth_error [verifier_unconfirmed] 0 = Some r'
    /\ status_of_run r' = Some "true"
    /\ category_of_run r' = Some result.CATEGORY_CORRECT_UNCONFIRMED.
Proof.
  apply (adjust_status_category_no_evidence (D := Q)
           (verifier_file "SV-COMP25_unreach-call" verifier_correct)
           [] [linter_no_run] [] [verifier_unconfirmed] 0 verifier_correct
           "true");
    try reflexivity.
  - intros set_name Hname. inversion Hname; subst. reflexivity.
  - repeat constructor.
Defined.

Lemma get_validator_linter_result_correct_witness :
  exists r,
    run (as_benchmark_run verifier_correct) = Some r
    /\ column_value "status" (Some r) = Ok (Some "true")
    /\ column_value "category" (Some r) = Ok (Some result.CATEGORY_CORRECT).
Proof.
  apply (get_validator_linter_result_correct
           (mkBenchmarkRun "val1.xml" "cpachecker" (Some (witness_run "true")))
           (as_benchmark_run verifier_correct) (Some "true")).
  reflexivity.
Defined.

Lemma get_validator_linter_result_memsafety_witness :
  exists s c,
    get_validator_linter_result
      (mkBenchmarkRun "val.xml" "cpachecker" (Some memsafety_other_violation))
      (as_benchmark_run memsafety_alarm) = Ok (s, c)
    /\ (c = Some result.CATEGORY_ERROR
        \/ (c = Some result.CATEGORY_CORRECT_UNCONFIRMED
            /\ Some "correct" = Some result.CATEGORY_CORRECT
            /\ s = Some "false(valid-deref)")).
Proof.
  apply (get_validator_linter_result_memsafety
           (mkBenchmarkRun "val.xml" "cpachecker" (Some memsafety_other_violation))
           (as_benchmark_run memsafety_alarm)
           memsafety_other_violation memsafety_alarm
           "false(valid-free)" "false(valid-deref)" (Some "correct"));
    try reflexivity.
  discriminate.
Defined.

End ReconcileFacts.

(** ** Witness classification: errors, votes and columns *)

Module WitnessesFacts.
Import Witnesses.

(** *** Errors *)

(** X11: the errors of [_classify_task].  A witness kind other than
    the four known ones fails the assertion, whatever the row; a row
    without the column of the expected verdict raises [KeyError]; and a
    task of a verifier -- not of the witnessmap -- whose row carries a
    witness verdict other than "" and "-" raises [ValueError]. *)
Theorem classify_task_errors (row : Row) (columns : list string)
    (witness_kind : string) :
  (str_in witness_kind kinds = false ->
   _classify_task row columns witness_kind = Raise AssertionError)
  /\ (str_in witness_kind kinds = true ->
      row_get row COLUMN_EXPECTED = Raise KeyError ->
      _classify_task row columns witness_kind = Raise KeyError)
  /\ (forall expected verifier witness_expected,
         str_in witness_kind kinds = true ->
         row_get row COLUMN_EXPECTED = Ok expected ->
         row_get row COLUMN_VERIFIER = Ok verifier ->
         cell_is verifier "witnessmap" = false ->
         row_get row COLUMN_WITNESS_EXPECTED = Ok witness_expected ->
         cell_in witness_expected [""; "-"] = false ->
         _classify_task row columns witness_kind = Raise ValueError).
Proof.
  unfold _classify_task. split; [|split].
  - intros Hk. rewrite Hk. reflexivity.
  - intros Hk He. rewrite Hk. cbn [assert bind].
    destruct (WitnessesSpec.kinds_cases _ Hk) as [-> | [-> | [-> | ->]]];
      cbn [split_kind bind]; rewrite He; reflexivity.
  - intros e v w Hk He Hv Hmap Hw Hin. rewrite Hk. cbn [assert bind].
    assert (Hv' : row_get row "verifier" = Ok v) by exact Hv.
    destruct (WitnessesSpec.kinds_cases _ Hk) as [-> | [-> | [-> | ->]]];
      cbn [split_kind bind]; rewrite He; cbn [bind]; rewrite Hv';
      cbn [bind]; rewrite Hmap, Hw; cbn [bind]; rewrite Hin;
      cbn [negb bind]; rewrite Hv; reflexivity.
Qed.

(** *** The vote *)

(** X12: the vote is monotone and decided by unanimity.  One more
    confirmation never takes a CORRECT away, one more rejection never
    takes a WRONG away, two or more validators that all confirm give
    CORRECT and two or more that all reject give WRONG; and no vote is
    both. *)
Theorem vote_monotone (witness_kind : string) (confirmed rejected : nat) :
  str_in witness_kind kinds = true ->
  (category_of witness_kind (vote witness_kind confirmed rejected)
   = Some result.WITNESS_CATEGORY_CORRECT ->
   category_of witness_kind (vote witness_kind (S confirmed) rejected)
   = Some result.WITNESS_CATEGORY_CORRECT)
  /\ (category_of witness_kind (vote witness_kind confirmed rejected)
      = Some result.WITNESS_CATEGORY_WRONG ->
      category_of witness_kind (vote witness_kind confirmed (S rejected))
      = Some result.WITNESS_CATEGORY_WRONG)
  /\ ((2 <= confirmed)%nat ->
      category_of witness_kind (vote witness_kind confirmed 0)
      = Some result.WITNESS_CATEGORY_CORRECT)
  /\ ((2 <= rejected)%nat ->
      category_of witness_kind (vote witness_kind 0 rejected)
      = Some result.WITNESS_CATEGORY_WRONG)
  /\ (category_of witness_kind (vote witness_kind confirmed rejected)
      = Some result.WITNESS_CATEGORY_CORRECT ->
      (3 * confirmed <= rejected)%nat -> False).
Proof.
  intros Hk.
  assert (Hcat : forall c r,
             category_of witness_kind (vote witness_kind c r)
             = Some (vote_category c r)).
  { intros c r. rewrite WitnessesSpec.vote_is_classification.
    apply WitnessesSpec.classification_entries, Hk. }
  rewrite !Hcat.
  pose proof (WitnessesSpec.vote_category_rule confirmed rejected)
    as (R1 & R2 & _).
  pose proof (WitnessesSpec.vote_category_rule (S confirmed) rejected)
    as (S1 & _ & _).
  pose proof (WitnessesSpec.vote_category_rule confirmed (S rejected))
    as (_ & T2 & _).
  pose proof (WitnessesSpec.vote_category_rule confirmed 0) as (U1 & _ & _).
  pose proof (WitnessesSpec.vote_category_rule 0 rejected) as (_ & V2 & _).
  repeat split.
  - intros Hc. f_equal. apply S1.
    assert (Hr : vote_category confirmed rejected
                 = result.WITNESS_CATEGORY_CORRECT) by congruence.
    apply R1 in Hr. lia.
  - intros Hc. f_equal. apply T2.
    assert (Hr : vote_category confirmed rejected
                 = result.WITNESS_CATEGORY_WRONG) by congruence.
    apply R2 in Hr. lia.
  - intros Hc. f_equal. apply U1. lia.
  - intros Hc. f_equal. apply V2. lia.
  - intros Hc Hw.
    assert (Hr : vote_category confirmed rejected
                 = result.WITNESS_CATEGORY_CORRECT) by congruence.
    apply R1 in Hr. lia.
Qed.

(** *** The order of the columns *)

Lemma check_columns_are_strings_cases (row : Row) (columns : list string) :
  check_columns_are_strings row columns = Ok tt
  <-> Forall (fun c => exists s, row_get row c = Ok (CStr s)) columns.
Proof.
  induction columns as [|c cs IH]; cbn [check_columns_are_strings].
  - split; [constructor | reflexivity].
  - destruct (row_get row c) as [[s|o]|e] eqn:Hc; cbn [bind assert
      cell_isinstance_str].
    + rewrite IH. split; [intros Hcs; constructor; eauto|].
      intros Hall. inversion Hall; assumption.
    + split; [discriminate|]. intros Hall. inversion Hall as [|? ? [s Hs] _].
      rewrite Hc in Hs. discriminate Hs.
    + split; [discriminate|]. intros Hall. inversion Hall as [|? ? [s Hs] _].
      rewrite Hc in Hs. discriminate Hs.
Qed.

Lemma check_columns_are_strings_perm (row : Row) (columns columns' : list string) :
  Permutation columns columns' ->
  check_columns_are_strings row columns = Ok tt ->
  check_columns_are_strings row columns' = Ok tt.
Proof.
  intros Hp. rewrite !check_columns_are_strings_cases.
  apply Permutation_Forall, Hp.
Qed.

Lemma count_startswith_perm (row : Row) (verdict : string)
    (columns columns' : list string) (n : nat) :
  Permutation columns columns' ->
  count_startswith row columns verdict = Ok n ->
  count_startswith row columns' verdict = Ok n.
Proof.
  intros Hp. revert n.
  induction Hp as [|c cs cs' _ IH|c c' cs|cs cs' cs'' _ IH1 _ IH2]; intros n;
    cbn [count_startswith].
  - auto.
  - intros Hn. bind_inv_as Hn v Hv. bind_inv_as Hn m Hm.
    rewrite Hv. cbn [bind]. rewrite (IH _ Hm). exact Hn.
  - intros Hn. bind_inv_as Hn v' Hv'. bind_inv_as Hn k Hk.
    bind_inv_as Hk v Hv. bind_inv_as Hk m Hm.
    rewrite Hv. cbn [bind]. rewrite Hv'. cbn [bind]. rewrite Hm. cbn [bind].
    inversion Hk; subst k. inversion Hn; subst n.
    destruct (startswith (cell_str v) verdict),
             (startswith (cell_str v') verdict); reflexivity.
  - auto.
Qed.

(** X13: the classification of a task does not depend on the order of
    the validators' columns. *)
Theorem classify_task_columns_order (row : Row)
    (columns columns' : list string) (witness_kind : string)
    (d : list (string * string)) :
  Permutation columns columns' ->
  _classify_task row columns witness_kind = Ok d ->
  _classify_task row columns' witness_kind = Ok d.
Proof.
  intros Hp. unfold _classify_task. intros H.
  bind_inv_as H u Hu. rewrite Hu. cbn [bind].
  bind_inv_as H wv Hwv. rewrite Hwv. cbn [bind]. destruct wv as [w version].
  bind_inv_as H e He. rewrite He. cbn [bind].
  bind_inv_as H v Hv. rewrite Hv. cbn [bind].
  destruct (cell_is v "witnessmap"); [exact H|].
  bind_inv_as H we Hwe. rewrite Hwe. cbn [bind].
  bind_inv_as H u' Hu'. rewrite Hu'. cbn [bind].
  bind_inv_as H t Ht. rewrite Ht. cbn [bind].
  assert (Hvote :
    (check_columns_are_strings row columns ;;;
     confirmed <- count_startswith row columns (lower (cell_str e)) ;;
     rejected <-
       count_startswith row columns (opposite_of (lower (cell_str e))) ;;
     Ok (vote witness_kind confirmed rejected)) = Ok d ->
    (check_columns_are_strings row columns' ;;;
     confirmed <- count_startswith row columns' (lower (cell_str e)) ;;
     rejected <-
       count_startswith row columns' (opposite_of (lower (cell_str e))) ;;
     Ok (vote witness_kind confirmed rejected)) = Ok d).
  { intros Hd. bind_inv_as Hd u0 Hc. destruct u0.
    bind_inv_as Hd confirmed Hconf. bind_inv_as Hd rejected Hrej.
    rewrite (check_columns_are_strings_perm _ _ _ Hp Hc). cbn [bind].
    rewrite (count_startswith_perm _ _ _ _ _ Hp Hconf). cbn [bind].
    rewrite (count_startswith_perm _ _ _ _ _ Hp Hrej). exact Hd. }
  destruct (cell_in t WITNESSLINT_CORRECTNESS_TYPES).
  - destruct (String.eqb w "violation"); [exact H|].
    destruct (startswith _ result.RESULT_FALSE_PROP); [exact H|]. auto.
  - destruct (cell_in t WITNESSLINT_VIOLATION_TYPES); [|exact H].
    destruct (String.eqb w "correctness"); [exact H|].
    destruct (startswith _ result.RESULT_TRUE_PROP); [exact H|]. auto.
Qed.

(** *** The columns of the validators *)

Lemma dict_get_set_string {V} (k k' : string) (v : V) (d : list (string * V)) :
  dict_get String.eqb k (dict_set String.eqb k' v d)
  = if String.eqb k k' then Some v else dict_get String.eqb k d.
Proof.
  induction d as [|[k0 v0] d IH]; simpl; [reflexivity|].
  destruct (String.eqb k' k0) eqn:Hk'; simpl.
  - apply String.eqb_eq in Hk'. subst k0.
    destruct (String.eqb k k'); reflexivity.
  - rewrite IH. destruct (String.eqb k k0) eqn:Hk; [|reflexivity].
    apply String.eqb_eq in Hk. subst k0.
    rewrite String.eqb_sym, Hk'. reflexivity.
Qed.

(** The columns listed under a kind after [append_to]. *)
Lemma append_to_lookup (k k' c c' : string) (d : list (string * list string)) :
  (exists cols,
      dict_get String.eqb k (append_to k' c' d) = Some cols /\ In c cols)
  <-> (exists cols, dict_get String.eqb k d = Some cols /\ In c cols)
      \/ (k = k' /\ c = c').
Proof.
  unfold append_to. rewrite dict_get_set_string.
  destruct (String.eqb k k') eqn:Hk.
  - apply String.eqb_eq in Hk. subst k'.
    destruct (dict_get String.eqb k d) as [old|]; split.
    + intros (cols & Heq & Hin). inversion Heq; subst cols.
      apply in_app_or in Hin. destruct Hin as [Hin|[<-|[]]]; eauto.
    + intros [(cols & Heq & Hin)|[_ ->]]; eexists; split; try reflexivity.
      * inversion Heq; subst. apply in_or_app. auto.
      * apply in_or_app. right. left. reflexivity.
    + intros (cols & Heq & Hin). inversion Heq; subst cols.
      destruct Hin as [<-|[]]. auto.
    + intros [(cols & Heq & _)|[_ ->]]; [discriminate|].
      eexists; split; [reflexivity | left; reflexivity].
  - apply String.eqb_neq in Hk. split; [auto|].
    intros [Hold|[Heq _]]; [exact Hold | contradiction].
Qed.

Lemma append_to_nonempty (k k' c' : string) (d : list (string * list string))
    (cols : list string) :
  (forall k0 cols0, dict_get String.eqb k0 d = Some cols0 -> cols0 <> []) ->
  dict_get String.eqb k (append_to k' c' d) = Some cols -> cols <> [].
Proof.
  intros Hd. unfold append_to. rewrite dict_get_set_string.
  destruct (String.eqb k k'); [|apply Hd].
  intros Heq. inversion Heq; subst.
  destruct (dict_get String.eqb k' d) as [[|x old]|]; discriminate.
Qed.

(** What [valid_tasks] lists under each kind, column by column. *)
Lemma valid_tasks_witnesses_lookup (columns : list string) :
  (forall k cols,
      dict_get String.eqb k (valid_tasks_witnesses columns) = Some cols ->
      cols <> [])
  /\ forall k c,
       (exists cols,
           dict_get String.eqb k (valid_tasks_witnesses columns) = Some cols
           /\ In c cols)
       <-> In c columns
           /\ ((contains c "correctness" = true
                /\ k = if contains c WITNESS_VERSION_1
                       then "correctness-1.0" else "correctness-2.0")
               \/ (contains c "violation" = true
                   /\ k = if contains c WITNESS_VERSION_1
                          then "violation-1.0" else "violation-2.0")).
Proof.
  unfold valid_tasks_witnesses.
  induction columns as [|c0 cs [IHne IH]] using rev_ind.
  - cbn. split; [discriminate|].
    intros k c. split; [intros (cols & Heq & _); discriminate | tauto].
  - rewrite fold_left_app. cbn [fold_left].
    set (d := fold_left _ cs []) in *.
    split.
    + intros k cols.
      destruct (contains c0 "correctness");
        destruct (contains c0 "violation");
        repeat (apply append_to_nonempty; try exact IHne; intros ? ?);
        apply IHne.
    + intros k c. rewrite in_app_iff. cbn [In].
      destruct (contains c0 "correctness") eqn:Hc;
        destruct (contains c0 "violation") eqn:Hv;
        rewrite ?append_to_lookup, IH; split;
        intuition (subst; try congruence; auto).
Qed.

(** X14: [valid_tasks] sorts the columns of the validators by the kind
    of witness: a column is listed under a kind exactly when its title
    contains "correctness" or "violation" and the kind is that word with
    the version 1.0 if the title contains "1.0", and 2.0 otherwise.  So
    every kind it hands to [_classify_task] is one of the four known
    kinds, with at least one column. *)
Theorem valid_tasks_witnesses_kinds (columns : list string) :
  (forall k cols,
      dict_get String.eqb k (valid_tasks_witnesses columns) = Some cols ->
      str_in k kinds = true /\ cols <> [])
  /\ forall k c,
       (exists cols,
           dict_get String.eqb k (valid_tasks_witnesses columns) = Some cols
           /\ In c cols)
       <-> In c columns
           /\ ((contains c "correctness" = true
                /\ k = if contains c WITNESS_VERSION_1
                       then "correctness-1.0" else "correctness-2.0")
               \/ (contains c "violation" = true
                   /\ k = if contains c WITNESS_VERSION_1
                          then "violation-1.0" else "violation-2.0")).
Proof.
  destruct (valid_tasks_witnesses_lookup columns) as [Hne Hiff].
  split; [|exact Hiff].
  intros k cols Hget. split; [|exact (Hne _ _ Hget)].
  destruct cols as [|c cols]; [elim (Hne _ _ Hget); reflexivity|].
  assert (Hin : exists cols0,
             dict_get String.eqb k (valid_tasks_witnesses columns) = Some cols0
             /\ In c cols0) by (eexists; split; [exact Hget | left; reflexivity]).
  apply Hiff in Hin. destruct Hin as [_ [[_ ->]|[_ ->]]];
    destruct (contains c WITNESS_VERSION_1); reflexivity.
Qed.

Import Examples.

Lemma classify_task_errors_witness :
  _classify_task row_unexpected_verdict [] "violation-1.0" = Raise ValueError.
Proof.
  refine (proj2 (proj2 (classify_task_errors row_unexpected_verdict []
                          "violation-1.0"))
            (CStr "true") (CStr "cpachecker") (CStr "false") _ _ _ _ _ _);
    reflexivity.
Defined.

Lemma vote_monotone_witness :
  category_of "violation-1.0" (vote "violation-1.0" 4 1)
  = Some result.WITNESS_CATEGORY_CORRECT.
Proof.
  refine (proj1 (vote_monotone "violation-1.0" 3 1 _) _); reflexivity.
Defined.

Lemma classify_task_columns_order_witness :
  _classify_task row_three_votes
    ["c-violation-1.0"; "a-violation-1.0"; "b-violation-1.0"] "violation-1.0"
  = Ok (classification "violation-1.0" result.WITNESS_CATEGORY_UNKNOWN "1:2").
Proof.
  apply (classify_task_columns_order row_three_votes columns_three_votes).
  - unfold columns_three_votes.
    apply Permutation_sym, (Permutation_middle [_; _] []).
  - reflexivity.
Defined.

Lemma valid_tasks_witnesses_kinds_witness :
  dict_get String.eqb "violation-1.0" (valid_tasks_witnesses database_columns)
  = Some ["cpachecker-violation-1.0"; "uautomizer-violation-1.0"]
  /\ str_in "violation-1.0" kinds = true.
Proof.
  split; [reflexivity|].
  exact (proj1 (proj1 (valid_tasks_witnesses_kinds database_columns)
                  "violation-1.0"
                  ["cpachecker-violation-1.0"; "uautomizer-violation-1.0"]
                  eq_refl)).
Defined.

End WitnessesFacts.

(** ** Scores: counters, listed scores and meta categories *)

Module ScoresFacts.
Import Utils Scores.

Section WithDecimal.
Context {D : Type} `{Decimal D}.

(** *** Counting the results *)

Lemma counted_cons (competition : Competition) (c : string) (is_false : bool)
    (r : RunResult) (rs : list RunResult) :
  counted competition c is_false (r :: rs)
  = (if match get_score r competition with
        | Ok (Some _) => true
        | _ => false
        end
        && String.eqb (category r) c
        && Bool.eqb (is_tool_status_false (status r)) is_false
     then 1 else 0)
    + counted competition c is_false rs.
Proof.
  unfold counted. cbn [filter].
  destruct (_ && _ && _); cbn [List.length]; lia.
Qed.

Lemma scores_loop_counters (category_name : string) (competition : Competition)
    (rs : list RunResult) (acc d : ScoresData) :
  scores_loop category_name competition rs acc = Ok d ->
  sd_correct_true d
  = sd_correct_true acc + counted competition result.CATEGORY_CORRECT false rs
  /\ sd_correct_false d
     = sd_correct_false acc + counted competition result.CATEGORY_CORRECT true rs
  /\ sd_correct_unconfirmed_true d
     = sd_correct_unconfirmed_true acc
       + counted competition result.CATEGORY_CORRECT_UNCONFIRMED false rs
  /\ sd_correct_unconfirmed_false d
     = sd_correct_unconfirmed_false acc
       + counted competition result.CATEGORY_CORRECT_UNCONFIRMED true rs
  /\ sd_incorrect_true d
     = sd_incorrect_true acc + counted competition result.CATEGORY_WRONG false rs
  /\ sd_incorrect_false d
     = sd_incorrect_false acc + counted competition result.CATEGORY_WRONG true rs.
Proof.
  revert acc. induction rs as [|r rs IH]; intros acc Hloop;
    cbn [scores_loop] in Hloop.
  - inversion Hloop; subst. unfold counted. cbn. lia.
  - bind_inv_as Hloop s Hs. rewrite !counted_cons, Hs.
    destruct s as [s|].
    + specialize (IH _ Hloop). unfold count_run in IH.
      cbn [sd_correct_true sd_correct_false sd_correct_unconfirmed_true
           sd_correct_unconfirmed_false sd_incorrect_true sd_incorrect_false]
        in IH.
      unfold result.CATEGORY_CORRECT, result.CATEGORY_CORRECT_UNCONFIRMED,
        result.CATEGORY_WRONG in *.
      destruct (String.eqb_spec (category r) "correct") as [Hc|Hc];
        destruct (String.eqb_spec (category r) "correct-unconfirmed") as [Hu|Hu];
        destruct (String.eqb_spec (category r) "wrong") as [Hw|Hw];
        try congruence;
        destruct (is_tool_status_false (status r));
        cbn [andb negb Bool.eqb] in *; lia.
    + specialize (IH _ Hloop). cbn [andb]. lia.
Qed.

(** X15: the counters of [_get_scores_data].  Each of the six counters
    is the number of runs that have a score, with the counter's category
    (correct, correct-unconfirmed, wrong) and verdict (the status starts
    with "false", or not); a run without a score is counted nowhere. *)
Theorem get_scores_data_counters (run_set_results : list RunResult)
    (category_name : string) (competition : Competition) (d : ScoresData) :
  _get_scores_data run_set_results category_name competition = Ok d ->
  sd_correct_true d
  = counted competition result.CATEGORY_CORRECT false run_set_results
  /\ sd_correct_false d
     = counted competition result.CATEGORY_CORRECT true run_set_results
  /\ sd_correct_unconfirmed_true d
     = counted competition result.CATEGORY_CORRECT_UNCONFIRMED false
         run_set_results
  /\ sd_correct_unconfirmed_false d
     = counted competition result.CATEGORY_CORRECT_UNCONFIRMED true
         run_set_results
  /\ sd_incorrect_true d
     = counted competition result.CATEGORY_WRONG false run_set_results
  /\ sd_incorrect_false d
     = counted competition result.CATEGORY_WRONG true run_set_results.
Proof.
  unfold _get_scores_data. intros Hd.
  bind_inv_as Hd d0 Hloop. bind_inv Hd. bind_inv Hd. inversion Hd; subst d0.
  apply scores_loop_counters in Hloop.
  cbn [sd_correct_true sd_correct_false sd_correct_unconfirmed_true
       sd_correct_unconfirmed_false sd_incorrect_true sd_incorrect_false]
    in Hloop.
  exact Hloop.
Qed.

(** *** The score of a run *)

(** X16: a score column overrides the score of the table generator.
    When the run has a column titled "score", [get_score] does not
    depend on the score computed by the table generator: it is the
    value listed, and for an empty cell it is [None] in SV-COMP and
    [Decimal(0)] otherwise.  Outside SV-COMP it never is [None]. *)
Theorem get_score_listed (run_result : RunResult) (competition : Competition)
    (i : nat) :
  _get_column_index SCORE_COLUMN_NAME (columns run_result) = Some i ->
  (forall computed,
      get_score
        (mkRunResult (columns run_result) (values run_result) computed
           (status run_result) (category run_result)) competition
      = get_score run_result competition)
  /\ (nth_error (values run_result) i = Some None ->
      get_score run_result competition
      = Ok (if Competition_eqb competition SV_COMP then None
            else Some (NDec (Decimal_of_Z 0))))
  /\ (forall listed d,
         nth_error (values run_result) i = Some (Some listed) ->
         Decimal_of_string listed = Some d ->
         get_score run_result competition = Ok (Some (NDec d)))
  /\ (competition = TEST_COMP ->
      get_score run_result competition = Ok None -> False).
Proof.
  intros Hi. unfold get_score. cbn [columns values rr_score].
  rewrite Hi. repeat split.
  - intros Hv. rewrite Hv. cbn [bind].
    destruct (Competition_eqb competition SV_COMP); reflexivity.
  - intros listed d Hv Hd. rewrite Hv, Hd. reflexivity.
  - intros -> Hnone.
    destruct (nth_error (values run_result) i) as [[listed|]|];
      [destruct (Decimal_of_string listed)| |]; discriminate.
Qed.

End WithDecimal.

(** *** Meta categories *)

Section MetaCategory.
Context {D : Type} `{Decimal D} {QPoint : Type}.

Lemma subcategories_of_none (category_info : CategoryInfo)
    (demo sub_names : list string)
    (processed : list (string * VerificationCategory D QPoint))
    (d : list (string * VerificationCategory D QPoint)) :
  Forall (fun sub =>
            str_in sub (validation_only category_info)
            || str_in sub demo
            || match dict_get String.eqb sub processed with
               | Some c => Z.eqb (tasks_true c + tasks_false c) 0
               | None => false
               end = true) sub_names ->
  for_each
    (fun d sub =>
       if negb (str_in sub demo) then
         match dict_get String.eqb sub processed with
         | None => Raise KeyError
         | Some c =>
             if negb (Z.eqb (tasks_true c + tasks_false c) 0)
             then Ok (dict_set String.eqb sub c d) else Ok d
         end
       else Ok d)
    (filter (fun c => negb (str_in c (validation_only category_info))) sub_names)
    d = Ok d.
Proof.
  induction 1 as [|sub subs Hsub _ IH]; cbn [filter for_each]; [reflexivity|].
  destruct (str_in sub (validation_only category_info)); cbn [negb];
    [exact IH|].
  cbn [for_each]. cbn [orb] in Hsub.
  destruct (str_in sub demo); cbn [negb bind]; [exact IH|].
  cbn [orb] in Hsub.
  destruct (dict_get String.eqb sub processed) as [c|]; [|discriminate].
  rewrite Hsub. cbn [negb bind]. exact IH.
Qed.

(** X17: a meta category without a child that counts cannot be
    processed.  When every sub-category of a meta category is reserved
    for the validation track, is a demo category or has no task,
    [handle_meta_category] raises [ZeroDivisionError]: it divides the
    sum of the averages by the number of children. *)
Theorem handle_meta_category_no_child (meta_category : string)
    (category_info : CategoryInfo)
    (processed : list (string * VerificationCategory D QPoint))
    (meta : CategoryDef) :
  dict_get String.eqb meta_category (get_categories category_info)
  = Some meta ->
  Forall (fun sub =>
            str_in sub (validation_only category_info)
            || str_in sub (get_demo_categories category_info)
            || match dict_get String.eqb sub processed with
               | Some c => Z.eqb (tasks_true c + tasks_false c) 0
               | None => false
               end = true) (sub_categories meta) ->
  handle_meta_category meta_category category_info processed
  = Raise ZeroDivisionError.
Proof.
  intros Hmeta Hsubs. unfold handle_meta_category.
  rewrite Hmeta. cbn [bind]. unfold subcategories_of.
  rewrite (subcategories_of_none _ _ _ _ _ Hsubs). reflexivity.
Qed.

Lemma filter_length_all {A} (p : A -> bool) (l : list A) :
  (List.length (filter p l) <? List.length l)%nat = negb (forallb p l).
Proof.
  assert (Hle : forall l0, (List.length (filter p l0) <= List.length l0)%nat).
  { intros l0. induction l0 as [|x l0 IH]; cbn [filter List.length]; [lia|].
    destruct (p x); cbn [List.length]; lia. }
  induction l as [|x l IH]; cbn [filter forallb List.length]; [reflexivity|].
  destruct (p x); cbn [List.length andb negb].
  - exact IH.
  - apply Nat.ltb_lt. specialize (Hle l). lia.
Qed.

Lemma dict_get_set_str {V} (k k' : string) (v : V) (d : list (string * V)) :
  dict_get String.eqb k (dict_set String.eqb k' v d)
  = if String.eqb k k' then Some v else dict_get String.eqb k d.
Proof.
  induction d as [|[k0 v0] d IH]; simpl; [reflexivity|].
  destruct (String.eqb k' k0) eqn:Hk'; simpl.
  - apply String.eqb_eq in Hk'. subst k0.
    destruct (String.eqb k k'); reflexivity.
  - rewrite IH. destruct (String.eqb k k0) eqn:Hk; [|reflexivity].
    apply String.eqb_eq in Hk. subst k0.
    rewrite String.eqb_sym, Hk'. reflexivity.
Qed.

(** The participants that the loop of [handle_meta_category] scores. *)
Lemma meta_scores_keys (score_of : string -> Exc (Num D))
    (info : list (VerificationCategory D QPoint)) (n : nat)
    (subverifiers : list string) :
  forall res res',
    for_each
      (fun res verifier =>
         let subcategories_available :=
           filter (fun c => match dict_get String.eqb verifier (results c) with
                            | Some _ => true
                            | None => false
                            end) info in
         if (List.length subcategories_available <? n)%nat
         then Ok res
         else
           score <- score_of verifier ;;
           Ok (dict_set String.eqb verifier score res))
      subverifiers res = Ok res' ->
    forall verifier,
      (exists s, dict_get String.eqb verifier res' = Some s)
      <-> (exists s, dict_get String.eqb verifier res = Some s)
          \/ (In verifier subverifiers
              /\ (List.length
                    (filter (fun c =>
                               match dict_get String.eqb verifier (results c) with
                               | Some _ => true
                               | None => false
                               end) info) <? n)%nat = false).
Proof.
  induction subverifiers as [|v vs IH]; intros res res' Hloop verifier;
    cbn [for_each] in Hloop.
  - inversion Hloop; subst. cbn [In]. tauto.
  - bind_inv_as Hloop res1 Hstep. rewrite (IH _ _ Hloop verifier). cbn [In].
    cbv zeta in Hstep.
    destruct (List.length _ <? n)%nat eqn:Hlt.
    + inversion Hstep; subst res1. split; [tauto|].
      intros [Hres|[[->|Hin] Hall]]; [tauto | congruence | tauto].
    + bind_inv_as Hstep sc Hsc. inversion Hstep; subst res1.
      rewrite dict_get_set_str.
      destruct (String.eqb_spec verifier v) as [->|Hne].
      * split; [intros _; right; split; [left; reflexivity | exact Hlt]|].
        intros _. left. eauto.
      * split; [tauto|]. intros [Hres|[[Heq|Hin] Hall]]; [tauto | | tauto].
        congruence.
Qed.

(** X18: the participants of a meta category.  A participant gets a
    score in the meta category exactly when it is listed as verifier of
    the meta category (which is not reserved for the validation track)
    and has a result in every child that counts; a participant lacking
    the result of one child gets none. *)
Theorem handle_meta_category_participants (meta_category : string)
    (category_info : CategoryInfo)
    (processed : list (string * VerificationCategory D QPoint))
    (m : MetaCategory) :
  handle_meta_category meta_category category_info processed = Ok m ->
  exists meta children,
    dict_get String.eqb meta_category (get_categories category_info) = Some meta
    /\ subcategories_of category_info (get_demo_categories category_info)
         (sub_categories meta) processed = Ok children
    /\ forall verifier,
         (exists s, dict_get String.eqb verifier (mc_scores m) = Some s)
         <-> In verifier (verifiers meta)
             /\ str_in meta_category (validation_only category_info) = false
             /\ Forall (fun nc =>
                          exists r, dict_get String.eqb verifier
                                      (results (snd nc)) = Some r) children.
Proof.
  unfold handle_meta_category. intros Hm.
  bind_inv_as Hm meta Hmeta.
  destruct (dict_get String.eqb meta_category (get_categories category_info))
    as [meta0|] eqn:Hget; inversion Hmeta; subst meta0. clear Hmeta.
  bind_inv_as Hm children Hchildren.
  bind_inv_as Hm u Hassert. bind_inv_as Hm possible Hpossible.
  bind_inv_as Hm u' Hguard. bind_inv_as Hm scores Hscores.
  inversion Hm; subst m. clear Hm. cbn [mc_scores].
  exists meta, children. split; [reflexivity|]. split; [exact Hchildren|].
  intros verifier.
  match type of Hscores with
  | for_each (fun res v => if _ then _ else (score <- ?f ;; _)) _ _ = _ =>
      pose proof (meta_scores_keys
                    (fun v => match v return Exc (Num D) with v => f end)
                    (map snd children) (List.length children) _ _ _ Hscores
                    verifier) as Hkeys
  end.
  rewrite Hkeys. clear Hkeys Hscores.
  rewrite <- (length_map snd children) at 1.
  rewrite filter_length_all, negb_false_iff, forallb_forall, Forall_forall.
  split.
  - intros [[s Hs]|[Hin Hall]]; [discriminate|].
    destruct (str_in meta_category (validation_only category_info));
      [destruct Hin|].
    split; [exact Hin|]. split; [reflexivity|].
    intros nc Hnc. specialize (Hall (snd nc) (in_map snd _ _ Hnc)).
    destruct (dict_get String.eqb verifier (results (snd nc))); [eauto|discriminate].
  - intros (Hin & Hvo & Hall). right. rewrite Hvo. split; [exact Hin|].
    intros c Hc. apply in_map_iff in Hc. destruct Hc as (nc & <- & Hnc).
    destruct (Hall nc Hnc) as [r ->]. reflexivity.
Qed.

End MetaCategory.

Import Examples.

Lemma get_scores_data_counters_witness :
  _get_scores_data run_set "unreach-call.ReachSafety-Loops" SV_COMP
  = Ok (mkScoresData (NDec (-13 # 1)) (NDec (-15 # 1)) 1 1 1 0 0 1)
  /\ 1 = counted SV_COMP result.CATEGORY_CORRECT false run_set
  /\ 1 = counted SV_COMP result.CATEGORY_CORRECT true run_set
  /\ 1 = counted SV_COMP result.CATEGORY_CORRECT_UNCONFIRMED false run_set
  /\ 0 = counted SV_COMP result.CATEGORY_CORRECT_UNCONFIRMED true run_set
  /\ 0 = counted SV_COMP result.CATEGORY_WRONG false run_set
  /\ 1 = counted SV_COMP result.CATEGORY_WRONG true run_set.
Proof.
  split; [reflexivity|].
  apply (get_scores_data_counters run_set "unreach-call.ReachSafety-Loops"
           SV_COMP
           (mkScoresData (NDec (-13 # 1)) (NDec (-15 # 1)) 1 1 1 0 0 1)).
  reflexivity.
Defined.

Lemma get_score_listed_witness :
  rr_score empty_score_cell = Some (NInt 2)
  /\ get_score empty_score_cell SV_COMP = Ok None.
Proof.
  split; [reflexivity|].
  refine (proj1 (proj2 (get_score_listed empty_score_cell SV_COMP 1 _)) _);
    reflexivity.
Defined.

Lemma handle_meta_category_no_child_witness :
  handle_meta_category "Overall" demo_structure processed_categories
  = Raise ZeroDivisionError.
Proof.
  apply (handle_meta_category_no_child "Overall" demo_structure
           processed_categories (mkCategoryDef ["v"] ["A"; "B"]));
    [reflexivity | repeat constructor].
Defined.

Lemma handle_meta_category_participants_witness :
  handle_meta_category "Overall" structure_two processed_one_missing
  = Ok (mkMetaCategory "Overall" 2 2 0 (NDec (4 # 1)) [("v", NDec (4 # 1))])
  /\ exists meta children,
       dict_get String.eqb "Overall" (get_categories structure_two) = Some meta
       /\ subcategories_of structure_two (get_demo_categories structure_two)
            (sub_categories meta) processed_one_missing = Ok children
       /\ forall verifier,
            (exists s, dict_get String.eqb verifier [("v", NDec (4 # 1))]
                       = Some s)
            <-> In verifier (verifiers meta)
                /\ str_in "Overall" (validation_only structure_two) = false
                /\ Forall (fun nc =>
                             exists r, dict_get String.eqb verifier
                                         (results (snd nc)) = Some r) children.
Proof.
  split; [reflexivity|].
  apply (handle_meta_category_participants "Overall" structure_two
           processed_one_missing
           (mkMetaCategory "Overall" 2 2 0 (NDec (4 # 1)) [("v", NDec (4 # 1))])).
  reflexivity.
Defined.

End ScoresFacts.

(** ** Ranking: who can be ranked *)

Module RankingFacts.
Import Utils Scores.

Section WithDecimal.
Context {D : Type} `{Decimal D} {QPoint : Type}.

(** The competitors of the verification track are the participants
    that pass the three tests, in the order of the results. *)
Lemma competitors_of_verification
    (participation_labels : string -> Exc (list string))
    (category : VerificationCategory D QPoint) (category_info : CategoryInfo)
    (competitors : list (string * CategoryResult D QPoint)) :
  Scores.competitors_of participation_labels category category_info
  = Ok competitors ->
  forall x,
    In x competitors
    <-> In x (results category)
        /\ is_hors_concours participation_labels (fst x) = Ok false
        /\ is_opt_out (name category) (fst x) category_info = false
        /\ Z.eqb (tasks_true category + tasks_false category) 0 = false.
Proof.
  unfold Scores.competitors_of.
  assert (Hgen : forall rs acc res : list (string * CategoryResult D QPoint),
             for_each
               (fun acc vr =>
                  hc <- is_hors_concours participation_labels (fst vr) ;;
                  if negb hc
                     && negb (is_opt_out (name category) (fst vr) category_info)
                     && negb (Z.eqb (tasks_true category + tasks_false category) 0)
                  then Ok (acc ++ [vr])%list else Ok acc) rs acc = Ok res ->
             forall x,
               In x res
               <-> In x acc
                   \/ (In x rs
                       /\ is_hors_concours participation_labels (fst x) = Ok false
                       /\ is_opt_out (name category) (fst x) category_info = false
                       /\ Z.eqb (tasks_true category + tasks_false category) 0
                          = false)).
  { induction rs as [|vr rs IH]; intros acc res Hloop x; cbn [for_each] in Hloop.
    - inversion Hloop; subst. cbn [In]. tauto.
    - bind_inv_as Hloop acc1 Hstep. rewrite (IH _ _ Hloop x). cbn [In].
      bind_inv_as Hstep hc Hhc.
      destruct hc; cbn [negb andb] in Hstep.
      + inversion Hstep; subst acc1. split; [tauto|].
        intros [Hacc|[[->|Hin] Hc]]; [tauto | | tauto].
        destruct Hc as (Hc & _). congruence.
      + destruct (is_opt_out (name category) (fst vr) category_info) eqn:Hopt;
          cbn [negb andb] in Hstep.
        * inversion Hstep; subst acc1. split; [tauto|].
          intros [Hacc|[[->|Hin] Hc]]; [tauto | | tauto].
          destruct Hc as (_ & Hc & _). congruence.
        * destruct (Z.eqb (tasks_true category + tasks_false category) 0)
            eqn:Htasks; cbn [negb] in Hstep; inversion Hstep; subst acc1.
          -- split; [tauto|].
             intros [Hacc|[[->|Hin] Hc]]; [tauto | | tauto].
             destruct Hc as (_ & _ & Hc). congruence.
          -- rewrite in_app_iff. cbn [In]. split.
             ++ intros [[Hacc|[->|[]]]|Hrs]; [tauto | | tauto].
                right. repeat split; auto.
             ++ intros [Hacc|[[->|Hin] Hc]]; tauto. }
  intros Hloop x. rewrite (Hgen _ _ _ Hloop x). cbn [In]. tauto.
Qed.

Lemma in_pad_to_3 {A} (l : list (option A)) (a : A) :
  In (Some a) (pad_to_3 l) -> In (Some a) l.
Proof.
  unfold pad_to_3. rewrite in_app_iff. intros [Hl|Hpad]; [exact Hl|].
  apply repeat_spec in Hpad. discriminate.
Qed.

Lemma in_firstn {A} (n : nat) (l : list A) (x : A) :
  In x (firstn n l) -> In x l.
Proof.
  intros Hin. rewrite <- (firstn_skipn n l). apply in_or_app. left. exact Hin.
Qed.

Lemma in_firstn_3_sorted {A} (key : A -> Num D * Num D) (xs : list A) (x : A) :
  In x (firstn 3 (sorted_desc key xs)) -> In x xs.
Proof.
  intros Hin.
  eapply Permutation_in; [apply RankingSpec.sorted_desc_perm|].
  exact (in_firstn _ _ _ Hin).
Qed.

(** X19: the medals of the verification track.  Every name that
    [get_best] returns is a participant with a result in the category
    that is not hors concours and has not opted out of the category, and
    the category has tasks. *)
Theorem get_best_names_verification
    (participation_labels : string -> Exc (list string))
    (category : VerificationCategory D QPoint) (category_info : CategoryInfo)
    (is_falsification : bool) (l : list (option string)) (v : string) :
  Scores.get_best participation_labels category category_info is_falsification
  = Ok l ->
  In (Some v) l ->
  exists r,
    In (v, r) (results category)
    /\ is_hors_concours participation_labels v = Ok false
    /\ is_opt_out (name category) v category_info = false
    /\ Z.eqb (tasks_true category + tasks_false category) 0 = false.
Proof.
  unfold Scores.get_best. intros Hl Hin.
  bind_inv_as Hl competitors Hc. inversion Hl; subst l. clear Hl.
  apply in_pad_to_3, in_map_iff in Hin.
  destruct Hin as ([v0 r] & Hv & Hin). inversion Hv; subst v0.
  apply in_firstn_3_sorted in Hin.
  apply (competitors_of_verification _ _ _ _ Hc) in Hin.
  exists r. exact Hin.
Qed.

(** The competitors of the validation track. *)
Lemma competitors_of_validation (competes_in : string -> Exc bool)
    (participation_labels : string -> Exc (list string))
    (category : ValidationCategory D QPoint)
    (competitors : list (string * CategoryResult D QPoint)) :
  ScoresValidators.competitors_of competes_in participation_labels category
  = Ok competitors ->
  forall validator r,
    In (validator, r) competitors ->
    exists key,
      In (key, r) (val_results category)
      /\ validator = split_head_str "-validate-" key
      /\ competes_in validator = Ok true
      /\ is_hors_concours participation_labels validator = Ok false
      /\ Z.ltb 0 (witnesses_correct category + witnesses_wrong category) = true.
Proof.
  unfold ScoresValidators.competitors_of.
  set (P := fun acc : list (string * CategoryResult D QPoint) =>
              forall validator r,
                In (validator, r) acc ->
                exists key,
                  In (key, r) (val_results category)
                  /\ validator = split_head_str "-validate-" key
                  /\ competes_in validator = Ok true
                  /\ is_hors_concours participation_labels validator = Ok false
                  /\ Z.ltb 0 (witnesses_correct category
                              + witnesses_wrong category) = true).
  assert (Hgen : forall (rs acc res : list (string * CategoryResult D QPoint)),
             incl rs (val_results category) ->
             P acc ->
             for_each
               (fun acc vr =>
                  let validator := split_head_str "-validate-" (fst vr) in
                  considered <-
                    (ci <- competes_in validator ;;
                     if ci then
                       hc <- is_hors_concours participation_labels validator ;;
                       Ok (negb hc
                           && Z.ltb 0 (witnesses_correct category
                                       + witnesses_wrong category))
                     else Ok false) ;;
                  if considered then Ok (acc ++ [(validator, snd vr)])%list
                  else Ok acc) rs acc = Ok res ->
             P res).
  { induction rs as [|[key r0] rs IH]; intros acc res Hincl Hacc Hloop;
      cbn [for_each] in Hloop.
    - inversion Hloop; subst. exact Hacc.
    - bind_inv_as Hloop acc1 Hstep.
      refine (IH _ _ (fun x Hx => Hincl x (or_intror Hx)) _ Hloop).
      cbn [fst snd] in Hstep. cbv zeta in Hstep.
      bind_inv_as Hstep considered Hcons.
      destruct considered; injection Hstep as <-; [|exact Hacc].
      intros validator r Hin.
      apply in_app_or in Hin. destruct Hin as [Hin|[Heq|[]]]; [auto|].
      injection Heq as <- <-.
      bind_inv_as Hcons ci Hci. destruct ci; [|discriminate].
      bind_inv_as Hcons hc Hhc. injection Hcons as Hand.
      apply andb_true_iff in Hand. destruct Hand as [Hnhc Hw].
      destruct hc; [discriminate|].
      exists key. split; [apply Hincl; left; reflexivity|].
      split; [reflexivity|]. split; [exact Hci|]. split; [exact Hhc|exact Hw]. }
  intros Hloop. refine (Hgen _ _ _ (incl_refl _) _ Hloop).
  intros validator r [].
Qed.

(** X20: the medals of the validation track.  Every name that
    [get_best] returns is the name, up to "-validate-", under which a
    validator has a result in the category; the validator competes in
    the track, is not hors concours and has a positive score, and the
    category has witnesses. *)
Theorem get_best_names_validation (competes_in : string -> Exc bool)
    (participation_labels : string -> Exc (list string))
    (category : ValidationCategory D QPoint) (is_falsification : bool)
    (l : list (option string)) (v : string) :
  ScoresValidators.get_best competes_in participation_labels category
    is_falsification = Ok l ->
  In (Some v) l ->
  exists key r,
    In (key, r) (val_results category)
    /\ v = split_head_str "-validate-" key
    /\ num_ltb (NInt 0) (score r) = true
    /\ competes_in v = Ok true
    /\ is_hors_concours participation_labels v = Ok false
    /\ Z.ltb 0 (witnesses_correct category + witnesses_wrong category) = true.
Proof.
  unfold ScoresValidators.get_best. intros Hl Hin.
  bind_inv_as Hl competitors Hc.
  set (names := map _ (firstn 3 _)) in Hl.
  assert (Hcut : l = firstn 3 (if (List.length names <? 3)%nat
                              then (names ++ repeat None
                                      (List.length
                                         (filter ScoresValidators.non_positive
                                            competitors)))%list
                              else names)) by congruence.
  clear Hl. subst l. subst names.
  assert (Hnames : In (Some v)
                     (map (fun x : string * CategoryResult D QPoint =>
                             Some (fst x))
                        (firstn 3
                           (sorted_desc (competitor_key is_falsification)
                              (filter ScoresValidators.positive competitors))))).
  { apply in_firstn in Hin.
    destruct (_ <? 3)%nat; [|exact Hin].
    apply in_app_or in Hin. destruct Hin as [Hin|Hrep]; [exact Hin|].
    apply repeat_spec in Hrep. discriminate. }
  apply in_map_iff in Hnames. destruct Hnames as ([v0 r] & Hv & Hin0).
  injection Hv as ->. apply in_firstn_3_sorted, filter_In in Hin0.
  destruct Hin0 as [Hcomp Hpos].
  destruct (competitors_of_validation _ _ _ _ Hc v r Hcomp)
    as (key & Hkey & Hname & Hci & Hhc & Hw).
  exists key, r. repeat split; assumption.
Qed.

End WithDecimal.

Import Examples.

Lemma get_best_names_verification_witness :
  Scores.get_best b_is_meta_tool category_four category_structure false
  = Ok [Some "c"; Some "a"; Some "d"]
  /\ exists r,
       In ("c", r) (results category_four)
       /\ is_hors_concours b_is_meta_tool "c" = Ok false
       /\ is_opt_out (name category_four) "c" category_structure = false
       /\ Z.eqb (tasks_true category_four + tasks_false category_four) 0 = false.
Proof.
  split; [reflexivity|].
  apply (get_best_names_verification b_is_meta_tool category_four
           category_structure false [Some "c"; Some "a"; Some "d"] "c");
    [reflexivity | left; reflexivity].
Defined.

Lemma get_best_names_validation_witness :
  ScoresValidators.get_best all_compete no_labels validation_two false
  = Ok [Some "a"; None]
  /\ exists key r,
       In (key, r) (val_results validation_two)
       /\ "a" = split_head_str "-validate-" key
       /\ num_ltb (NInt 0) (score r) = true
       /\ all_compete "a" = Ok true
       /\ is_hors_concours no_labels "a" = Ok false
       /\ Z.ltb 0 (witnesses_correct validation_two
                   + witnesses_wrong validation_two) = true.
Proof.
  split; [reflexivity|].
  apply (get_best_names_validation all_compete no_labels validation_two false
           [Some "a"; None] "a");
    [reflexivity | left; reflexivity].
Defined.

End RankingFacts.

(** ** Names of validators and accumulated measurements *)

Module UtilsFacts.
Import Utils ScoresValidators.

(** *** Strings *)

Lemma prefix_append (s t : string) : String.prefix s (s ++ t) = true.
Proof.
  induction s as [|c s IH]; cbn; [destruct t; reflexivity|].
  destruct (ascii_dec c c); [exact IH | contradiction].
Qed.

(** The first characters of a string decide what it begins with. *)
Lemma prefix_append_long (a u t : string) :
  (String.length a <= String.length u)%nat ->
  String.prefix a (u ++ t) = String.prefix a u.
Proof.
  revert u. induction a as [|c a IH]; intros u Hlen;
    [destruct (u ++ t); destruct u; reflexivity|].
  destruct u as [|d u]; cbn in Hlen; [lia|].
  cbn. destruct (ascii_dec c d); [apply IH; lia | reflexivity].
Qed.

Lemma append_assoc (s t u : string) : (s ++ t) ++ u = s ++ (t ++ u).
Proof. induction s as [|c s IH]; cbn; [reflexivity | rewrite IH; reflexivity]. Qed.

Lemma append_length (s t : string) :
  String.length (s ++ t) = (String.length s + String.length t)%nat.
Proof. induction s as [|c s IH]; cbn; [reflexivity | rewrite IH; reflexivity]. Qed.

Lemma rev_string_append (s t : string) :
  rev_string (s ++ t) = rev_string t ++ rev_string s.
Proof.
  induction s as [|c s IH]; cbn.
  - induction (rev_string t) as [|d r IHr]; cbn; [reflexivity|].
    rewrite <- IHr. reflexivity.
  - rewrite IH, append_assoc. reflexivity.
Qed.

Lemma endswith_append (s t : string) : endswith (s ++ t) t = true.
Proof. unfold endswith. rewrite rev_string_append. apply prefix_append. Qed.

Lemma split_head_str_cons (sep : string) (c : ascii) (s : string) :
  split_head_str sep (String c s)
  = if String.prefix sep (String c s) then EmptyString
    else String c (split_head_str sep s).
Proof. reflexivity. Qed.

(** The part of a name before the first "-validate-". *)
Lemma split_head_str_validate (v rest : string) :
  contains (v ++ "-validate") "-validate-" = false ->
  split_head_str "-validate-" (v ++ "-validate-" ++ rest) = v.
Proof.
  induction v as [|c v IH]; intros Hno.
  - change ("" ++ "-validate-" ++ rest)
      with (String "-" ("validate-" ++ rest)).
    rewrite split_head_str_cons.
    change (String "-" ("validate-" ++ rest)) with ("-validate-" ++ rest).
    rewrite prefix_append. reflexivity.
  - change (String c v ++ "-validate") with (String c (v ++ "-validate")) in Hno.
    cbn [contains] in Hno. apply orb_false_iff in Hno.
    destruct Hno as [Hhere Hlater].
    change (String c v ++ "-validate-" ++ rest)
      with (String c (v ++ "-validate-" ++ rest)).
    rewrite split_head_str_cons.
    assert (Hpre : String.prefix "-validate-"
                     (String c (v ++ "-validate-" ++ rest)) = false).
    { change (String c (v ++ "-validate-" ++ rest))
        with (String c v ++ ("-validate" ++ ("-" ++ rest))).
      rewrite <- append_assoc, prefix_append_long; [exact Hhere|].
      rewrite append_length. cbn. lia. }
    rewrite Hpre, (IH Hlater). reflexivity.
Qed.

(** X21: the names of the validators.  [validator_with_suffix] names a
    validator as [validators_of_competition] does, the validator's name
    followed by "-validate-" and the postfix of the track, so the name
    ends with the postfix; and [normalize_validator_name] gives the
    validator's name back, provided that name neither contains
    "-validate-" nor ends in "-validate". *)
Theorem validator_with_suffix_round_trip (validator track_value name : string) :
  validator_with_suffix validator track_value = Ok name ->
  name = validator ++ "-validate-" ++ postfix_of_track track_value
  /\ endswith name (postfix_of_track track_value) = true
  /\ (contains (validator ++ "-validate") "-validate-" = false ->
      normalize_validator_name name = validator).
Proof.
  unfold validator_with_suffix, postfix_of_track. intros Hname.
  destruct (split_words _) as [|k [|w [|ver [|x xs]]]]; try discriminate.
  injection Hname as <-.
  change (String.concat "-" [k; w; ver]) with (k ++ "-" ++ w ++ "-" ++ ver).
  split; [reflexivity|]. split.
  - change (endswith
              (validator ++ "-validate-" ++ (k ++ "-" ++ w ++ "-" ++ ver))
              (k ++ "-" ++ w ++ "-" ++ ver) = true).
    rewrite <- (append_assoc validator "-validate-").
    apply endswith_append.
  - intros Hno.
    exact (split_head_str_validate validator (k ++ "-" ++ w ++ "-" ++ ver) Hno).
Qed.

(** *** Accumulated measurements *)

Section WithDecimal.
Context {D : Type} `{Decimal D}.

(** X22: the measurements of a meta category.  [accumulate_data] gives
    [Decimal]s throughout, also for no data, and no sequence; so adding
    its result to any measurement with [+], on either side, raises
    [TypeError]. *)
Theorem accumulate_data_no_sequence (data : list (CategoryData D))
    (other : CategoryData D) :
  sequence (accumulate_data data) = None
  /\ CategoryData_add (accumulate_data data) other = Raise TypeError
  /\ CategoryData_add other (accumulate_data data) = Raise TypeError
  /\ (exists t s sf u uf,
         CategoryData_totals (accumulate_data data)
         = (NDec t, NDec s, NDec sf, NDec (dec_sub s sf),
            NDec u, NDec uf, NDec (dec_sub u uf)))
  /\ CategoryData_totals (accumulate_data [])
     = (NDec (Decimal_of_Z 0), NDec (Decimal_of_Z 0), NDec (Decimal_of_Z 0),
        NDec (dec_sub (Decimal_of_Z 0) (Decimal_of_Z 0)),
        NDec (Decimal_of_Z 0), NDec (Decimal_of_Z 0),
        NDec (dec_sub (Decimal_of_Z 0) (Decimal_of_Z 0))).
Proof.
  split; [reflexivity|]. split; [reflexivity|].
  split; [unfold CategoryData_add; destruct (sequence other); reflexivity|].
  split; [|reflexivity].
  unfold accumulate_data, CategoryData_totals, CategoryData_init, category_sum.
  cbn. repeat eexists.
Qed.

End WithDecimal.

Import Examples.

Lemma validator_with_suffix_round_trip_witness :
  validator_with_suffix "cpachecker" track_violation_2
  = Ok "cpachecker-validate-violation-witnesses-2.0"
  /\ normalize_validator_name "cpachecker-validate-violation-witnesses-2.0"
     = "cpachecker".
Proof.
  split; [reflexivity|].
  refine (proj2 (proj2 (validator_with_suffix_round_trip "cpachecker"
                          track_violation_2
                          "cpachecker-validate-violation-witnesses-2.0" _)) _);
    reflexivity.
Defined.

End UtilsFacts.

(** ** The tasks of a category *)

Module ScoresInfoFacts.
Import Utils Scores.

Section WithDecimal.
Context {D : Type} `{Decimal D} {QPoint : Type}.

Lemma count_tasks_counts (results : list (RunResult (D := D) * option (option bool)))
    (count_true count_false : Z) :
  count_tasks results = Ok (count_true, count_false) ->
  count_true
  = Z.of_nat (List.length (filter expected_true (valid_runs results)))
  /\ count_false
     = Z.of_nat (List.length
                   (filter (fun rr => negb (expected_true rr))
                      (valid_runs results))).
Proof.
  unfold count_tasks.
  assert (Hgen : forall rs t f t' f',
             for_each
               (fun counts (rr : RunResult (D := D) * option (option bool)) =>
                  let '(count_true, count_false) := counts in
                  let '(run_result, expected_result) := rr in
                  if negb (String.eqb (category run_result)
                             result.CATEGORY_MISSING) then
                    match expected_result with
                    | None => Raise AttributeError
                    | Some (Some true) => Ok (count_true + 1, count_false)
                    | Some _ => Ok (count_true, count_false + 1)
                    end
                  else Ok counts) rs (t, f) = Ok (t', f') ->
             t' = t + Z.of_nat (List.length (filter expected_true (valid_runs rs)))
             /\ f' = f + Z.of_nat
                           (List.length
                              (filter (fun rr => negb (expected_true rr))
                                 (valid_runs rs)))).
  { induction rs as [|[r e] rs IH]; intros t f t' f' Hloop;
      cbn [for_each] in Hloop.
    - inversion Hloop; subst. cbn. lia.
    - bind_inv_as Hloop st Hstep. destruct st as [t1 f1].
      specialize (IH _ _ _ _ Hloop).
      unfold valid_runs in *. cbn [filter fst].
      destruct (negb (String.eqb (category r) result.CATEGORY_MISSING)).
      + destruct e as [[[|]|]|]; try discriminate;
          injection Hstep as <- <-;
          cbn [filter expected_true snd negb List.length] in *; lia.
      + injection Hstep as <- <-. exact IH. }
  intros Hloop. specialize (Hgen _ _ _ _ _ Hloop). lia.
Qed.

(** X23: the tasks of a category.  [get_category_info] never returns a
    category without valid tasks: it returns [None] instead.  For a run
    set without score column whose file is not a coverage result of
    Test-Comp, the true and false tasks are the runs that are not of
    category "missing", split by the expected verdict, the possible
    score is 2 for each true task and 1 for each false task, and the
    possible score of the false tasks is 1 for each false task -- 0 in
    the termination category of the device drivers.  A run set with a
    score column has no category info unless its file is a coverage
    result of Test-Comp. *)
Theorem get_category_info_tasks (n_rows : Z) (columns : list string)
    (filename : string) (results : list (RunResult (D := D) * option (option bool)))
    (category : string) :
  (forall c,
      get_category_info (QPoint := QPoint) n_rows columns filename results
        category = Ok (Some c) ->
      Z.eqb (tasks_true c + tasks_false c) 0 = false
      /\ name c = category /\ tasks c = n_rows /\ Utils.results c = []
      /\ (_get_column_index SCORE_COLUMN_NAME columns = None ->
          contains filename ".results.Test-Comp25_coverage-" = false ->
          tasks_true c
          = Z.of_nat (List.length (filter expected_true (valid_runs results)))
          /\ tasks_false c
             = Z.of_nat (List.length
                           (filter (fun rr => negb (expected_true rr))
                              (valid_runs results)))
          /\ possible_score c = NInt (2 * tasks_true c + tasks_false c)
          /\ possible_score_false c
             = NInt (if String.eqb category TERMINATION_DEVICE_DRIVERS
                     then 0 else tasks_false c)))
  /\ (forall i,
         _get_column_index SCORE_COLUMN_NAME columns = Some i ->
         contains filename ".results.Test-Comp25_coverage-" = false ->
         get_category_info (QPoint := QPoint) n_rows columns filename results
           category = Ok None).
Proof.
  unfold get_category_info. split.
  - intros c Hc. bind_inv_as Hc counts Hcounts.
    destruct counts as [[[ct cf] ps] psf].
    destruct (Z.eqb ((if contains filename ".results.Test-Comp25_coverage-"
                      then n_rows else ct) + cf) 0) eqn:Hzero;
      [discriminate|].
    injection Hc as <-.
    cbn [tasks_true tasks_false name tasks Utils.results possible_score
         possible_score_false].
    split; [exact Hzero|].
    split; [reflexivity|]. split; [reflexivity|]. split; [reflexivity|].
    intros Hcol Hfile. rewrite Hcol in Hcounts. rewrite Hfile.
    bind_inv_as Hcounts tf Htf. destruct tf as [t f].
    injection Hcounts as <- <- <- <-.
    destruct (count_tasks_counts _ _ _ Htf) as [Ht Hf].
    unfold result._SCORE_CORRECT_TRUE, result._SCORE_CORRECT_FALSE.
    split; [exact Ht|]. split; [exact Hf|]. split.
    + f_equal. lia.
    + destruct (String.eqb category TERMINATION_DEVICE_DRIVERS);
        f_equal; lia.
  - intros i Hcol Hfile. rewrite Hcol, Hfile. reflexivity.
Qed.

End WithDecimal.

Import Examples.

Lemma get_category_info_tasks_witness :
  get_category_info (QPoint := unit) 3 ["status"] "v.results.SV-COMP25_x.xml"
    rated_results "ReachSafety"
  = Ok (Some (mkVerificationCategory "ReachSafety" 3 1 1 (NInt 3) (NInt 1) []))
  /\ Z.eqb (1 + 1) 0 = false.
Proof.
  split; [reflexivity|].
  refine (proj1 (proj1 (get_category_info_tasks (QPoint := unit) 3 ["status"]
                          "v.results.SV-COMP25_x.xml" rated_results
                          "ReachSafety")
                   (mkVerificationCategory "ReachSafety" 3 1 1 (NInt 3)
                      (NInt 1) []) _)).
  reflexivity.
Defined.

End ScoresInfoFacts.

(** ** Participation and exclusion in the validation track *)

Module ParticipationFacts.
Import ScoresValidators ResultsValidators.

Lemma participates_in_meta_unknown (category tool check_for : string)
    (categories : list (string * ToolCategory)) (metas : list string) :
  (forall meta, In meta metas ->
     exists c subs, dict_get String.eqb meta categories = Some c
                    /\ tc_categories c = Some subs
                    /\ str_in category subs = false) ->
  participates_in_meta category tool check_for categories metas = Ok false.
Proof.
  induction metas as [|meta metas IH]; intros Hall; [reflexivity|].
  cbn [participates_in_meta].
  destruct (Hall meta (or_introl eq_refl)) as (c & subs & Hc & Hs & Hno).
  rewrite Hc. cbn [item bind]. rewrite Hs. cbn [item bind]. rewrite Hno.
  apply IH. intros m Hm. apply Hall. right. exact Hm.
Qed.

(** X24: who participates in a category.  [does_tool_participate]
    fails with an [AssertionError] for a [check_for] other than
    "validators" and "verifiers".  Otherwise, for a category structure
    with its three keys: a tool whose name contains a rejected name does
    not participate, whatever it has opted into; a tool that has opted
    out of the category does not participate, even if it has opted in as
    well; any other tool that has opted in participates, also in a
    category that the structure does not know; and a tool that has not
    opted in does not participate in a category that is neither a key
    nor a sub-category of the structure. *)
Theorem does_tool_participate_precedence (category tool : string)
    (category_info : ToolCategoryInfo) (default_reject : list string)
    (check_for : string) :
  (str_in check_for ["validators"; "verifiers"] = false ->
   does_tool_participate category tool category_info default_reject check_for
   = Raise AssertionError)
  /\ (forall categories opt_out opt_in,
         str_in check_for ["validators"; "verifiers"] = true ->
         category_info
         = mkToolCategoryInfo (Some categories) (Some opt_out) (Some opt_in) ->
         let rejected := existsb (fun t => contains tool t) default_reject in
         let out := str_in category (get_or_empty tool opt_out) in
         let in_ := str_in category (get_or_empty tool opt_in) in
         (rejected = true ->
          does_tool_participate category tool category_info default_reject
            check_for = Ok false)
         /\ (out = true ->
             does_tool_participate category tool category_info default_reject
               check_for = Ok false)
         /\ (rejected = false -> out = false -> in_ = true ->
             does_tool_participate category tool category_info default_reject
               check_for = Ok true)
         /\ (in_ = false ->
             dict_get String.eqb category categories = None ->
             (forall meta c, In (meta, c) categories ->
                exists subs, tc_categories c = Some subs
                             /\ str_in category subs = false) ->
             does_tool_participate category tool category_info default_reject
               check_for = Ok false)).
Proof.
  unfold does_tool_participate. split.
  - intros ->. reflexivity.
  - intros categories opt_out opt_in -> ->. cbn [assert bind item
      tci_categories tci_opt_out tci_opt_in]. cbv zeta.
    split; [intros ->; reflexivity|].
    split; [intros ->; destruct (existsb _ _); reflexivity|].
    split; [intros -> -> ->; reflexivity|].
    intros -> Hkey Hsubs. rewrite Hkey.
    destruct (existsb _ _); [reflexivity|].
    destruct (str_in category (get_or_empty tool opt_out)); [reflexivity|].
    apply participates_in_meta_unknown.
    intros meta Hmeta. apply in_map_iff in Hmeta.
    destruct Hmeta as ([m c] & Hm & Hin). cbn in Hm. subst m.
    assert (Hfound : exists c', dict_get String.eqb meta categories = Some c'
                                /\ In (meta, c') categories).
    { clear - Hin. induction categories as [|[k v] cs IH]; [contradiction|].
      cbn [dict_get]. destruct (String.eqb meta k) eqn:Hk.
      - apply String.eqb_eq in Hk. subst k. exists v. split; [reflexivity|].
        left. reflexivity.
      - destruct Hin as [Heq | Hin].
        + injection Heq as -> ->. rewrite String.eqb_refl in Hk. discriminate.
        + destruct (IH Hin) as (c' & Hget & Hin'). exists c'.
          split; [exact Hget | right; exact Hin']. }
    destruct Hfound as (c' & Hget & Hin').
    destruct (Hsubs meta c' Hin') as (subs & Hsub & Hno).
    exists c', subs. auto.
Qed.

(** X25: the tasks that the validation track excludes.
    [is_task_excluded_in_validation_track] fails with an
    [AssertionError] for a version other than 1.0 and 2.0 and for a
    witness other than correctness and violation.  No task is excluded
    for violation witnesses 1.0; the tasks of a category of
    ConcurrencySafety are excluded for all other witnesses; for
    correctness witnesses the version makes no difference; and a task
    that is not excluded for correctness witnesses is not excluded for
    violation witnesses of either version. *)
Theorem is_task_excluded_table (version witness category : string)
    (specification expectedVerdict : pystr) :
  (str_in version ["1.0"; "2.0"] && str_in witness ["correctness"; "violation"]
   = false ->
   is_task_excluded_in_validation_track version witness category specification
     expectedVerdict = Raise AssertionError)
  /\ is_task_excluded_in_validation_track "1.0" "violation" category
       specification expectedVerdict = Ok false
  /\ (contains category "ConcurrencySafety" = true ->
      is_task_excluded_in_validation_track "2.0" "violation" category
        specification expectedVerdict = Ok true
      /\ is_task_excluded_in_validation_track "1.0" "correctness" category
           specification expectedVerdict = Ok true
      /\ is_task_excluded_in_validation_track "2.0" "correctness" category
           specification expectedVerdict = Ok true)
  /\ is_task_excluded_in_validation_track "1.0" "correctness" category
       specification expectedVerdict
     = is_task_excluded_in_validation_track "2.0" "correctness" category
         specification expectedVerdict
  /\ (is_task_excluded_in_validation_track "2.0" "correctness" category
        specification expectedVerdict = Ok false ->
      is_task_excluded_in_validation_track "2.0" "violation" category
        specification expectedVerdict = Ok false).
Proof.
  split.
  - unfold is_task_excluded_in_validation_track. intros Hbad.
    destruct (str_in version ["1.0"; "2.0"]); [|reflexivity].
    cbn [andb] in Hbad. rewrite Hbad. reflexivity.
  - split; [reflexivity|].
    unfold is_task_excluded_in_validation_track.
    cbn [str_in existsb String.eqb Ascii.eqb Bool.eqb orb assert bind].
    split; [intros ->; repeat split; reflexivity|].
    split; [reflexivity|].
    destruct (contains category "ConcurrencySafety"); [discriminate|].
    destruct specification as [spec|]; cbn [in_attribute bind];
      [|discriminate].
    destruct (contains spec "no-overflow"), (contains spec "unreach-call");
      cbn [bind]; try reflexivity; discriminate.
Qed.

Import Examples.

Lemma does_tool_participate_precedence_witness :
  does_tool_participate "ReachSafety-Arrays"
    "val-validate-violation-witnesses-2.0" tool_structure ["witnesslint"]
    "validators" = Ok false
  /\ does_tool_participate "ReachSafety-Arrays"
       "witnesslint-validate-violation-witnesses-2.0" tool_structure
       ["witnesslint"] "validators" = Ok false
  /\ does_tool_participate "ReachSafety-Loops"
       "other-validate-violation-witnesses-2.0" tool_structure ["witnesslint"]
       "validators" = Ok true.
Proof.
  split; [|split].
  - refine (proj1 (proj2 (proj2 (does_tool_participate_precedence
                                   "ReachSafety-Arrays"
                                   "val-validate-violation-witnesses-2.0"
                                   tool_structure ["witnesslint"] "validators")
                            _ _ _ _ _)) _); reflexivity.
  - refine (proj1 (proj2 (does_tool_participate_precedence
                            "ReachSafety-Arrays"
                            "witnesslint-validate-violation-witnesses-2.0"
                            tool_structure ["witnesslint"] "validators")
                     _ _ _ _ _) _); reflexivity.
  - refine (proj1 (proj2 (proj2 (proj2 (does_tool_participate_precedence
                                   "ReachSafety-Loops"
                                   "other-validate-violation-witnesses-2.0"
                                   tool_structure ["witnesslint"] "validators")
                            _ _ _ _ _))) _ _ _); reflexivity.
Defined.

Lemma is_task_excluded_table_witness :
  is_task_excluded_in_validation_track "2.0" "correctness" "ReachSafety-Heap"
    (Some "../properties/no-overflow.prp") (Some "true") = Ok false
  /\ is_task_excluded_in_validation_track "2.0" "violation" "ReachSafety-Heap"
       (Some "../properties/no-overflow.prp") (Some "true") = Ok false.
Proof.
  split; [reflexivity|].
  refine (proj2 (proj2 (proj2 (proj2 (is_task_excluded_table "2.0" "violation"
                                        "ReachSafety-Heap"
                                        (Some "../properties/no-overflow.prp")
                                        (Some "true"))))) _).
  reflexivity.
Defined.

End ParticipationFacts.
